(** * CMD-validator: the name scorer and the reconciliation engine

    Shallow embedding of [WordMatch.py], [CDMmodel.py], [ErrorLog.py],
    [Validation.py] and the linking functions of [CDMparser.py].

    Conventions of the embedding
    - A Python [str] is written as the [string] of its UTF-8 bytes, which
      equality and concatenation read as they read the [str].  The scorer,
      which counts, compares and upper-cases characters, works on the
      code points of the [str]; [str.upper] is the full uppercase mapping
      of Unicode.
    - A similarity score is the exact rational [1 - d / m]; the engine only
      ever compares a score with the threshold [0.85] or with another
      score.
    - A Python [set] of model objects is a list in the set's iteration
      order.  Model objects define neither [__hash__] nor [__eq__], so that
      order is a function of object addresses and is not fixed by the
      program: it is the parameter [set_iter] of the engine.  Removing an
      element leaves the relative order of the others unchanged.
    - [ErrorLog.add_error] only appends and [Validation] never reads the
      log back, so a computation is modelled by the diagnostics it emits
      together with its outcome (a value or a Python exception). *)

From Stdlib Require Import List String Ascii Arith NArith ZArith QArith Lia Bool.
From Corelib Require Import PrimFloat.
From stdpp Require Import base decidable list strings.
Import ListNotations.

Local Open Scope string_scope.
Local Open Scope nat_scope.
Local Open Scope list_scope.

(** ** WordMatch.py

    A Python [str] is a sequence of Unicode code points: [len] counts
    them, [for c in s] visits them, [c1 != c2] compares them and
    [str.upper] maps them.  The scorer works on that sequence, a list of
    code points.  Everywhere else a [str] is only compared, stored and
    concatenated, and is written as the [string] of its UTF-8 bytes;
    [chars] reads the code points of such a [string]. *)

Module WordMatch.

(** A continuation byte of a UTF-8 sequence. *)
Definition continuation (b : N) : bool := ((128 <=? b) && (b <? 192))%N.

(** The code points of the UTF-8 text [s]: sequences of one to four
    bytes, in shortest form, of a code point that is no surrogate.  A byte
    that belongs to no such sequence (no [str] is encoded with one) is
    read as Python's [surrogateescape] reads it, as [0xDC00 + b]. *)
Fixpoint chars (s : string) : list N :=
  match s with
  | EmptyString => []
  | String a0 s1 =>
      let b0 := N_of_ascii a0 in
      if (b0 <? 128)%N then b0 :: chars s1
      else
        match s1 with
        | EmptyString => (56320 + b0)%N :: chars s1
        | String a1 s2 =>
            let b1 := N_of_ascii a1 in
            if ((194 <=? b0) && (b0 <? 224))%N then
              if continuation b1
              then ((b0 - 192) * 64 + (b1 - 128))%N :: chars s2
              else (56320 + b0)%N :: chars s1
            else
              match s2 with
              | EmptyString => (56320 + b0)%N :: chars s1
              | String a2 s3 =>
                  let b2 := N_of_ascii a2 in
                  if ((224 <=? b0) && (b0 <? 240))%N then
                    let c := ((b0 - 224) * 4096 + (b1 - 128) * 64
                              + (b2 - 128))%N in
                    if continuation b1 && continuation b2
                       && (2048 <=? c)%N
                       && negb ((55296 <=? c) && (c <? 57344))%N
                    then c :: chars s3
                    else (56320 + b0)%N :: chars s1
                  else
                    match s3 with
                    | EmptyString => (56320 + b0)%N :: chars s1
                    | String a3 s4 =>
                        let b3 := N_of_ascii a3 in
                        let c := ((b0 - 240) * 262144 + (b1 - 128) * 4096
                                  + (b2 - 128) * 64 + (b3 - 128))%N in
                        if ((240 <=? b0) && (b0 <? 245))%N
                           && continuation b1 && continuation b2
                           && continuation b3
                           && ((65536 <=? c) && (c <? 1114112))%N
                        then c :: chars s4
                        else (56320 + b0)%N :: chars s1
                    end
              end
        end
  end.

(** [c1 != c2] added to an integer: [False] is 0 and [True] is 1. *)
Definition neq_cost (c1 c2 : N) : nat :=
  if N.eqb c1 c2 then 0 else 1.

(** The inner [for j, c2 in enumerate(s2)] loop of [levenshtein_distance].
    [prev] is [previous_row[j:]] and [left] is [current_row[j]]; the result
    is what the loop appends to [current_row]. *)
Fixpoint inner_row (c1 : N) (s2 : list N) (prev : list nat)
    (left : nat) : list nat :=
  match s2, prev with
  | c2 :: s2', pj :: ((pj1 :: _) as prev') =>
      let insertions := pj1 + 1 in
      let deletions := left + 1 in
      let substitutions := pj + neq_cost c1 c2 in
      let v := Nat.min (Nat.min insertions deletions) substitutions in
      v :: inner_row c1 s2' prev' v
  | _, _ => []
  end.

(** One turn of the outer loop: [current_row = [i + 1]] followed by the
    inner loop. *)
Definition next_row (i : nat) (c1 : N) (s2 : list N)
    (prev : list nat) : list nat :=
  (i + 1) :: inner_row c1 s2 prev (i + 1).

(** The outer [for i, c1 in enumerate(s1)] loop, started at index [i]. *)
Fixpoint rows (i : nat) (s1 s2 : list N) (prev : list nat) : list nat :=
  match s1 with
  | [] => prev
  | c1 :: s1' => rows (S i) s1' s2 (next_row i c1 s2 prev)
  end.

(** The body of [levenshtein_distance] once [len(s1) >= len(s2)]. *)
Definition levenshtein_ordered (s1 s2 : list N) : nat :=
  if length s2 =? 0 then length s1
  else List.last (rows 0 s1 s2 (seq 0 (length s2 + 1))) 0.

Definition levenshtein_distance (s1 s2 : list N) : nat :=
  if length s1 <? length s2 then levenshtein_ordered s2 s1
  else levenshtein_ordered s1 s2.

(** [similarity_score]: [1.0] when both strings are empty, otherwise
    [1 - lev_distance / max_len].  [Qred] keeps the fraction in lowest
    terms, so that equal scores are equal terms, as equal floats are. *)
Definition similarity_score (s1 s2 : list N) : Q :=
  let lev_distance := levenshtein_distance s1 s2 in
  let max_len := Nat.max (length s1) (length s2) in
  if max_len =? 0 then 1%Q
  else Qred (1 - (Z.of_nat lev_distance # Pos.of_nat max_len))%Q.

(** The full uppercase mapping of the Unicode Character Database, version
    14.0, which [str.upper] applies to every code point of the string
    without regard to its neighbours: each code point that has an
    uppercase other than itself, in increasing order, with the one to
    three code points of that uppercase. *)
Definition unicode_upper : list (N * list N) :=
  [
   (97, [65]); (98, [66]); (99, [67]); (100, [68]); (101, [69]); (102, [70]);
   (103, [71]); (104, [72]); (105, [73]); (106, [74]); (107, [75]);
   (108, [76]); (109, [77]); (110, [78]); (111, [79]); (112, [80]);
   (113, [81]); (114, [82]); (115, [83]); (116, [84]); (117, [85]);
   (118, [86]); (119, [87]); (120, [88]); (121, [89]); (122, [90]);
   (181, [924]); (223, [83; 83]); (224, [192]); (225, [193]); (226, [194]);
   (227, [195]); (228, [196]); (229, [197]); (230, [198]); (231, [199]);
   (232, [200]); (233, [201]); (234, [202]); (235, [203]); (236, [204]);
   (237, [205]); (238, [206]); (239, [207]); (240, [208]); (241, [209]);
   (242, [210]); (243, [211]); (244, [212]); (245, [213]); (246, [214]);
   (248, [216]); (249, [217]); (250, [218]); (251, [219]); (252, [220]);
   (253, [221]); (254, [222]); (255, [376]); (257, [256]); (259, [258]);
   (261, [260]); (263, [262]); (265, [264]); (267, [266]); (269, [268]);
   (271, [270]); (273, [272]); (275, [274]); (277, [276]); (279, [278]);
   (281, [280]); (283, [282]); (285, [284]); (287, [286]); (289, [288]);
   (291, [290]); (293, [292]); (295, [294]); (297, [296]); (299, [298]);
   (301, [300]); (303, [302]); (305, [73]); (307, [306]); (309, [308]);
   (311, [310]); (314, [313]); (316, [315]); (318, [317]); (320, [319]);
   (322, [321]); (324, [323]); (326, [325]); (328, [327]); (329, [700; 78]);
   (331, [330]); (333, [332]); (335, [334]); (337, [336]); (339, [338]);
   (341, [340]); (343, [342]); (345, [344]); (347, [346]); (349, [348]);
   (351, [350]); (353, [352]); (355, [354]); (357, [356]); (359, [358]);
   (361, [360]); (363, [362]); (365, [364]); (367, [366]); (369, [368]);
   (371, [370]); (373, [372]); (375, [374]); (378, [377]); (380, [379]);
   (382, [381]); (383, [83]); (384, [579]); (387, [386]); (389, [388]);
   (392, [391]); (396, [395]); (402, [401]); (405, [502]); (409, [408]);
   (410, [573]); (414, [544]); (417, [416]); (419, [418]); (421, [420]);
   (424, [423]); (429, [428]); (432, [431]); (436, [435]); (438, [437]);
   (441, [440]); (445, [444]); (447, [503]); (453, [452]); (454, [452]);
   (456, [455]); (457, [455]); (459, [458]); (460, [458]); (462, [461]);
   (464, [463]); (466, [465]); (468, [467]); (470, [469]); (472, [471]);
   (474, [473]); (476, [475]); (477, [398]); (479, [478]); (481, [480]);
   (483, [482]); (485, [484]); (487, [486]); (489, [488]); (491, [490]);
   (493, [492]); (495, [494]); (496, [74; 780]); (498, [497]); (499, [497]);
   (501, [500]); (505, [504]); (507, [506]); (509, [508]); (511, [510]);
   (513, [512]); (515, [514]); (517, [516]); (519, [518]); (521, [520]);
   (523, [522]); (525, [524]); (527, [526]); (529, [528]); (531, [530]);
   (533, [532]); (535, [534]); (537, [536]); (539, [538]); (541, [540]);
   (543, [542]); (547, [546]); (549, [548]); (551, [550]); (553, [552]);
   (555, [554]); (557, [556]); (559, [558]); (561, [560]); (563, [562]);
   (572, [571]); (575, [11390]); (576, [11391]); (578, [577]); (583, [582]);
   (585, [584]); (587, [586]); (589, [588]); (591, [590]); (592, [11375]);
   (593, [11373]); (594, [11376]); (595, [385]); (596, [390]); (598, [393]);
   (599, [394]); (601, [399]); (603, [400]); (604, [42923]); (608, [403]);
   (609, [42924]); (611, [404]); (613, [42893]); (614, [42922]); (616, [407]);
   (617, [406]); (618, [42926]); (619, [11362]); (620, [42925]); (623, [412]);
   (625, [11374]); (626, [413]); (629, [415]); (637, [11364]); (640, [422]);
   (642, [42949]); (643, [425]); (647, [42929]); (648, [430]); (649, [580]);
   (650, [433]); (651, [434]); (652, [581]); (658, [439]); (669, [42930]);
   (670, [42928]); (837, [921]); (881, [880]); (883, [882]); (887, [886]);
   (891, [1021]); (892, [1022]); (893, [1023]); (912, [921; 776; 769]);
   (940, [902]); (941, [904]); (942, [905]); (943, [906]);
   (944, [933; 776; 769]); (945, [913]); (946, [914]); (947, [915]);
   (948, [916]); (949, [917]); (950, [918]); (951, [919]); (952, [920]);
   (953, [921]); (954, [922]); (955, [923]); (956, [924]); (957, [925]);
   (958, [926]); (959, [927]); (960, [928]); (961, [929]); (962, [931]);
   (963, [931]); (964, [932]); (965, [933]); (966, [934]); (967, [935]);
   (968, [936]); (969, [937]); (970, [938]); (971, [939]); (972, [908]);
   (973, [910]); (974, [911]); (976, [914]); (977, [920]); (981, [934]);
   (982, [928]); (983, [975]); (985, [984]); (987, [986]); (989, [988]);
   (991, [990]); (993, [992]); (995, [994]); (997, [996]); (999, [998]);
   (1001, [1000]); (1003, [1002]); (1005, [1004]); (1007, [1006]);
   (1008, [922]); (1009, [929]); (1010, [1017]); (1011, [895]); (1013, [917]);
   (1016, [1015]); (1019, [1018]); (1072, [1040]); (1073, [1041]);
   (1074, [1042]); (1075, [1043]); (1076, [1044]); (1077, [1045]);
   (1078, [1046]); (1079, [1047]); (1080, [1048]); (1081, [1049]);
   (1082, [1050]); (1083, [1051]); (1084, [1052]); (1085, [1053]);
   (1086, [1054]); (1087, [1055]); (1088, [1056]); (1089, [1057]);
   (1090, [1058]); (1091, [1059]); (1092, [1060]); (1093, [1061]);
   (1094, [1062]); (1095, [1063]); (1096, [1064]); (1097, [1065]);
   (1098, [1066]); (1099, [1067]); (1100, [1068]); (1101, [1069]);
   (1102, [1070]); (1103, [1071]); (1104, [1024]); (1105, [1025]);
   (1106, [1026]); (1107, [1027]); (1108, [1028]); (1109, [1029]);
   (1110, [1030]); (1111, [1031]); (1112, [1032]); (1113, [1033]);
   (1114, [1034]); (1115, [1035]); (1116, [1036]); (1117, [1037]);
   (1118, [1038]); (1119, [1039]); (1121, [1120]); (1123, [1122]);
   (1125, [1124]); (1127, [1126]); (1129, [1128]); (1131, [1130]);
   (1133, [1132]); (1135, [1134]); (1137, [1136]); (1139, [1138]);
   (1141, [1140]); (1143, [1142]); (1145, [1144]); (1147, [1146]);
   (1149, [1148]); (1151, [1150]); (1153, [1152]); (1163, [1162]);
   (1165, [1164]); (1167, [1166]); (1169, [1168]); (1171, [1170]);
   (1173, [1172]); (1175, [1174]); (1177, [1176]); (1179, [1178]);
   (1181, [1180]); (1183, [1182]); (1185, [1184]); (1187, [1186]);
   (1189, [1188]); (1191, [1190]); (1193, [1192]); (1195, [1194]);
   (1197, [1196]); (1199, [1198]); (1201, [1200]); (1203, [1202]);
   (1205, [1204]); (1207, [1206]); (1209, [1208]); (1211, [1210]);
   (1213, [1212]); (1215, [1214]); (1218, [1217]); (1220, [1219]);
   (1222, [1221]); (1224, [1223]); (1226, [1225]); (1228, [1227]);
   (1230, [1229]); (1231, [1216]); (1233, [1232]); (1235, [1234]);
   (1237, [1236]); (1239, [1238]); (1241, [1240]); (1243, [1242]);
   (1245, [1244]); (1247, [1246]); (1249, [1248]); (1251, [1250]);
   (1253, [1252]); (1255, [1254]); (1257, [1256]); (1259, [1258]);
   (1261, [1260]); (1263, [1262]); (1265, [1264]); (1267, [1266]);
   (1269, [1268]); (1271, [1270]); (1273, [1272]); (1275, [1274]);
   (1277, [1276]); (1279, [1278]); (1281, [1280]); (1283, [1282]);
   (1285, [1284]); (1287, [1286]); (1289, [1288]); (1291, [1290]);
   (1293, [1292]); (1295, [1294]); (1297, [1296]); (1299, [1298]);
   (1301, [1300]); (1303, [1302]); (1305, [1304]); (1307, [1306]);
   (1309, [1308]); (1311, [1310]); (1313, [1312]); (1315, [1314]);
   (1317, [1316]); (1319, [1318]); (1321, [1320]); (1323, [1322]);
   (1325, [1324]); (1327, [1326]); (1377, [1329]); (1378, [1330]);
   (1379, [1331]); (1380, [1332]); (1381, [1333]); (1382, [1334]);
   (1383, [1335]); (1384, [1336]); (1385, [1337]); (1386, [1338]);
   (1387, [1339]); (1388, [1340]); (1389, [1341]); (1390, [1342]);
   (1391, [1343]); (1392, [1344]); (1393, [1345]); (1394, [1346]);
   (1395, [1347]); (1396, [1348]); (1397, [1349]); (1398, [1350]);
   (1399, [1351]); (1400, [1352]); (1401, [1353]); (1402, [1354]);
   (1403, [1355]); (1404, [1356]); (1405, [1357]); (1406, [1358]);
   (1407, [1359]); (1408, [1360]); (1409, [1361]); (1410, [1362]);
   (1411, [1363]); (1412, [1364]); (1413, [1365]); (1414, [1366]);
   (1415, [1333; 1362]); (4304, [7312]); (4305, [7313]); (4306, [7314]);
   (4307, [7315]); (4308, [7316]); (4309, [7317]); (4310, [7318]);
   (4311, [7319]); (4312, [7320]); (4313, [7321]); (4314, [7322]);
   (4315, [7323]); (4316, [7324]); (4317, [7325]); (4318, [7326]);
   (4319, [7327]); (4320, [7328]); (4321, [7329]); (4322, [7330]);
   (4323, [7331]); (4324, [7332]); (4325, [7333]); (4326, [7334]);
   (4327, [7335]); (4328, [7336]); (4329, [7337]); (4330, [7338]);
   (4331, [7339]); (4332, [7340]); (4333, [7341]); (4334, [7342]);
   (4335, [7343]); (4336, [7344]); (4337, [7345]); (4338, [7346]);
   (4339, [7347]); (4340, [7348]); (4341, [7349]); (4342, [7350]);
   (4343, [7351]); (4344, [7352]); (4345, [7353]); (4346, [7354]);
   (4349, [7357]); (4350, [7358]); (4351, [7359]); (5112, [5104]);
   (5113, [5105]); (5114, [5106]); (5115, [5107]); (5116, [5108]);
   (5117, [5109]); (7296, [1042]); (7297, [1044]); (7298, [1054]);
   (7299, [1057]); (7300, [1058]); (7301, [1058]); (7302, [1066]);
   (7303, [1122]); (7304, [42570]); (7545, [42877]); (7549, [11363]);
   (7566, [42950]); (7681, [7680]); (7683, [7682]); (7685, [7684]);
   (7687, [7686]); (7689, [7688]); (7691, [7690]); (7693, [7692]);
   (7695, [7694]); (7697, [7696]); (7699, [7698]); (7701, [7700]);
   (7703, [7702]); (7705, [7704]); (7707, [7706]); (7709, [7708]);
   (7711, [7710]); (7713, [7712]); (7715, [7714]); (7717, [7716]);
   (7719, [7718]); (7721, [7720]); (7723, [7722]); (7725, [7724]);
   (7727, [7726]); (7729, [7728]); (7731, [7730]); (7733, [7732]);
   (7735, [7734]); (7737, [7736]); (7739, [7738]); (7741, [7740]);
   (7743, [7742]); (7745, [7744]); (7747, [7746]); (7749, [7748]);
   (7751, [7750]); (7753, [7752]); (7755, [7754]); (7757, [7756]);
   (7759, [7758]); (7761, [7760]); (7763, [7762]); (7765, [7764]);
   (7767, [7766]); (7769, [7768]); (7771, [7770]); (7773, [7772]);
   (7775, [7774]); (7777, [7776]); (7779, [7778]); (7781, [7780]);
   (7783, [7782]); (7785, [7784]); (7787, [7786]); (7789, [7788]);
   (7791, [7790]); (7793, [7792]); (7795, [7794]); (7797, [7796]);
   (7799, [7798]); (7801, [7800]); (7803, [7802]); (7805, [7804]);
   (7807, [7806]); (7809, [7808]); (7811, [7810]); (7813, [7812]);
   (7815, [7814]); (7817, [7816]); (7819, [7818]); (7821, [7820]);
   (7823, [7822]); (7825, [7824]); (7827, [7826]); (7829, [7828]);
   (7830, [72; 817]); (7831, [84; 776]); (7832, [87; 778]); (7833, [89; 778]);
   (7834, [65; 702]); (7835, [7776]); (7841, [7840]); (7843, [7842]);
   (7845, [7844]); (7847, [7846]); (7849, [7848]); (7851, [7850]);
   (7853, [7852]); (7855, [7854]); (7857, [7856]); (7859, [7858]);
   (7861, [7860]); (7863, [7862]); (7865, [7864]); (7867, [7866]);
   (7869, [7868]); (7871, [7870]); (7873, [7872]); (7875, [7874]);
   (7877, [7876]); (7879, [7878]); (7881, [7880]); (7883, [7882]);
   (7885, [7884]); (7887, [7886]); (7889, [7888]); (7891, [7890]);
   (7893, [7892]); (7895, [7894]); (7897, [7896]); (7899, [7898]);
   (7901, [7900]); (7903, [7902]); (7905, [7904]); (7907, [7906]);
   (7909, [7908]); (7911, [7910]); (7913, [7912]); (7915, [7914]);
   (7917, [7916]); (7919, [7918]); (7921, [7920]); (7923, [7922]);
   (7925, [7924]); (7927, [7926]); (7929, [7928]); (7931, [7930]);
   (7933, [7932]); (7935, [7934]); (7936, [7944]); (7937, [7945]);
   (7938, [7946]); (7939, [7947]); (7940, [7948]); (7941, [7949]);
   (7942, [7950]); (7943, [7951]); (7952, [7960]); (7953, [7961]);
   (7954, [7962]); (7955, [7963]); (7956, [7964]); (7957, [7965]);
   (7968, [7976]); (7969, [7977]); (7970, [7978]); (7971, [7979]);
   (7972, [7980]); (7973, [7981]); (7974, [7982]); (7975, [7983]);
   (7984, [7992]); (7985, [7993]); (7986, [7994]); (7987, [7995]);
   (7988, [7996]); (7989, [7997]); (7990, [7998]); (7991, [7999]);
   (8000, [8008]); (8001, [8009]); (8002, [8010]); (8003, [8011]);
   (8004, [8012]); (8005, [8013]); (8016, [933; 787]); (8017, [8025]);
   (8018, [933; 787; 768]); (8019, [8027]); (8020, [933; 787; 769]);
   (8021, [8029]); (8022, [933; 787; 834]); (8023, [8031]); (8032, [8040]);
   (8033, [8041]); (8034, [8042]); (8035, [8043]); (8036, [8044]);
   (8037, [8045]); (8038, [8046]); (8039, [8047]); (8048, [8122]);
   (8049, [8123]); (8050, [8136]); (8051, [8137]); (8052, [8138]);
   (8053, [8139]); (8054, [8154]); (8055, [8155]); (8056, [8184]);
   (8057, [8185]); (8058, [8170]); (8059, [8171]); (8060, [8186]);
   (8061, [8187]); (8064, [7944; 921]); (8065, [7945; 921]);
   (8066, [7946; 921]); (8067, [7947; 921]); (8068, [7948; 921]);
   (8069, [7949; 921]); (8070, [7950; 921]); (8071, [7951; 921]);
   (8072, [7944; 921]); (8073, [7945; 921]); (8074, [7946; 921]);
   (8075, [7947; 921]); (8076, [7948; 921]); (8077, [7949; 921]);
   (8078, [7950; 921]); (8079, [7951; 921]); (8080, [7976; 921]);
   (8081, [7977; 921]); (8082, [7978; 921]); (8083, [7979; 921]);
   (8084, [7980; 921]); (8085, [7981; 921]); (8086, [7982; 921]);
   (8087, [7983; 921]); (8088, [7976; 921]); (8089, [7977; 921]);
   (8090, [7978; 921]); (8091, [7979; 921]); (8092, [7980; 921]);
   (8093, [7981; 921]); (8094, [7982; 921]); (8095, [7983; 921]);
   (8096, [8040; 921]); (8097, [8041; 921]); (8098, [8042; 921]);
   (8099, [8043; 921]); (8100, [8044; 921]); (8101, [8045; 921]);
   (8102, [8046; 921]); (8103, [8047; 921]); (8104, [8040; 921]);
   (8105, [8041; 921]); (8106, [8042; 921]); (8107, [8043; 921]);
   (8108, [8044; 921]); (8109, [8045; 921]); (8110, [8046; 921]);
   (8111, [8047; 921]); (8112, [8120]); (8113, [8121]); (8114, [8122; 921]);
   (8115, [913; 921]); (8116, [902; 921]); (8118, [913; 834]);
   (8119, [913; 834; 921]); (8124, [913; 921]); (8126, [921]);
   (8130, [8138; 921]); (8131, [919; 921]); (8132, [905; 921]);
   (8134, [919; 834]); (8135, [919; 834; 921]); (8140, [919; 921]);
   (8144, [8152]); (8145, [8153]); (8146, [921; 776; 768]);
   (8147, [921; 776; 769]); (8150, [921; 834]); (8151, [921; 776; 834]);
   (8160, [8168]); (8161, [8169]); (8162, [933; 776; 768]);
   (8163, [933; 776; 769]); (8164, [929; 787]); (8165, [8172]);
   (8166, [933; 834]); (8167, [933; 776; 834]); (8178, [8186; 921]);
   (8179, [937; 921]); (8180, [911; 921]); (8182, [937; 834]);
   (8183, [937; 834; 921]); (8188, [937; 921]); (8526, [8498]); (8560, [8544]);
   (8561, [8545]); (8562, [8546]); (8563, [8547]); (8564, [8548]);
   (8565, [8549]); (8566, [8550]); (8567, [8551]); (8568, [8552]);
   (8569, [8553]); (8570, [8554]); (8571, [8555]); (8572, [8556]);
   (8573, [8557]); (8574, [8558]); (8575, [8559]); (8580, [8579]);
   (9424, [9398]); (9425, [9399]); (9426, [9400]); (9427, [9401]);
   (9428, [9402]); (9429, [9403]); (9430, [9404]); (9431, [9405]);
   (9432, [9406]); (9433, [9407]); (9434, [9408]); (9435, [9409]);
   (9436, [9410]); (9437, [9411]); (9438, [9412]); (9439, [9413]);
   (9440, [9414]); (9441, [9415]); (9442, [9416]); (9443, [9417]);
   (9444, [9418]); (9445, [9419]); (9446, [9420]); (9447, [9421]);
   (9448, [9422]); (9449, [9423]); (11312, [11264]); (11313, [11265]);
   (11314, [11266]); (11315, [11267]); (11316, [11268]); (11317, [11269]);
   (11318, [11270]); (11319, [11271]); (11320, [11272]); (11321, [11273]);
   (11322, [11274]); (11323, [11275]); (11324, [11276]); (11325, [11277]);
   (11326, [11278]); (11327, [11279]); (11328, [11280]); (11329, [11281]);
   (11330, [11282]); (11331, [11283]); (11332, [11284]); (11333, [11285]);
   (11334, [11286]); (11335, [11287]); (11336, [11288]); (11337, [11289]);
   (11338, [11290]); (11339, [11291]); (11340, [11292]); (11341, [11293]);
   (11342, [11294]); (11343, [11295]); (11344, [11296]); (11345, [11297]);
   (11346, [11298]); (11347, [11299]); (11348, [11300]); (11349, [11301]);
   (11350, [11302]); (11351, [11303]); (11352, [11304]); (11353, [11305]);
   (11354, [11306]); (11355, [11307]); (11356, [11308]); (11357, [11309]);
   (11358, [11310]); (11359, [11311]); (11361, [11360]); (11365, [570]);
   (11366, [574]); (11368, [11367]); (11370, [11369]); (11372, [11371]);
   (11379, [11378]); (11382, [11381]); (11393, [11392]); (11395, [11394]);
   (11397, [11396]); (11399, [11398]); (11401, [11400]); (11403, [11402]);
   (11405, [11404]); (11407, [11406]); (11409, [11408]); (11411, [11410]);
   (11413, [11412]); (11415, [11414]); (11417, [11416]); (11419, [11418]);
   (11421, [11420]); (11423, [11422]); (11425, [11424]); (11427, [11426]);
   (11429, [11428]); (11431, [11430]); (11433, [11432]); (11435, [11434]);
   (11437, [11436]); (11439, [11438]); (11441, [11440]); (11443, [11442]);
   (11445, [11444]); (11447, [11446]); (11449, [11448]); (11451, [11450]);
   (11453, [11452]); (11455, [11454]); (11457, [11456]); (11459, [11458]);
   (11461, [11460]); (11463, [11462]); (11465, [11464]); (11467, [11466]);
   (11469, [11468]); (11471, [11470]); (11473, [11472]); (11475, [11474]);
   (11477, [11476]); (11479, [11478]); (11481, [11480]); (11483, [11482]);
   (11485, [11484]); (11487, [11486]); (11489, [11488]); (11491, [11490]);
   (11500, [11499]); (11502, [11501]); (11507, [11506]); (11520, [4256]);
   (11521, [4257]); (11522, [4258]); (11523, [4259]); (11524, [4260]);
   (11525, [4261]); (11526, [4262]); (11527, [4263]); (11528, [4264]);
   (11529, [4265]); (11530, [4266]); (11531, [4267]); (11532, [4268]);
   (11533, [4269]); (11534, [4270]); (11535, [4271]); (11536, [4272]);
   (11537, [4273]); (11538, [4274]); (11539, [4275]); (11540, [4276]);
   (11541, [4277]); (11542, [4278]); (11543, [4279]); (11544, [4280]);
   (11545, [4281]); (11546, [4282]); (11547, [4283]); (11548, [4284]);
   (11549, [4285]); (11550, [4286]); (11551, [4287]); (11552, [4288]);
   (11553, [4289]); (11554, [4290]); (11555, [4291]); (11556, [4292]);
   (11557, [4293]); (11559, [4295]); (11565, [4301]); (42561, [42560]);
   (42563, [42562]); (42565, [42564]); (42567, [42566]); (42569, [42568]);
   (42571, [42570]); (42573, [42572]); (42575, [42574]); (42577, [42576]);
   (42579, [42578]); (42581, [42580]); (42583, [42582]); (42585, [42584]);
   (42587, [42586]); (42589, [42588]); (42591, [42590]); (42593, [42592]);
   (42595, [42594]); (42597, [42596]); (42599, [42598]); (42601, [42600]);
   (42603, [42602]); (42605, [42604]); (42625, [42624]); (42627, [42626]);
   (42629, [42628]); (42631, [42630]); (42633, [42632]); (42635, [42634]);
   (42637, [42636]); (42639, [42638]); (42641, [42640]); (42643, [42642]);
   (42645, [42644]); (42647, [42646]); (42649, [42648]); (42651, [42650]);
   (42787, [42786]); (42789, [42788]); (42791, [42790]); (42793, [42792]);
   (42795, [42794]); (42797, [42796]); (42799, [42798]); (42803, [42802]);
   (42805, [42804]); (42807, [42806]); (42809, [42808]); (42811, [42810]);
   (42813, [42812]); (42815, [42814]); (42817, [42816]); (42819, [42818]);
   (42821, [42820]); (42823, [42822]); (42825, [42824]); (42827, [42826]);
   (42829, [42828]); (42831, [42830]); (42833, [42832]); (42835, [42834]);
   (42837, [42836]); (42839, [42838]); (42841, [42840]); (42843, [42842]);
   (42845, [42844]); (42847, [42846]); (42849, [42848]); (42851, [42850]);
   (42853, [42852]); (42855, [42854]); (42857, [42856]); (42859, [42858]);
   (42861, [42860]); (42863, [42862]); (42874, [42873]); (42876, [42875]);
   (42879, [42878]); (42881, [42880]); (42883, [42882]); (42885, [42884]);
   (42887, [42886]); (42892, [42891]); (42897, [42896]); (42899, [42898]);
   (42900, [42948]); (42903, [42902]); (42905, [42904]); (42907, [42906]);
   (42909, [42908]); (42911, [42910]); (42913, [42912]); (42915, [42914]);
   (42917, [42916]); (42919, [42918]); (42921, [42920]); (42933, [42932]);
   (42935, [42934]); (42937, [42936]); (42939, [42938]); (42941, [42940]);
   (42943, [42942]); (42945, [42944]); (42947, [42946]); (42952, [42951]);
   (42954, [42953]); (42961, [42960]); (42967, [42966]); (42969, [42968]);
   (42998, [42997]); (43859, [42931]); (43888, [5024]); (43889, [5025]);
   (43890, [5026]); (43891, [5027]); (43892, [5028]); (43893, [5029]);
   (43894, [5030]); (43895, [5031]); (43896, [5032]); (43897, [5033]);
   (43898, [5034]); (43899, [5035]); (43900, [5036]); (43901, [5037]);
   (43902, [5038]); (43903, [5039]); (43904, [5040]); (43905, [5041]);
   (43906, [5042]); (43907, [5043]); (43908, [5044]); (43909, [5045]);
   (43910, [5046]); (43911, [5047]); (43912, [5048]); (43913, [5049]);
   (43914, [5050]); (43915, [5051]); (43916, [5052]); (43917, [5053]);
   (43918, [5054]); (43919, [5055]); (43920, [5056]); (43921, [5057]);
   (43922, [5058]); (43923, [5059]); (43924, [5060]); (43925, [5061]);
   (43926, [5062]); (43927, [5063]); (43928, [5064]); (43929, [5065]);
   (43930, [5066]); (43931, [5067]); (43932, [5068]); (43933, [5069]);
   (43934, [5070]); (43935, [5071]); (43936, [5072]); (43937, [5073]);
   (43938, [5074]); (43939, [5075]); (43940, [5076]); (43941, [5077]);
   (43942, [5078]); (43943, [5079]); (43944, [5080]); (43945, [5081]);
   (43946, [5082]); (43947, [5083]); (43948, [5084]); (43949, [5085]);
   (43950, [5086]); (43951, [5087]); (43952, [5088]); (43953, [5089]);
   (43954, [5090]); (43955, [5091]); (43956, [5092]); (43957, [5093]);
   (43958, [5094]); (43959, [5095]); (43960, [5096]); (43961, [5097]);
   (43962, [5098]); (43963, [5099]); (43964, [5100]); (43965, [5101]);
   (43966, [5102]); (43967, [5103]); (64256, [70; 70]); (64257, [70; 73]);
   (64258, [70; 76]); (64259, [70; 70; 73]); (64260, [70; 70; 76]);
   (64261, [83; 84]); (64262, [83; 84]); (64275, [1348; 1350]);
   (64276, [1348; 1333]); (64277, [1348; 1339]); (64278, [1358; 1350]);
   (64279, [1348; 1341]); (65345, [65313]); (65346, [65314]); (65347, [65315]);
   (65348, [65316]); (65349, [65317]); (65350, [65318]); (65351, [65319]);
   (65352, [65320]); (65353, [65321]); (65354, [65322]); (65355, [65323]);
   (65356, [65324]); (65357, [65325]); (65358, [65326]); (65359, [65327]);
   (65360, [65328]); (65361, [65329]); (65362, [65330]); (65363, [65331]);
   (65364, [65332]); (65365, [65333]); (65366, [65334]); (65367, [65335]);
   (65368, [65336]); (65369, [65337]); (65370, [65338]); (66600, [66560]);
   (66601, [66561]); (66602, [66562]); (66603, [66563]); (66604, [66564]);
   (66605, [66565]); (66606, [66566]); (66607, [66567]); (66608, [66568]);
   (66609, [66569]); (66610, [66570]); (66611, [66571]); (66612, [66572]);
   (66613, [66573]); (66614, [66574]); (66615, [66575]); (66616, [66576]);
   (66617, [66577]); (66618, [66578]); (66619, [66579]); (66620, [66580]);
   (66621, [66581]); (66622, [66582]); (66623, [66583]); (66624, [66584]);
   (66625, [66585]); (66626, [66586]); (66627, [66587]); (66628, [66588]);
   (66629, [66589]); (66630, [66590]); (66631, [66591]); (66632, [66592]);
   (66633, [66593]); (66634, [66594]); (66635, [66595]); (66636, [66596]);
   (66637, [66597]); (66638, [66598]); (66639, [66599]); (66776, [66736]);
   (66777, [66737]); (66778, [66738]); (66779, [66739]); (66780, [66740]);
   (66781, [66741]); (66782, [66742]); (66783, [66743]); (66784, [66744]);
   (66785, [66745]); (66786, [66746]); (66787, [66747]); (66788, [66748]);
   (66789, [66749]); (66790, [66750]); (66791, [66751]); (66792, [66752]);
   (66793, [66753]); (66794, [66754]); (66795, [66755]); (66796, [66756]);
   (66797, [66757]); (66798, [66758]); (66799, [66759]); (66800, [66760]);
   (66801, [66761]); (66802, [66762]); (66803, [66763]); (66804, [66764]);
   (66805, [66765]); (66806, [66766]); (66807, [66767]); (66808, [66768]);
   (66809, [66769]); (66810, [66770]); (66811, [66771]); (66967, [66928]);
   (66968, [66929]); (66969, [66930]); (66970, [66931]); (66971, [66932]);
   (66972, [66933]); (66973, [66934]); (66974, [66935]); (66975, [66936]);
   (66976, [66937]); (66977, [66938]); (66979, [66940]); (66980, [66941]);
   (66981, [66942]); (66982, [66943]); (66983, [66944]); (66984, [66945]);
   (66985, [66946]); (66986, [66947]); (66987, [66948]); (66988, [66949]);
   (66989, [66950]); (66990, [66951]); (66991, [66952]); (66992, [66953]);
   (66993, [66954]); (66995, [66956]); (66996, [66957]); (66997, [66958]);
   (66998, [66959]); (66999, [66960]); (67000, [66961]); (67001, [66962]);
   (67003, [66964]); (67004, [66965]); (68800, [68736]); (68801, [68737]);
   (68802, [68738]); (68803, [68739]); (68804, [68740]); (68805, [68741]);
   (68806, [68742]); (68807, [68743]); (68808, [68744]); (68809, [68745]);
   (68810, [68746]); (68811, [68747]); (68812, [68748]); (68813, [68749]);
   (68814, [68750]); (68815, [68751]); (68816, [68752]); (68817, [68753]);
   (68818, [68754]); (68819, [68755]); (68820, [68756]); (68821, [68757]);
   (68822, [68758]); (68823, [68759]); (68824, [68760]); (68825, [68761]);
   (68826, [68762]); (68827, [68763]); (68828, [68764]); (68829, [68765]);
   (68830, [68766]); (68831, [68767]); (68832, [68768]); (68833, [68769]);
   (68834, [68770]); (68835, [68771]); (68836, [68772]); (68837, [68773]);
   (68838, [68774]); (68839, [68775]); (68840, [68776]); (68841, [68777]);
   (68842, [68778]); (68843, [68779]); (68844, [68780]); (68845, [68781]);
   (68846, [68782]); (68847, [68783]); (68848, [68784]); (68849, [68785]);
   (68850, [68786]); (71872, [71840]); (71873, [71841]); (71874, [71842]);
   (71875, [71843]); (71876, [71844]); (71877, [71845]); (71878, [71846]);
   (71879, [71847]); (71880, [71848]); (71881, [71849]); (71882, [71850]);
   (71883, [71851]); (71884, [71852]); (71885, [71853]); (71886, [71854]);
   (71887, [71855]); (71888, [71856]); (71889, [71857]); (71890, [71858]);
   (71891, [71859]); (71892, [71860]); (71893, [71861]); (71894, [71862]);
   (71895, [71863]); (71896, [71864]); (71897, [71865]); (71898, [71866]);
   (71899, [71867]); (71900, [71868]); (71901, [71869]); (71902, [71870]);
   (71903, [71871]); (93792, [93760]); (93793, [93761]); (93794, [93762]);
   (93795, [93763]); (93796, [93764]); (93797, [93765]); (93798, [93766]);
   (93799, [93767]); (93800, [93768]); (93801, [93769]); (93802, [93770]);
   (93803, [93771]); (93804, [93772]); (93805, [93773]); (93806, [93774]);
   (93807, [93775]); (93808, [93776]); (93809, [93777]); (93810, [93778]);
   (93811, [93779]); (93812, [93780]); (93813, [93781]); (93814, [93782]);
   (93815, [93783]); (93816, [93784]); (93817, [93785]); (93818, [93786]);
   (93819, [93787]); (93820, [93788]); (93821, [93789]); (93822, [93790]);
   (93823, [93791]); (125218, [125184]); (125219, [125185]);
   (125220, [125186]); (125221, [125187]); (125222, [125188]);
   (125223, [125189]); (125224, [125190]); (125225, [125191]);
   (125226, [125192]); (125227, [125193]); (125228, [125194]);
   (125229, [125195]); (125230, [125196]); (125231, [125197]);
   (125232, [125198]); (125233, [125199]); (125234, [125200]);
   (125235, [125201]); (125236, [125202]); (125237, [125203]);
   (125238, [125204]); (125239, [125205]); (125240, [125206]);
   (125241, [125207]); (125242, [125208]); (125243, [125209]);
   (125244, [125210]); (125245, [125211]); (125246, [125212]);
   (125247, [125213]); (125248, [125214]); (125249, [125215]);
   (125250, [125216]); (125251, [125217])
  ]%N.

(** The uppercase of one code point: the entry of the table, or the code
    point itself when the table, which is in increasing order, has none. *)
Fixpoint to_upper_full (c : N) (table : list (N * list N)) : list N :=
  match table with
  | [] => [c]
  | (k, u) :: rest =>
      if (c <? k)%N then [c]
      else if (c =? k)%N then u
      else to_upper_full c rest
  end.

(** [str.upper]. *)
Definition upper (s : list N) : list N :=
  List.flat_map (fun c => to_upper_full c unicode_upper) s.

(** [sorted(results_table, key=lambda x: x[1], reverse=True)].  Python's
    sort is stable, also with [reverse=True]; the stable sort of a list is
    unique, and it is computed here by insertion. *)
Fixpoint insert_desc (x : string * Q) (l : list (string * Q))
    : list (string * Q) :=
  match l with
  | [] => [x]
  | y :: l' =>
      if Qle_bool (snd y) (snd x) then x :: y :: l'
      else y :: insert_desc x l'
  end.

Fixpoint sorted_desc (l : list (string * Q)) : list (string * Q) :=
  match l with
  | [] => []
  | x :: l' => insert_desc x (sorted_desc l')
  end.

Definition results_table (src_w : string) (sol_words : list string)
    : list (string * Q) :=
  List.map (fun sol_word =>
              (sol_word,
               similarity_score (upper (chars src_w))
                                (upper (chars sol_word))))
           sol_words.

Definition compare_word (src_w : string) (sol_words : list string)
    : string * Q :=
  let table := results_table src_w sol_words in
  if length table =? 0 then (src_w, 0%Q)
  else List.hd (src_w, 0%Q) (sorted_desc table).

End WordMatch.

(** ** CDMmodel.py

    The classes of the schema graph, with the fields the engine reads (and
    [id], [name], [code]).  References between objects are direct, as they
    are after the parser's linking pass. *)

Module Attribute.
Record t := mk {
  id : string; name : string; code : string;
  mandatory : bool; datatype : option string }.
End Attribute.

Module Identifier.
Record t := mk {
  id : string; name : string;
  identifier_attributes : list Attribute.t; is_primary : bool }.
End Identifier.

Module Entity.
Record t := mk {
  id : string; name : string; code : string; is_child : bool;
  attributes : list Attribute.t; identifiers : list Identifier.t }.
End Entity.

Module Relationship.
Record t := mk {
  id : string; name : string; code : string;
  is_dependent_e1 : bool; is_dependent_e2 : bool;
  entity1 : Entity.t; entity2 : Entity.t;
  cardinality_1to2 : string; cardinality_2to1 : string }.
End Relationship.

Module Association.
Record t := mk {
  id : string; name : string; code : string;
  attributes : list Attribute.t }.
End Association.

Module AssociationLink.
Record t := mk {
  id : string; association : Association.t; entity : Entity.t;
  cardinality : string }.
End AssociationLink.

Module Inheritance.
Record t := mk {
  id : string; name : string; code : string;
  mutually_exclusive : bool; complete : bool;
  parent : Entity.t; children : list Entity.t }.
End Inheritance.

Module Model.
Record t := mk {
  id : string; name : string; code : string;
  entities : list Entity.t;
  inheritances : list Inheritance.t;
  relationships : list Relationship.t;
  associations : list Association.t;
  association_links : list AssociationLink.t }.

Definition get_table_name_by_id (m : t) (table_id : string)
    : option string :=
  match List.find (fun e => String.eqb (Entity.id e) table_id) (entities m) with
  | Some e => Some (Entity.name e)
  | None => None
  end.

Definition get_attributes (m : t) (table_id : string)
    : option (list Attribute.t) :=
  match List.find (fun e => String.eqb (Entity.id e) table_id) (entities m) with
  | Some e => Some (Entity.attributes e)
  | None => None
  end.

Definition get_identifiers (m : t) (table_id : string)
    : option (list Identifier.t) :=
  match List.find (fun e => String.eqb (Entity.id e) table_id) (entities m) with
  | Some e => Some (Entity.identifiers e)
  | None => None
  end.
End Model.

#[export] Instance Attribute_eq_dec : EqDecision Attribute.t.
Proof. solve_decision. Defined.
#[export] Instance Identifier_eq_dec : EqDecision Identifier.t.
Proof. solve_decision. Defined.
#[export] Instance Entity_eq_dec : EqDecision Entity.t.
Proof. solve_decision. Defined.
#[export] Instance Relationship_eq_dec : EqDecision Relationship.t.
Proof. solve_decision. Defined.
#[export] Instance Association_eq_dec : EqDecision Association.t.
Proof. solve_decision. Defined.
#[export] Instance AssociationLink_eq_dec : EqDecision AssociationLink.t.
Proof. solve_decision. Defined.
#[export] Instance Inheritance_eq_dec : EqDecision Inheritance.t.
Proof. solve_decision. Defined.

(** ** ErrorLog.py *)

Module ErrorLog.

(** The [name] argument of [add_error]: [None], a string, or (in the
    association-link pass) the [Association] object itself. *)
Inductive ErrName :=
| NoName
| StrName (s : string)
| ObjName (a : Association.t).

(** The [message] argument.  The association-link messages format the
    tuple [(src_link.association, src_link.entity)], whose text is the
    default [repr] of the two objects (it holds their addresses); the
    message keeps the two objects between its fixed parts. *)
Inductive Message :=
| Text (s : string)
| LinkText (before : string) (a : Association.t) (e : Entity.t)
           (after : string).

Record Error := mkError {
  type : string; id : option string; name : ErrName;
  error : string; message : Message }.

(** [find_error]: the first error recorded for [object_id]. *)
Definition find_error (errors : list Error) (object_id : option string)
    : option Error * bool :=
  match List.find (fun e => bool_decide (id e = object_id)) errors with
  | Some e => (Some e, true)
  | None => (None, false)
  end.

End ErrorLog.

(** ** Computations of the engine

    The diagnostics appended to [self.error_log], and then either the
    returned value or the exception that left the call. *)

Inductive Exc :=
| ValueError | UnboundLocalError | RuntimeError | IndexError | TypeError
| KeyError.

Inductive Outcome (A : Type) :=
| Ok (a : A)
| Raise (e : Exc).
Arguments Ok {A} a.
Arguments Raise {A} e.

Definition M (A : Type) : Type := list ErrorLog.Error * Outcome A.

Definition ret {A} (a : A) : M A := ([], Ok a).

Definition raise {A} (e : Exc) : M A := ([], Raise e).

Definition bind {A B} (m : M A) (f : A -> M B) : M B :=
  match m with
  | (l, Ok a) => let (l', r) := f a in (l ++ l', r)
  | (l, Raise e) => (l, Raise e)
  end.

Notation "x <- m ;; k" := (bind m (fun x => k))
  (at level 100, m at next level, right associativity).
Notation "m ;;; k" := (bind m (fun _ => k))
  (at level 100, right associativity).

Definition add_error (TypeOfObject : string) (object_id : option string)
    (name : ErrorLog.ErrName) (TypeOfError : string)
    (message : ErrorLog.Message) : M unit :=
  ([ErrorLog.mkError TypeOfObject object_id name TypeOfError message], Ok tt).

(** The diagnostics a computation emitted. *)
Definition emitted {A} (m : M A) : list ErrorLog.Error := fst m.

Definition outcome {A} (m : M A) : Outcome A := snd m.

(** [for x in l: f(x)]. *)
Fixpoint for_each {A} (l : list A) (f : A -> M unit) : M unit :=
  match l with
  | [] => ret tt
  | x :: l' => f x ;;; for_each l' f
  end.

(** [s.remove(x)] on a set held in iteration order: [KeyError] when [x] is
    not a member. *)
Fixpoint remove_first {A} `{EqDecision A} (x : A) (l : list A)
    : option (list A) :=
  match l with
  | [] => None
  | y :: l' =>
      if decide (x = y) then Some l'
      else match remove_first x l' with
           | Some r => Some (y :: r)
           | None => None
           end
  end.

Definition set_remove {A} `{EqDecision A} (x : A) (l : list A)
    : M (list A) :=
  match remove_first x l with
  | Some l' => ret l'
  | None => raise KeyError
  end.

(** Comparisons of scores. *)
Definition Qlt_b (a b : Q) : bool := negb (Qle_bool b a).
Definition Qgt_b (a b : Q) : bool := negb (Qle_bool a b).
Definition Qge_b (a b : Q) : bool := Qle_bool b a.

(** [min(scores)]: [ValueError] on an empty list. *)
Fixpoint py_min (l : list Q) : option Q :=
  match l with
  | [] => None
  | x :: l' =>
      match py_min l' with
      | None => Some x
      | Some m => Some (if Qlt_b m x then m else x)
      end
  end.

(** [f"{x}"] for a value that may be [None]. *)
Definition fmt (s : option string) : string :=
  match s with Some x => x | None => "None" end.

(** ** Validation.py *)

(** A local variable of a Python function: unbound until first assigned. *)
Inductive binding (A : Type) :=
| Unbound
| Bound (a : A).
Arguments Unbound {A}.
Arguments Bound {A} a.

Module Validation.
Section Engine.

(** The iteration order of [set(l)]. *)
Variable set_iter : forall A : Type, list A -> list A.

(** [self.src_model] and [self.solution_model]. *)
Variable src_model solution_model : Model.t.

Definition name_match_threshold : Q := 85 # 100.

(** The score of [self.wm.compare_word(a, [b])]. *)
Definition score1 (a b : string) : Q := snd (WordMatch.compare_word a [b]).

(** *** Attributes of a matched entity pair *)

Fixpoint attributes_loop (src_table_id : string)
    (src_attributes : list Attribute.t)
    (unmatched_solution_attributes : list Attribute.t)
    : M (list Attribute.t) :=
  match src_attributes with
  | [] => ret unmatched_solution_attributes
  | src_attribute :: rest =>
      let '(solution_attribute_match_name, score) :=
        WordMatch.compare_word (Attribute.name src_attribute)
          (List.map Attribute.name unmatched_solution_attributes) in
      if Qgt_b score name_match_threshold then
        match List.find (fun attribute =>
                           String.eqb (Attribute.name attribute)
                                      solution_attribute_match_name)
                        unmatched_solution_attributes with
        | Some matching_attribute =>
            unmatched' <- set_remove matching_attribute
                                     unmatched_solution_attributes ;;
            (if bool_decide (Attribute.datatype src_attribute
                             <> Attribute.datatype matching_attribute)
             then add_error "Attribute" (Some src_table_id)
                    (ErrorLog.StrName (Attribute.name src_attribute)) "Error"
                    (ErrorLog.Text ("Attribute " +:+ Attribute.name src_attribute
                                    +:+ " datatype mismatch"))
             else ret tt) ;;;
            (if bool_decide (Attribute.mandatory src_attribute
                             <> Attribute.mandatory matching_attribute)
             then add_error "Attribute" (Some src_table_id)
                    (ErrorLog.StrName (Attribute.name src_attribute)) "Error"
                    (ErrorLog.Text ("Attribute " +:+ Attribute.name src_attribute
                                    +:+ " mandatory property mismatch"))
             else ret tt) ;;;
            attributes_loop src_table_id rest unmatched'
        | None =>
            add_error "Attribute" (Some src_table_id) ErrorLog.NoName "Error"
              (ErrorLog.Text ("Matching attribute " +:+ solution_attribute_match_name
                              +:+ " not found in solution model or already matched")) ;;;
            attributes_loop src_table_id rest unmatched_solution_attributes
        end
      else
        add_error "Attribute" (Some src_table_id)
          (ErrorLog.StrName (Attribute.name src_attribute)) "Error"
          (ErrorLog.Text ("Attribute " +:+ Attribute.name src_attribute
                          +:+ " not found in the solution model")) ;;;
        attributes_loop src_table_id rest unmatched_solution_attributes
  end.

(** [set(None)] and [for x in None] raise [TypeError]. *)
Definition iterable {A} (o : option (list A)) : M (list A) :=
  match o with
  | Some l => ret l
  | None => raise TypeError
  end.

Definition validate_attributes (src_table_id solution_table_id : string)
    : M unit :=
  sol <- iterable (Model.get_attributes solution_model solution_table_id) ;;
  let unmatched_solution_attributes := set_iter _ sol in
  srcs <- iterable (Model.get_attributes src_model src_table_id) ;;
  unmatched <- attributes_loop src_table_id srcs
                 unmatched_solution_attributes ;;
  for_each unmatched (fun attribute =>
    add_error "Entity" (Some src_table_id) ErrorLog.NoName "Error"
      (ErrorLog.Text ("Unmatched attribute in entity "
                      +:+ fmt (Model.get_table_name_by_id src_model src_table_id)
                      +:+ ": " +:+ Attribute.name attribute))).

(** *** Identifiers of a matched entity pair *)

(** The first loop of [validate_identifier_attributes]: [true] when every
    source attribute passed the [min(scores)] test, [false] when the
    function returned [(None, False)] from inside the loop. *)
Fixpoint identifier_attribute_checks (src_identifier : Identifier.t)
    (src_attributes : list Attribute.t)
    (solution_identifier_attributes : list (list string)) : M bool :=
  match src_attributes with
  | [] => ret true
  | src_attribute :: rest =>
      let scores :=
        List.map (fun sol_attributes =>
                    snd (WordMatch.compare_word (Attribute.name src_attribute)
                                                sol_attributes))
                 solution_identifier_attributes in
      match py_min scores with
      | None => raise ValueError
      | Some m =>
          if Qlt_b m name_match_threshold then
            add_error "Identifier" (Some (Identifier.id src_identifier))
              (ErrorLog.StrName (Attribute.name src_attribute)) "Error"
              (ErrorLog.Text "Identifier attributes mismatch in solution model") ;;;
            ret false
          else
            identifier_attribute_checks src_identifier rest
              solution_identifier_attributes
      end
  end.

(** The [all(...)] of the second loop, for one candidate. *)
Definition match_found (src_identifier identifier : Identifier.t) : bool :=
  let sol_attributes :=
    List.map Attribute.name (Identifier.identifier_attributes identifier) in
  forallb (fun src_attribute =>
             Qge_b (snd (WordMatch.compare_word (Attribute.name src_attribute)
                                                sol_attributes))
                   name_match_threshold)
          (Identifier.identifier_attributes src_identifier).

Definition validate_identifier_attributes (src_identifier : Identifier.t)
    (solution_identifiers : list Identifier.t)
    : M (option Identifier.t * bool) :=
  let solution_identifier_attributes :=
    List.map (fun identifier =>
                List.map Attribute.name
                         (Identifier.identifier_attributes identifier))
             solution_identifiers in
  passed <- identifier_attribute_checks src_identifier
              (Identifier.identifier_attributes src_identifier)
              solution_identifier_attributes ;;
  if passed then
    match List.find (match_found src_identifier) solution_identifiers with
    | Some identifier => ret (Some identifier, true)
    | None => ret (None, false)
    end
  else ret (None, false).

Definition primary_mismatch_error (src_table_id : string)
    (src_identifier : Identifier.t) : M unit :=
  add_error "Identifier" (Some src_table_id)
    (ErrorLog.StrName (Identifier.id src_identifier)) "Error"
    (ErrorLog.Text ("Table "
       +:+ fmt (Model.get_table_name_by_id src_model src_table_id)
       +:+ " identifier " +:+ Identifier.name src_identifier
       +:+ " primary property mismatch")).

Fixpoint identifiers_loop (src_table_id : string)
    (src_identifiers : list Identifier.t)
    (unmatched_solution_identifiers : list Identifier.t)
    : M (list Identifier.t) :=
  match src_identifiers with
  | [] => ret unmatched_solution_identifiers
  | src_identifier :: rest =>
      r <- validate_identifier_attributes src_identifier
             unmatched_solution_identifiers ;;
      let '(solution_identifier, flag) := r in
      if flag then
        match solution_identifier with
        | Some solution_identifier =>
            unmatched' <- set_remove solution_identifier
                                     unmatched_solution_identifiers ;;
            if bool_decide (Identifier.is_primary solution_identifier
                            <> Identifier.is_primary src_identifier)
            then
              primary_mismatch_error src_table_id src_identifier ;;;
              ret unmatched'   (* break *)
            else identifiers_loop src_table_id rest unmatched'
        | None => raise KeyError
        end
      else identifiers_loop src_table_id rest unmatched_solution_identifiers
  end.

Definition unmatched_identifier_error (src_table_id : string)
    (identifier : Identifier.t) : M unit :=
  add_error "Identifier" (Some src_table_id) ErrorLog.NoName "Error"
    (ErrorLog.Text ("Unmatched identifier in entity "
                    +:+ fmt (Model.get_table_name_by_id src_model src_table_id)
                    +:+ ": " +:+ Identifier.name identifier)).

Definition validate_identifiers (src_table_id solution_table_id : string)
    : M unit :=
  let src_identifiers := Model.get_identifiers src_model src_table_id in
  sol <- iterable (Model.get_identifiers solution_model solution_table_id) ;;
  let unmatched_solution_identifiers := set_iter _ sol in
  srcs <- iterable src_identifiers ;;
  unmatched <- identifiers_loop src_table_id srcs
                 unmatched_solution_identifiers ;;
  for_each unmatched (unmatched_identifier_error src_table_id).

(** *** Entities *)

(** [[e for e in entities if e.id == i][0]]: [IndexError] when no entity
    has that id. *)
Definition entity_by_id (entities : list Entity.t) (i : string)
    : M Entity.t :=
  match List.filter (fun entity => String.eqb (Entity.id entity) i) entities with
  | entity :: _ => ret entity
  | [] => raise IndexError
  end.

Definition validate_entity (src_entity_id solution_entity_id : string)
    : M unit :=
  src_entity <- entity_by_id (Model.entities src_model) src_entity_id ;;
  solution_entity <- entity_by_id (Model.entities solution_model)
                       solution_entity_id ;;
  (if bool_decide (Entity.is_child src_entity <> Entity.is_child solution_entity)
   then add_error "Entity" (Some (Entity.id src_entity))
          (ErrorLog.StrName (Entity.name src_entity)) "Error"
          (ErrorLog.Text "Entity child property mismatch")
   else ret tt) ;;;
  validate_attributes src_entity_id solution_entity_id ;;;
  validate_identifiers src_entity_id solution_entity_id.

Fixpoint entities_loop (src_entities : list Entity.t)
    (unmatched_solution_entities : list Entity.t) : M (list Entity.t) :=
  match src_entities with
  | [] => ret unmatched_solution_entities
  | src_entity :: rest =>
      let '(solution_entity_match, score) :=
        WordMatch.compare_word (Entity.name src_entity)
          (List.map Entity.name unmatched_solution_entities) in
      if Qgt_b score name_match_threshold then
        match List.find (fun entity =>
                           String.eqb (Entity.name entity) solution_entity_match)
                        unmatched_solution_entities with
        | Some matching_entity =>
            unmatched' <- set_remove matching_entity
                                     unmatched_solution_entities ;;
            validate_entity (Entity.id src_entity) (Entity.id matching_entity) ;;;
            entities_loop rest unmatched'
        | None =>
            add_error "Entity" (Some (Entity.id src_entity))
              (ErrorLog.StrName (Entity.name src_entity)) "Error"
              (ErrorLog.Text ("Matching entity " +:+ solution_entity_match
                              +:+ " not found in solution model or already matched")) ;;;
            entities_loop rest unmatched_solution_entities
        end
      else
        add_error "Entity" (Some (Entity.id src_entity))
          (ErrorLog.StrName (Entity.name src_entity)) "Error"
          (ErrorLog.Text ("Entity " +:+ Entity.name src_entity
                          +:+ " not found in solution model")) ;;;
        entities_loop rest unmatched_solution_entities
  end.

Definition unmatched_entity_error (entity : Entity.t) : M unit :=
  add_error "Entity" None ErrorLog.NoName "Error"
    (ErrorLog.Text ("Unmatched entity in solution model: "
                    +:+ Entity.name entity)).

Definition validate_entities : M unit :=
  let src_entities := Model.entities src_model in
  let solution_entities := Model.entities solution_model in
  let unmatched_solution_entities := set_iter _ solution_entities in
  unmatched <- entities_loop src_entities unmatched_solution_entities ;;
  for_each unmatched unmatched_entity_error.

(** *** Relationships *)

(** Returns [True] or falls off the end ([None], which [if] reads as
    false). *)
Definition validate_relationship_entities
    (src_relationship solution_relationship : Relationship.t) : bool :=
  let score := score1 (Entity.name (Relationship.entity1 src_relationship))
                      (Entity.name (Relationship.entity1 solution_relationship)) in
  let score2 := score1 (Entity.name (Relationship.entity2 src_relationship))
                       (Entity.name (Relationship.entity2 solution_relationship)) in
  let name_score := score1 (Relationship.name src_relationship)
                           (Relationship.name solution_relationship) in
  Qgt_b score name_match_threshold && Qgt_b score2 name_match_threshold
  && Qgt_b name_score name_match_threshold.

Definition cardinality_differs (r s : Relationship.t) : bool :=
  bool_decide (Relationship.cardinality_1to2 r <> Relationship.cardinality_1to2 s)
  || bool_decide (Relationship.cardinality_2to1 r <> Relationship.cardinality_2to1 s).

Definition dependency_differs (r s : Relationship.t) : bool :=
  bool_decide (Relationship.is_dependent_e1 r <> Relationship.is_dependent_e1 s)
  || bool_decide (Relationship.is_dependent_e2 r <> Relationship.is_dependent_e2 s).

Definition relationship_cardinality_error (r : Relationship.t) : M unit :=
  add_error "Relationship" (Some (Relationship.id r))
    (ErrorLog.StrName (Relationship.name r)) "Error"
    (ErrorLog.Text ("Relationship " +:+ Relationship.name r
                    +:+ " cardinality mismatch")).

Definition relationship_dependent_error (r : Relationship.t) : M unit :=
  add_error "Relationship" (Some (Relationship.id r))
    (ErrorLog.StrName (Relationship.name r)) "Error"
    (ErrorLog.Text ("Relationship " +:+ Relationship.name r
                    +:+ " dependent property mismatch")).

Definition relationship_not_found_error (r : Relationship.t) : M unit :=
  add_error "Relationship" (Some (Relationship.id r))
    (ErrorLog.StrName (Relationship.name r)) "Error"
    (ErrorLog.Text ("Relationship " +:+ Relationship.name r
                    +:+ " not found in solution model")).

(** The inner [for sol_relationship in unmatched_sol_relationships] over
    the candidates still to visit: [Some] of the set after the removal
    when the loop left by [break], [None] when it ran to its end. *)
Fixpoint relationship_search (src_relationship : Relationship.t)
    (unmatched_sol_relationships to_visit : list Relationship.t)
    : M (option (list Relationship.t)) :=
  match to_visit with
  | [] => ret None
  | sol_relationship :: later =>
      if validate_relationship_entities src_relationship sol_relationship then
        unmatched' <- set_remove sol_relationship unmatched_sol_relationships ;;
        (if cardinality_differs src_relationship sol_relationship
         then relationship_cardinality_error src_relationship
         else ret tt) ;;;
        (if dependency_differs src_relationship sol_relationship
         then relationship_dependent_error src_relationship
         else ret tt) ;;;
        ret (Some unmatched')   (* break, on either branch *)
      else relationship_search src_relationship unmatched_sol_relationships later
  end.

Fixpoint relationships_loop (src_relationships : list Relationship.t)
    (unmatched_sol_relationships : list Relationship.t)
    : M (list Relationship.t) :=
  match src_relationships with
  | [] => ret unmatched_sol_relationships
  | src_relationship :: rest =>
      r <- relationship_search src_relationship unmatched_sol_relationships
             unmatched_sol_relationships ;;
      match r with
      | Some unmatched' => relationships_loop rest unmatched'
      | None =>
          relationship_not_found_error src_relationship ;;;
          relationships_loop rest unmatched_sol_relationships
      end
  end.

Definition unmatched_relationship_error (relationship : Relationship.t)
    : M unit :=
  add_error "Relationship" None ErrorLog.NoName "Error"
    (ErrorLog.Text ("Unmatched relationship in solution model: "
                    +:+ Relationship.name relationship)).

Definition validate_relationships : M unit :=
  let unmatched_sol_relationships :=
    set_iter _ (Model.relationships solution_model) in
  unmatched <- relationships_loop (Model.relationships src_model)
                 unmatched_sol_relationships ;;
  for_each unmatched unmatched_relationship_error.

(** *** Inheritances *)

(** The search of the best solution child for one source child, from
    [best_child_match, best_child_score = "", 0]. *)
Definition best_child (child : Entity.t) (solution_children : list Entity.t)
    : string * Q :=
  List.fold_left
    (fun best solution_child =>
       let '(curr_match, curr_score) :=
         WordMatch.compare_word (Entity.name child) [Entity.name solution_child] in
       if Qgt_b curr_score (snd best) then (curr_match, curr_score) else best)
    solution_children (EmptyString, 0%Q).

Definition children_scores (src_inheritance solution_inheritance : Inheritance.t)
    : list (string * Q) :=
  List.map (fun child =>
              best_child child (Inheritance.children solution_inheritance))
           (Inheritance.children src_inheritance).

Definition children_mismatch_info (i : Inheritance.t) : ErrorLog.Error :=
  ErrorLog.mkError "Inheritance" (Some (Inheritance.id i))
    (ErrorLog.StrName (Inheritance.name i)) "Error"
    (ErrorLog.Text ("Inheritance " +:+ Inheritance.name i
                    +:+ " children mismatch")).

Definition parent_mismatch_info (i : Inheritance.t) : ErrorLog.Error :=
  ErrorLog.mkError "Inheritance" (Some (Inheritance.id i))
    (ErrorLog.StrName (Inheritance.name i)) "Error"
    (ErrorLog.Text ("Inheritance " +:+ Inheritance.name i
                    +:+ " parent mismatch")).

Definition mutually_exclusive_error (i : Inheritance.t) : M unit :=
  add_error "Inheritance" (Some (Inheritance.id i))
    (ErrorLog.StrName (Inheritance.name i)) "Error"
    (ErrorLog.Text ("Inheritance " +:+ Inheritance.name i
                    +:+ " mutually exclusive property mismatch")).

Definition complete_error (i : Inheritance.t) : M unit :=
  add_error "Inheritance" (Some (Inheritance.id i))
    (ErrorLog.StrName (Inheritance.name i)) "Error"
    (ErrorLog.Text ("Inheritance " +:+ Inheritance.name i
                    +:+ " complete property mismatch")).

Definition inheritance_not_found_error (i : Inheritance.t) : M unit :=
  add_error "Inheritance" (Some (Inheritance.id i))
    (ErrorLog.StrName (Inheritance.name i)) "Error"
    (ErrorLog.Text ("Inheritance " +:+ Inheritance.name i
                    +:+ " not found in solution model")).

(** Returns [(error_info, flag)]; [error_info] is the argument list of a
    later [add_error] call, or [None]. *)
Definition validate_inheritance
    (src_inheritance solution_inheritance : Inheritance.t)
    : M (option ErrorLog.Error * bool) :=
  let parent_score :=
    score1 (Entity.name (Inheritance.parent src_inheritance))
           (Entity.name (Inheritance.parent solution_inheritance)) in
  let scores := children_scores src_inheritance solution_inheritance in
  if existsb (fun x => Qlt_b (snd x) name_match_threshold) scores then
    ret (Some (children_mismatch_info src_inheritance), false)
  else if Qlt_b parent_score name_match_threshold then
    ret (Some (parent_mismatch_info src_inheritance), false)
  else if bool_decide (Inheritance.mutually_exclusive src_inheritance
                       <> Inheritance.mutually_exclusive solution_inheritance)
  then mutually_exclusive_error src_inheritance ;;; ret (None, true)
  else if bool_decide (Inheritance.complete src_inheritance
                       <> Inheritance.complete solution_inheritance)
  then complete_error src_inheritance ;;; ret (None, true)
  else ret (None, true).

(** The inner loop over the candidates still to visit.  [err_info] is a
    local of [validate_inheritances]: it is assigned by every turn of
    this loop and keeps its value from one source inheritance to the
    next. *)
Fixpoint inheritance_search (src_inheritance : Inheritance.t)
    (unmatched_sol_inheritances to_visit : list Inheritance.t)
    (err_info : binding (option ErrorLog.Error))
    : M (option (list Inheritance.t) * binding (option ErrorLog.Error)) :=
  match to_visit with
  | [] => ret (None, err_info)
  | sol_inheritance :: later =>
      r <- validate_inheritance src_inheritance sol_inheritance ;;
      let '(err_info', flag) := r in
      if flag then
        unmatched' <- set_remove sol_inheritance unmatched_sol_inheritances ;;
        ret (Some unmatched', Bound err_info')   (* break *)
      else
        inheritance_search src_inheritance unmatched_sol_inheritances later
          (Bound err_info')
  end.

Fixpoint inheritances_loop (src_inheritances : list Inheritance.t)
    (unmatched_sol_inheritances : list Inheritance.t)
    (err_info : binding (option ErrorLog.Error))
    : M (list Inheritance.t) :=
  match src_inheritances with
  | [] => ret unmatched_sol_inheritances
  | src_inheritance :: rest =>
      r <- inheritance_search src_inheritance unmatched_sol_inheritances
             unmatched_sol_inheritances err_info ;;
      match r with
      | (Some unmatched', err_info') =>
          inheritances_loop rest unmatched' err_info'
      | (None, Unbound) => raise UnboundLocalError
      | (None, Bound (Some info)) =>
          ([info], Ok tt) ;;;   (* add_error( *err_info) *)
          inheritances_loop rest unmatched_sol_inheritances (Bound (Some info))
      | (None, Bound None) =>
          inheritance_not_found_error src_inheritance ;;;
          inheritances_loop rest unmatched_sol_inheritances (Bound None)
      end
  end.

Definition unmatched_inheritance_error (inheritance : Inheritance.t)
    : M unit :=
  add_error "Inheritance" None ErrorLog.NoName "Error"
    (ErrorLog.Text ("Unmatched inheritance in solution model: "
                    +:+ Inheritance.name inheritance)).

Definition validate_inheritances : M unit :=
  let unmatched_sol_inheritances :=
    set_iter _ (Model.inheritances solution_model) in
  unmatched <- inheritances_loop (Model.inheritances src_model)
                 unmatched_sol_inheritances Unbound ;;
  for_each unmatched unmatched_inheritance_error.

(** *** Associations *)

(** [attribute_scores]: one entry per pair of a source and a solution
    attribute. *)
Definition attribute_scores (src_association solution_association : Association.t)
    : list (Q * string) :=
  List.flat_map
    (fun src_attribute =>
       List.map (fun solution_attribute =>
                   (score1 (Attribute.name src_attribute)
                           (Attribute.name solution_attribute),
                    Attribute.name src_attribute))
                (Association.attributes solution_association))
    (Association.attributes src_association).

(** Returns [True], [False], or falls off the end ([None]). *)
Definition validate_association
    (src_association solution_association : Association.t)
    : M (option bool) :=
  if (length (Association.attributes src_association)
      =? length (Association.attributes solution_association))
     && (length (Association.attributes src_association) =? 0)
  then ret (Some true)
  else
    if forallb (fun x => Qlt_b (fst x) name_match_threshold)
               (attribute_scores src_association solution_association)
    then
      add_error "Association" (Some (Association.id src_association))
        (ErrorLog.StrName (Association.name src_association)) "Error"
        (ErrorLog.Text "Association attributes mismatch") ;;;
      ret (Some false)
    else ret None.

(** The truth value [if] gives to the result. *)
Definition truthy (r : option bool) : bool :=
  match r with Some true => true | _ => false end.

Definition association_not_found_error (a : Association.t) : M unit :=
  add_error "Association" (Some (Association.id a))
    (ErrorLog.StrName (Association.name a)) "Error"
    (ErrorLog.Text ("Association " +:+ Association.name a
                    +:+ " not found in solution model")).

Definition unmatched_association_error (association : Association.t)
    : M unit :=
  add_error "Association" None ErrorLog.NoName "Error"
    (ErrorLog.Text ("Unmatched association in solution model: "
                    +:+ Association.name association)).

Fixpoint association_search (src_entity_association : Association.t)
    (solution_entity_associations to_visit : list Association.t)
    : M (option (list Association.t)) :=
  match to_visit with
  | [] => ret None
  | solution_entity_association :: later =>
      let name_score := score1 (Association.name src_entity_association)
                               (Association.name solution_entity_association) in
      if Qgt_b name_score name_match_threshold then
        r <- validate_association src_entity_association
               solution_entity_association ;;
        if truthy r then
          unmatched' <- set_remove solution_entity_association
                                   solution_entity_associations ;;
          ret (Some unmatched')   (* break *)
        else association_search src_entity_association
               solution_entity_associations later
      else association_search src_entity_association
             solution_entity_associations later
  end.

Fixpoint associations_loop (src_entity_associations : list Association.t)
    (solution_entity_associations : list Association.t)
    : M (list Association.t) :=
  match src_entity_associations with
  | [] => ret solution_entity_associations
  | src_entity_association :: rest =>
      r <- association_search src_entity_association
             solution_entity_associations solution_entity_associations ;;
      match r with
      | Some unmatched' => associations_loop rest unmatched'
      | None =>
          association_not_found_error src_entity_association ;;;
          associations_loop rest solution_entity_associations
      end
  end.

Definition validate_associations : M unit :=
  let src_entity_associations := Model.associations src_model in
  let solution_entity_associations :=
    set_iter _ (Model.associations solution_model) in
  unmatched <- associations_loop src_entity_associations
                 solution_entity_associations ;;
  for_each unmatched unmatched_association_error.

(** *** Association links *)

Definition validate_association_link (src_link solution_link : AssociationLink.t)
    : bool :=
  let score := score1 (Association.name (AssociationLink.association src_link))
                      (Association.name (AssociationLink.association solution_link)) in
  let score2 := score1 (Entity.name (AssociationLink.entity src_link))
                       (Entity.name (AssociationLink.entity solution_link)) in
  Qgt_b score name_match_threshold && Qgt_b score2 name_match_threshold.

Definition link_cardinality_error (src_link : AssociationLink.t) : M unit :=
  add_error "Association Link" (Some (AssociationLink.id src_link))
    (ErrorLog.ObjName (AssociationLink.association src_link)) "Error"
    (ErrorLog.LinkText "Association link "
       (AssociationLink.association src_link) (AssociationLink.entity src_link)
       " cardinality mismatch").

Definition link_not_found_error (src_link : AssociationLink.t) : M unit :=
  add_error "Association Link" (Some (AssociationLink.id src_link))
    (ErrorLog.ObjName (AssociationLink.association src_link)) "Error"
    (ErrorLog.LinkText "Association link "
       (AssociationLink.association src_link) (AssociationLink.entity src_link)
       " not found in solution model").

Definition unmatched_link_error (link : AssociationLink.t) : M unit :=
  add_error "Association Link" None ErrorLog.NoName "Error"
    (ErrorLog.LinkText "Unmatched association link in solution model: "
       (AssociationLink.association link) (AssociationLink.entity link) "").

(** The inner [for solution_link in solution_links].  When the
    cardinalities differ the loop does not [break]: it goes on to the
    next element of a set it has just removed from, and the set iterator
    raises [RuntimeError] (set changed size during iteration) at that
    step, whether or not elements remain. *)
Fixpoint link_search (src_link : AssociationLink.t)
    (solution_links to_visit : list AssociationLink.t)
    : M (option (list AssociationLink.t)) :=
  match to_visit with
  | [] => ret None
  | solution_link :: later =>
      if validate_association_link src_link solution_link then
        unmatched' <- set_remove solution_link solution_links ;;
        if String.eqb (AssociationLink.cardinality src_link)
                      (AssociationLink.cardinality solution_link)
        then ret (Some unmatched')   (* break *)
        else link_cardinality_error src_link ;;; raise RuntimeError
      else link_search src_link solution_links later
  end.

Fixpoint links_loop (src_links : list AssociationLink.t)
    (solution_links : list AssociationLink.t)
    : M (list AssociationLink.t) :=
  match src_links with
  | [] => ret solution_links
  | src_link :: rest =>
      r <- link_search src_link solution_links solution_links ;;
      match r with
      | Some unmatched' => links_loop rest unmatched'
      | None =>
          link_not_found_error src_link ;;;
          links_loop rest solution_links
      end
  end.

Definition validate_association_links : M unit :=
  let src_links := Model.association_links src_model in
  let solution_links := set_iter _ (Model.association_links solution_model) in
  unmatched <- links_loop src_links solution_links ;;
  for_each unmatched unmatched_link_error.

(** *** The five passes *)

Definition validate : M unit :=
  validate_entities ;;;
  validate_relationships ;;;
  validate_inheritances ;;;
  validate_associations ;;;
  validate_association_links.

End Engine.
End Validation.

(** Two iteration orders a set can have: the order of insertion, and its
    reverse. *)
Definition insertion_order : forall A : Type, list A -> list A :=
  fun _ l => l.


(** The classic Levenshtein distance the scorer is specified by, written
    from its textbook recurrence and not from the code.  A substitution
    costs nothing when it replaces a character by itself and one
    otherwise; [lev_matrix a b i j] is the distance between the first [i]
    characters of [a] and the first [j] characters of [b], with unit-cost
    insertion, deletion and substitution. *)
Definition substitution_cost (x y : N) : nat :=
  if decide (x = y) then 0 else 1.

Fixpoint lev_matrix (a b : list N) (i : nat) : nat -> nat :=
  match i with
  | 0 => fun j => j
  | S i' =>
      fix row (j : nat) : nat :=
        match j with
        | 0 => S i'
        | S j' =>
            Nat.min (Nat.min (lev_matrix a b i' (S j') + 1) (row j' + 1))
                    (lev_matrix a b i' j'
                     + substitution_cost (nth i' a 0%N) (nth j' b 0%N))
        end
  end.

Definition Levenshtein (a b : list N) : nat :=
  lev_matrix a b (length a) (length b).

(** The score the engine gives to a pair of names: [similarity_score] of
    the two upper-cased strings. *)
Definition score (src_w sol_word : string) : Q :=
  WordMatch.similarity_score (WordMatch.upper (WordMatch.chars src_w))
                             (WordMatch.upper (WordMatch.chars sol_word)).


(** Every child of the source inheritance [s] has a solution child of [c]
    whose name scores at least the threshold. *)
Definition children_match (s c : Inheritance.t) : Prop :=
  forall child, In child (Inheritance.children s) ->
    exists solution_child,
      In solution_child (Inheritance.children c)
      /\ (Validation.name_match_threshold
          <= score (Entity.name child) (Entity.name solution_child))%Q.

(** The correspondence [validate_inheritance] decides. *)
Definition inheritance_qualifies (s c : Inheritance.t) : Prop :=
  children_match s c
  /\ (Validation.name_match_threshold
      <= score (Entity.name (Inheritance.parent s))
               (Entity.name (Inheritance.parent c)))%Q.


(** [x] is the first entry with the highest score of the table
    [pre ++ x :: post]. *)
Definition first_best (x : string * Q) (pre post : list (string * Q)) : Prop :=
  (forall y, In y pre -> (snd y < snd x)%Q)
  /\ (forall y, In y post -> (snd y <= snd x)%Q).

(** * Outcomes and further diagnostics *)

(** The computation returns a value. *)
Definition completes {A} (m : M A) : Prop := exists a, outcome m = Ok a.

(** The computation returns a value or raises an exception among
    [allowed]. *)
Definition raises_only {A} (allowed : Exc -> Prop) (m : M A) : Prop :=
  match outcome m with
  | Ok _ => True
  | Raise e => allowed e
  end.

(** A set only iterates over its members. *)
Definition iterates_members (set_iter : forall A : Type, list A -> list A)
    : Prop :=
  forall (A : Type) (l : list A) (x : A), In x (set_iter A l) -> In x l.

(** The [add_error] calls of [validate_entities] and [validate_attributes],
    as they stand in the loops. *)
Definition entity_not_found_error (src_entity : Entity.t) : M unit :=
  add_error "Entity" (Some (Entity.id src_entity))
    (ErrorLog.StrName (Entity.name src_entity)) "Error"
    (ErrorLog.Text ("Entity " +:+ Entity.name src_entity
                    +:+ " not found in solution model")).

Definition attribute_not_found_error (src_table_id : string)
    (src_attribute : Attribute.t) : M unit :=
  add_error "Attribute" (Some src_table_id)
    (ErrorLog.StrName (Attribute.name src_attribute)) "Error"
    (ErrorLog.Text ("Attribute " +:+ Attribute.name src_attribute
                    +:+ " not found in the solution model")).

Definition attribute_datatype_error (src_table_id : string)
    (src_attribute : Attribute.t) : M unit :=
  add_error "Attribute" (Some src_table_id)
    (ErrorLog.StrName (Attribute.name src_attribute)) "Error"
    (ErrorLog.Text ("Attribute " +:+ Attribute.name src_attribute
                    +:+ " datatype mismatch")).

Definition attribute_mandatory_error (src_table_id : string)
    (src_attribute : Attribute.t) : M unit :=
  add_error "Attribute" (Some src_table_id)
    (ErrorLog.StrName (Attribute.name src_attribute)) "Error"
    (ErrorLog.Text ("Attribute " +:+ Attribute.name src_attribute
                    +:+ " mandatory property mismatch")).

Definition identifier_mismatch_error (src_identifier : Identifier.t)
    (src_attribute : Attribute.t) : M unit :=
  add_error "Identifier" (Some (Identifier.id src_identifier))
    (ErrorLog.StrName (Attribute.name src_attribute)) "Error"
    (ErrorLog.Text "Identifier attributes mismatch in solution model").

Definition association_attributes_error (src_association : Association.t)
    : M unit :=
  add_error "Association" (Some (Association.id src_association))
    (ErrorLog.StrName (Association.name src_association)) "Error"
    (ErrorLog.Text "Association attributes mismatch").

(** [ErrorLog.add_error] on the list of errors of the log. *)
Definition log_add_error (errors : list ErrorLog.Error)
    (TypeOfObject : string) (object_id : option string)
    (name : ErrorLog.ErrName) (TypeOfError : string)
    (message : ErrorLog.Message) : list ErrorLog.Error :=
  errors ++ [ErrorLog.mkError TypeOfObject object_id name TypeOfError message].

Definition is_bound {A} (b : binding A) : Prop :=
  match b with Unbound => False | Bound _ => True end.

(** Every candidate's attribute names hold a match for the attribute [a]. *)
Definition attribute_covered (a : Attribute.t) (sia : list (list string))
    : bool :=
  forallb (fun sol_attributes =>
             Qge_b (snd (WordMatch.compare_word (Attribute.name a) sol_attributes))
                   Validation.name_match_threshold)
          sia.

(** ** CDMparser.py: the linking of a parsed model *)

(** An [Identifier] as [resolve_entity_identifiers] builds it: its
    [identifier_attributes] still hold the ids of the attributes. *)
Module IdentifierRefs.
Record t := mk {
  id : string; name : string;
  identifier_attributes : list string; is_primary : bool }.
End IdentifierRefs.

(** An [Inheritance] as [resolve_inheritance] builds it: [parent] and
    [children] hold the ids of entities. *)
Module InheritanceRefs.
Record t := mk {
  id : string; name : string; code : string;
  mutually_exclusive : bool; complete : bool;
  parent : string; children : list string }.
End InheritanceRefs.

(** An [Inheritance] after [link_inheritances]: [parent] and [children]
    hold references to entities of the list. *)
Module LinkedInheritance.
Record t := mk {
  id : string; name : string; code : string;
  mutually_exclusive : bool; complete : bool;
  parent : nat; children : list nat }.
End LinkedInheritance.

Module CDMParser.

(** *** Linking identifiers to attributes *)

(** [attribute.id in identifier.identifier_attributes]. *)
Definition referenced (attribute : Attribute.t) (refs : list string) : bool :=
  existsb (String.eqb (Attribute.id attribute)) refs.

(** [link_attributes]: the identifiers after the call, every
    [identifier_attributes] replaced by the attributes it names. *)
Definition link_attributes (identifiers : list IdentifierRefs.t)
    (attributes : list Attribute.t) : list Identifier.t :=
  List.map
    (fun identifier =>
       Identifier.mk (IdentifierRefs.id identifier)
         (IdentifierRefs.name identifier)
         (List.filter
            (fun attribute =>
               referenced attribute
                 (IdentifierRefs.identifier_attributes identifier))
            attributes)
         (IdentifierRefs.is_primary identifier))
    identifiers.

(** *** Linking inheritances to entities

    [link_inheritances] works on shared objects: it sets [is_child] on the
    entities of the list it is given and stores references to those same
    entities in the inheritances.  The list of entities is the store, and
    a reference to an entity is its position in the list; only [is_child]
    is ever assigned, so the id at a position never changes.  (An object
    listed twice is flagged at both positions by the same loop, so
    positions can stand for objects.) *)

(** [entity.is_child = True]. *)
Definition set_is_child (entity : Entity.t) : Entity.t :=
  Entity.mk (Entity.id entity) (Entity.name entity) (Entity.code entity) true
            (Entity.attributes entity) (Entity.identifiers entity).

(** [[entity for entity in entities if entity.id == i][0]], as a
    reference; [None] when the list is empty ([IndexError]).  [pos] is the
    position of the head of [entities] in the whole list. *)
Fixpoint first_with_id (i : string) (entities : list Entity.t) (pos : nat)
    : option nat :=
  match entities with
  | [] => None
  | entity :: rest =>
      if String.eqb (Entity.id entity) i then Some pos
      else first_with_id i rest (S pos)
  end.

(** [for entity in entities: if entity.id == child: entity.is_child = True;
    children.append(entity)]: the entities after the loop and the
    references appended. *)
Fixpoint flag_children (child : string) (entities : list Entity.t) (pos : nat)
    : list Entity.t * list nat :=
  match entities with
  | [] => ([], [])
  | entity :: rest =>
      let '(rest', found) := flag_children child rest (S pos) in
      if String.eqb (Entity.id entity) child
      then (set_is_child entity :: rest', pos :: found)
      else (entity :: rest', found)
  end.

(** [for child in inheritance.children: ...]. *)
Fixpoint link_children (children : list string) (entities : list Entity.t)
    : list Entity.t * list nat :=
  match children with
  | [] => (entities, [])
  | child :: rest =>
      let '(entities1, found) := flag_children child entities 0 in
      let '(entities2, more) := link_children rest entities1 in
      (entities2, found ++ more)
  end.

(** [link_inheritances]: the entities after the call, the inheritances
    linked by then, and the exception that ended the call, if any. *)
Fixpoint link_inheritances (entities : list Entity.t)
    (inheritances : list InheritanceRefs.t)
    : list Entity.t * list LinkedInheritance.t * option Exc :=
  match inheritances with
  | [] => (entities, [], None)
  | inheritance :: rest =>
      match first_with_id (InheritanceRefs.parent inheritance) entities 0 with
      | None => (entities, [], Some IndexError)
      | Some parent =>
          let '(entities1, children) :=
            link_children (InheritanceRefs.children inheritance) entities in
          let '(entities2, linked, r) := link_inheritances entities1 rest in
          (entities2,
           LinkedInheritance.mk (InheritanceRefs.id inheritance)
             (InheritanceRefs.name inheritance)
             (InheritanceRefs.code inheritance)
             (InheritanceRefs.mutually_exclusive inheritance)
             (InheritanceRefs.complete inheritance) parent children
           :: linked,
           r)
      end
  end.

(** The entities a list of references points to. *)
Fixpoint deref_all (entities : list Entity.t) (refs : list nat)
    : option (list Entity.t) :=
  match refs with
  | [] => Some []
  | r :: rest =>
      match nth_error entities r, deref_all entities rest with
      | Some e, Some es => Some (e :: es)
      | _, _ => None
      end
  end.

(** A linked inheritance as the engine reads it: its parent and children
    are the entities its references point to. *)
Definition deref (entities : list Entity.t) (l : LinkedInheritance.t)
    : option Inheritance.t :=
  match nth_error entities (LinkedInheritance.parent l),
        deref_all entities (LinkedInheritance.children l) with
  | Some p, Some cs =>
      Some (Inheritance.mk (LinkedInheritance.id l) (LinkedInheritance.name l)
              (LinkedInheritance.code l)
              (LinkedInheritance.mutually_exclusive l)
              (LinkedInheritance.complete l) p cs)
  | _, _ => None
  end.

(** The id [i] is listed as a child by one of the inheritances. *)
Definition listed_child (inheritances : list InheritanceRefs.t) (i : string)
    : bool :=
  existsb (fun inheritance =>
             existsb (String.eqb i) (InheritanceRefs.children inheritance))
          inheritances.

End CDMParser.

(** The ids of the objects of a model that the engine visits. *)
Definition source_ids (m : Model.t) : list string :=
  List.map Entity.id (Model.entities m)
  ++ List.flat_map (fun e => List.map Identifier.id (Entity.identifiers e))
                   (Model.entities m)
  ++ List.map Relationship.id (Model.relationships m)
  ++ List.map Association.id (Model.associations m)
  ++ List.map AssociationLink.id (Model.association_links m)
  ++ List.map Inheritance.id (Model.inheritances m).

(** Every diagnostic of [errors] carries no id or an id of [ids]. *)
Definition ids_within (ids : list string) (errors : list ErrorLog.Error)
    : Prop :=
  forall e, In e errors ->
    ErrorLog.id e = None \/ exists i, In i ids /\ ErrorLog.id e = Some i.

(** The failure reason kept in [err_info], when there is one, carries an id
    of [ids]. *)
Definition info_within (ids : list string)
    (b : binding (option ErrorLog.Error)) : Prop :=
  match b with
  | Bound (Some info) => ids_within ids [info]
  | _ => True
  end.

(** The diagnostics of [m] are within [ids] and its value satisfies [P]. *)
Definition emits_within (ids : list string) {A} (P : A -> Prop) (m : M A)
    : Prop :=
  ids_within ids (emitted m) /\ forall a, outcome m = Ok a -> P a.

(** The exceptions that leave [validate]. *)
Definition engine_exception (e : Exc) : Prop :=
  e = ValueError \/ e = UnboundLocalError \/ e = RuntimeError.

(** * Sample schema objects *)

Module Sample.

Definition isbn := Attribute.mk "o11" "isbn" "ISBN" true (Some "A13").
Definition title := Attribute.mk "o12" "title" "TITLE" true (Some "VA80").
Definition date := Attribute.mk "o13" "date" "DATE" false (Some "D").

Definition id_isbn := Identifier.mk "o21" "Identifier_1" [isbn] true.
Definition id_title := Identifier.mk "o22" "Identifier_2" [title] false.
Definition id_isbn_secondary := Identifier.mk "o23" "Identifier_1" [isbn] false.
Definition id_isbn_title := Identifier.mk "o24" "Identifier_3" [isbn; title] false.
Definition id_empty := Identifier.mk "o25" "Identifier_4" [] false.

Definition book := Entity.mk "o2" "Book" "BOOK" false [isbn; title] [].
Definition book_keyed :=
  Entity.mk "o2" "Book" "BOOK" false [isbn; title] [id_isbn].
Definition book_two_keys :=
  Entity.mk "o2" "Book" "BOOK" false [isbn; title] [id_isbn; id_title].
Definition book_empty_key :=
  Entity.mk "o2" "Book" "BOOK" false [isbn; title] [id_empty].
Definition member := Entity.mk "o3" "Member" "MEMBER" false [] [].
Definition author := Entity.mk "o7" "Author" "AUTHOR" false [] [].
Definition author_child := Entity.mk "o7" "Author" "AUTHOR" true [] [].

Definition borrows := Association.mk "o4" "Borrows" "BORROWS" [date].
Definition link_many := AssociationLink.mk "o5" borrows book "0,n".
Definition link_one := AssociationLink.mk "o5" borrows book "0,1".


Definition department := Entity.mk "o30" "UniversityDepartment" "DEPT" false [] [].
Definition department' := Entity.mk "o30" "UniversityDepartmure" "DEPT" false [] [].
Definition kinds :=
  Inheritance.mk "o6" "Inheritance_1" "INHERITANCE_1" true true member [author_child].
Definition kinds_open :=
  Inheritance.mk "o6" "Inheritance_1" "INHERITANCE_1" false false member [author_child].
Definition units :=
  Inheritance.mk "o31" "Inheritance_2" "INHERITANCE_2" false false department [].
Definition units' :=
  Inheritance.mk "o31" "Inheritance_2" "INHERITANCE_2" false false department' [].
Definition kinds_of_book :=
  Inheritance.mk "o32" "Inheritance_3" "INHERITANCE_3" true true book [author_child].
Definition kinds_of_book_orphan :=
  Inheritance.mk "o33" "Inheritance_4" "INHERITANCE_4" true true book [member].

Definition model (entities : list Entity.t)
    (inheritances : list Inheritance.t) (relationships : list Relationship.t)
    (associations : list Association.t)
    (association_links : list AssociationLink.t) : Model.t :=
  Model.mk "o1" "Library" "LIBRARY" entities inheritances relationships
           associations association_links.

End Sample.

(** A parsed model before linking: three entities, and two inheritances
    that form a chain (the parent of the first is a child of the second). *)
Module ParsedSample.

Definition people : list Entity.t := [Sample.member; Sample.author; Sample.book].

Definition authors_of_members :=
  InheritanceRefs.mk "o40" "Inheritance_5" "INHERITANCE_5" false false
                     "o7" ["o2"; "o99"].
Definition members_of_authors :=
  InheritanceRefs.mk "o41" "Inheritance_6" "INHERITANCE_6" true false
                     "o3" ["o7"].

Definition chain : list InheritanceRefs.t :=
  [authors_of_members; members_of_authors].

End ParsedSample.

(** * Properties of the scorer *)

Lemma neq_cost_spec (x y : N) :
  WordMatch.neq_cost x y = substitution_cost x y.
Proof.
  unfold WordMatch.neq_cost, substitution_cost.
  destruct (N.eqb_spec x y) as [E|E]; destruct (decide (x = y)); congruence.
Qed.

Section LevenshteinRefinement.
Variables a b : list N.

Lemma lev_matrix_col0 (i : nat) : lev_matrix a b i 0 = i.
Proof. destruct i; reflexivity. Qed.

Lemma lev_matrix_step (i j : nat) :
  lev_matrix a b (S i) (S j)
  = Nat.min (Nat.min (lev_matrix a b i (S j) + 1) (lev_matrix a b (S i) j + 1))
      (lev_matrix a b i j + substitution_cost (nth i a 0%N) (nth j b 0%N)).
Proof. reflexivity. Qed.

Lemma skipn_cons_nth (j : nat) (l : list N) c rest :
  skipn j l = c :: rest -> nth j l 0%N = c /\ skipn (S j) l = rest.
Proof.
  revert l. induction j as [|j IH]; intros [|x l] H; simpl in *;
    try discriminate.
  - inversion H; subst; split; trivial.
  - apply IH. exact H.
Qed.

Lemma inner_row_spec (i : nat) (c1 : N) :
  nth i a 0%N = c1 ->
  forall rest j,
    skipn j b = rest ->
    WordMatch.inner_row c1 rest
      (List.map (lev_matrix a b i) (seq j (S (length rest))))
      (lev_matrix a b (S i) j)
    = List.map (lev_matrix a b (S i)) (seq (S j) (length rest)).
Proof.
  intros Hc1 rest. induction rest as [|c2 rest IH]; intros j Hj.
  - reflexivity.
  - destruct (skipn_cons_nth _ _ _ _ Hj) as [Hn Hs].
    cbn [length seq List.map WordMatch.inner_row].
    rewrite lev_matrix_step, Hc1, Hn, neq_cost_spec.
    f_equal.
    specialize (IH (S j) Hs). cbn [seq List.map] in IH.
    rewrite lev_matrix_step, Hc1, Hn in IH. exact IH.
Qed.

Lemma lev_matrix_row0 (n : nat) :
  List.map (lev_matrix a b 0) (seq 0 n) = seq 0 n.
Proof. apply List.map_id. Qed.

Lemma next_row_spec (i : nat) (c1 : N) :
  nth i a 0%N = c1 ->
  WordMatch.next_row i c1 b
    (List.map (lev_matrix a b i) (seq 0 (S (length b))))
  = List.map (lev_matrix a b (S i)) (seq 0 (S (length b))).
Proof.
  intros Hc1. unfold WordMatch.next_row.
  replace (i + 1) with (lev_matrix a b (S i) 0) by (simpl; lia).
  rewrite (inner_row_spec i c1 Hc1 b 0 eq_refl). reflexivity.
Qed.

Lemma rows_spec (rest : list N) :
  forall i, skipn i a = rest ->
    WordMatch.rows i rest b
      (List.map (lev_matrix a b i) (seq 0 (S (length b))))
    = List.map (lev_matrix a b (i + length rest)) (seq 0 (S (length b))).
Proof.
  induction rest as [|c1 rest IH]; intros i Hi.
  - simpl. rewrite Nat.add_0_r. reflexivity.
  - destruct (skipn_cons_nth _ _ _ _ Hi) as [Hn Hs].
    cbn [WordMatch.rows length].
    rewrite (next_row_spec i c1 Hn), (IH (S i) Hs).
    f_equal. f_equal. lia.
Qed.

Lemma last_map_seq (f : nat -> nat) (n d : nat) :
  List.last (List.map f (seq 0 (S n))) d = f n.
Proof.
  rewrite seq_S, List.map_app. simpl. apply List.last_last.
Qed.

Lemma levenshtein_ordered_spec :
  WordMatch.levenshtein_ordered a b = lev_matrix a b (length a) (length b).
Proof.
  unfold WordMatch.levenshtein_ordered.
  destruct (length b =? 0) eqn:E.
  - apply Nat.eqb_eq in E. rewrite E, lev_matrix_col0. reflexivity.
  - replace (length b + 1) with (S (length b)) by lia.
    rewrite <- (lev_matrix_row0 (S (length b))).
    rewrite (rows_spec a 0 eq_refl). simpl (0 + _).
    apply last_map_seq.
Qed.
End LevenshteinRefinement.

Lemma substitution_cost_sym (x y : N) :
  substitution_cost x y = substitution_cost y x.
Proof.
  unfold substitution_cost.
  destruct (decide (x = y)), (decide (y = x)); congruence.
Qed.

Lemma substitution_cost_refl (x : N) : substitution_cost x x = 0.
Proof. unfold substitution_cost. destruct (decide (x = x)); congruence. Qed.

Lemma substitution_cost_le (x y : N) : substitution_cost x y <= 1.
Proof. unfold substitution_cost. destruct (decide (x = y)); lia. Qed.

Lemma lev_matrix_sym (a b : list N) (i : nat) :
  forall j, lev_matrix a b i j = lev_matrix b a j i.
Proof.
  induction i as [|i IHi]; intros j.
  - rewrite lev_matrix_col0. reflexivity.
  - induction j as [|j IHj].
    + reflexivity.
    + rewrite !lev_matrix_step, IHj, !IHi, substitution_cost_sym. lia.
Qed.

Lemma lev_matrix_le_max (a b : list N) (i : nat) :
  forall j, lev_matrix a b i j <= Nat.max i j.
Proof.
  induction i as [|i IHi]; intros j.
  - simpl. lia.
  - destruct j as [|j].
    + simpl. lia.
    + rewrite lev_matrix_step.
      pose proof (IHi j).
      pose proof (substitution_cost_le (nth i a 0%N) (nth j b 0%N)).
      lia.
Qed.

Lemma lev_matrix_diag (a : list N) (i : nat) : lev_matrix a a i i = 0.
Proof.
  induction i as [|i IH]; [reflexivity|].
  rewrite lev_matrix_step, IH, substitution_cost_refl. lia.
Qed.

Lemma levenshtein_distance_spec (s1 s2 : list N) :
  WordMatch.levenshtein_distance s1 s2 = Levenshtein s1 s2.
Proof.
  unfold WordMatch.levenshtein_distance, Levenshtein.
  destruct (_ <? _); rewrite levenshtein_ordered_spec.
  - apply lev_matrix_sym.
  - reflexivity.
Qed.

Lemma Levenshtein_sym (s1 s2 : list N) : Levenshtein s1 s2 = Levenshtein s2 s1.
Proof. apply lev_matrix_sym. Qed.

Lemma Levenshtein_le_max (s1 s2 : list N) :
  Levenshtein s1 s2 <= Nat.max (length s1) (length s2).
Proof. apply lev_matrix_le_max. Qed.

Lemma Levenshtein_refl (s : list N) : Levenshtein s s = 0.
Proof. apply lev_matrix_diag. Qed.

(** ** Scores *)

(** The one score a rational and a binary64 computation could order
    differently around the threshold is [1 - 3/20]: in binary64 it is the
    very value of the literal [0.85] ([0x1.b333333333333p-1]), as in the
    rationals, so [>], [<] and [>=] against the threshold agree. *)
Example threshold_boundary_binary64 :
  PrimFloat.eqb (1 - 3 / 20)%float 0x1.b333333333333p-1%float
  = true
  /\ PrimFloat.eqb (1 - 6 / 40)%float 0x1.b333333333333p-1%float
     = true
  /\ (1 - (3 # 20) == Validation.name_match_threshold)%Q.
Proof. repeat split; reflexivity. Qed.
Lemma similarity_score_formula (s1 s2 : list N) :
  let m := Nat.max (length s1) (length s2) in
  (m = 0 -> WordMatch.similarity_score s1 s2 = 1%Q)
  /\ (0 < m ->
      (WordMatch.similarity_score s1 s2
       == 1 - (Z.of_nat (Levenshtein s1 s2) # Pos.of_nat m))%Q).
Proof.
  cbv zeta. unfold WordMatch.similarity_score. split; intros Hm.
  - rewrite Hm. reflexivity.
  - destruct (Nat.eqb_spec (Nat.max (length s1) (length s2)) 0) as [E|E];
      [lia|].
    rewrite Qred_correct, levenshtein_distance_spec. reflexivity.
Qed.

Lemma fraction_range (d m : nat) :
  d <= m -> 0 < m ->
  (0 <= 1 - (Z.of_nat d # Pos.of_nat m) /\ 1 - (Z.of_nat d # Pos.of_nat m) <= 1)%Q.
Proof.
  intros Hd Hm.
  assert (Hp : Z.pos (Pos.of_nat m) = Z.of_nat m).
  { rewrite <- positive_nat_Z, Nat2Pos.id by lia. reflexivity. }
  unfold Qle, Qminus, Qplus, Qopp. cbn [Qnum Qden].
  rewrite ?Pos2Z.inj_mul, ?Hp. split; lia.
Qed.

Lemma similarity_score_range (s1 s2 : list N) :
  (0 <= WordMatch.similarity_score s1 s2
   /\ WordMatch.similarity_score s1 s2 <= 1)%Q.
Proof.
  destruct (similarity_score_formula s1 s2) as [H0 H1].
  destruct (Nat.eq_dec (Nat.max (length s1) (length s2)) 0) as [E|E].
  - rewrite (H0 E). split; discriminate.
  - rewrite (H1 ltac:(lia)).
    apply fraction_range; [apply Levenshtein_le_max | lia].
Qed.


Lemma similarity_score_refl (s : list N) : WordMatch.similarity_score s s = 1%Q.
Proof.
  unfold WordMatch.similarity_score.
  rewrite levenshtein_distance_spec, Levenshtein_refl.
  destruct (_ =? 0); [reflexivity|].
  refine (Qred_complete _ 1 _).
  unfold Qeq, Qminus, Qplus, Qopp. cbn [Qnum Qden Z.of_nat].
  rewrite ?Pos2Z.inj_mul. lia.
Qed.

(** ** The head of the sorted table *)
Lemma hd_insert_desc (d x : string * Q) (l : list (string * Q)) :
  List.hd d (WordMatch.insert_desc x l)
  = match l with
    | [] => x
    | y :: _ => if Qle_bool (snd y) (snd x) then x else y
    end.
Proof. destruct l as [|y l]; simpl; [|destruct (Qle_bool _ _)]; reflexivity. Qed.

Lemma sorted_desc_nil (l : list (string * Q)) :
  WordMatch.sorted_desc l = [] -> l = [].
Proof.
  destruct l as [|x l]; [reflexivity|]. simpl.
  destruct (WordMatch.sorted_desc l) as [|y s]; simpl; [discriminate|].
  destruct (Qle_bool _ _); discriminate.
Qed.

Lemma hd_sorted_desc (d : string * Q) (t : list (string * Q)) :
  t <> [] ->
  exists pre x post,
    t = pre ++ x :: post /\ List.hd d (WordMatch.sorted_desc t) = x
    /\ first_best x pre post.
Proof.
  induction t as [|x t IH]; [congruence|]. intros _.
  cbn [WordMatch.sorted_desc]. rewrite (hd_insert_desc d).
  destruct (WordMatch.sorted_desc t) as [|y s] eqn:Es.
  - apply sorted_desc_nil in Es. subst t.
    exists [], x, []. repeat split; intros ? [].
  - assert (Ht : t <> []) by (intros ->; discriminate).
    destruct (IH Ht) as (pre & z & post & Et & Hz & Hpre & Hpost).
    cbn [List.hd] in Hz. subst z.
    destruct (Qle_bool (snd y) (snd x)) eqn:E.
    + apply Qle_bool_iff in E.
      exists [], x, t. repeat split; [intros ? []|].
      intros w Hw. rewrite Et in Hw. apply in_app_or in Hw.
      destruct Hw as [Hw|[<-|Hw]]; [|exact E|].
      * apply Qlt_le_weak. eapply Qlt_le_trans; [apply (Hpre _ Hw)|exact E].
      * eapply Qle_trans; [apply (Hpost _ Hw)|exact E].
    + exists (x :: pre), y, post. rewrite Et. repeat split; [|exact Hpost].
      intros w [<-|Hw]; [|apply (Hpre _ Hw)].
      apply Qnot_le_lt. intros Hle. apply Qle_bool_iff in Hle. congruence.
Qed.

Lemma compare_word_first_best (src_w : string) (sol_words : list string) :
  sol_words <> [] ->
  exists pre w post,
    sol_words = pre ++ w :: post
    /\ WordMatch.compare_word src_w sol_words = (w, score src_w w)
    /\ (forall v, In v pre -> (score src_w v < score src_w w)%Q)
    /\ (forall v, In v post -> (score src_w v <= score src_w w)%Q).
Proof.
  intros Hne. unfold WordMatch.compare_word.
  destruct sol_words as [|w0 ws]; [congruence|]. cbn [length Nat.eqb].
  set (t := WordMatch.results_table src_w (w0 :: ws)).
  destruct (hd_sorted_desc (src_w, 0%Q) t ltac:(discriminate))
    as (pre & x & post & Et & Hx & Hpre & Hpost).
  unfold t, WordMatch.results_table in Et.
  apply List.map_eq_app in Et. destruct Et as (lp & lr & El & Ep & Er).
  apply List.map_eq_cons in Er. destruct Er as (w & lq & Elr & Ew & Eq).
  exists lp, w, lq. subst lr. split; [exact El|].
  fold t. rewrite Hx, <- Ew. split; [reflexivity|].
  subst pre post x. split; intros v Hv.
  - apply (Hpre (v, score src_w v)). apply List.in_map_iff.
    exists v. split; [reflexivity|exact Hv].
  - apply (Hpost (v, score src_w v)). apply List.in_map_iff.
    exists v. split; [reflexivity|exact Hv].
Qed.

Lemma compare_word_single (a b : string) :
  WordMatch.compare_word a [b] = (b, score a b).
Proof. reflexivity. Qed.

(** ** Upper case *)












Example compare_word_tie :
  WordMatch.compare_word "abc" ["abd"; "ABC"; "abc"] = ("ABC", 1%Q).
Proof. vm_compute. reflexivity. Qed.

Example kitten_sitting :
  WordMatch.levenshtein_distance (WordMatch.chars "KITTEN")
                                 (WordMatch.chars "SITTING") = 3
  /\ Levenshtein (WordMatch.chars "KITTEN") (WordMatch.chars "SITTING") = 3.
Proof. split; vm_compute; reflexivity. Qed.

(** Names with letters outside ASCII, as [str.upper] and [len] treat them:
    a letter of two bytes counts once, and an uppercase may be longer than
    the letter. *)
Example scores_beyond_ascii :
  score "Študent" "Student" = 6 # 7
  /\ score "ßßß" "SSSSSS" = 1%Q
  /\ score "ﬃﬃﬃ" "ﬃﬃﬁ" = 8 # 9
  /\ length (WordMatch.chars "Študent") = 7
  /\ WordMatch.upper (WordMatch.chars "ﬃ") = WordMatch.chars "FFI".
Proof. repeat split; vm_compute; reflexivity. Qed.

(** * Properties of the engine *)

(** ** Computations *)

Lemma bind_ok {A B} (l : list ErrorLog.Error) (a : A) (f : A -> M B) :
  bind (l, Ok a) f = (l ++ emitted (f a), outcome (f a)).
Proof. unfold bind, emitted, outcome. destruct (f a); reflexivity. Qed.

Lemma bind_ret {A B} (a : A) (f : A -> M B) : bind (ret a) f = f a.
Proof. unfold ret. rewrite bind_ok. destruct (f a); reflexivity. Qed.

Lemma bind_outcome_ok {A B} (m : M A) (f : A -> M B) (b : B) :
  outcome (bind m f) = Ok b ->
  exists a, outcome m = Ok a /\ outcome (f a) = Ok b
            /\ emitted (bind m f) = emitted m ++ emitted (f a).
Proof.
  destruct m as [l [a|e]]; [|discriminate].
  rewrite bind_ok. simpl. intros H. exists a. auto.
Qed.

Lemma for_each_emitted {A} (f : A -> M unit) (l : list A) :
  (forall x, outcome (f x) = Ok tt) ->
  for_each l f = (List.flat_map (fun x => emitted (f x)) l, Ok tt).
Proof.
  intros Hf. induction l as [|x l IH]; [reflexivity|].
  cbn [for_each List.flat_map]. rewrite IH.
  specialize (Hf x). destruct (f x) as [lx ox]. simpl in Hf. subst ox.
  reflexivity.
Qed.

(** ** Sets in iteration order *)


Lemma remove_first_sublist {A} `{EqDecision A} (x : A) (l l' : list A) :
  remove_first x l = Some l' -> sublist l' l.
Proof.
  revert l'. induction l as [|y l IH]; intros l'; simpl; [discriminate|].
  destruct (decide (x = y)).
  - intros [= <-]. apply sublist_cons. reflexivity.
  - destruct (remove_first x l) as [r|]; [|discriminate].
    intros [= <-]. apply sublist_skip. apply IH. reflexivity.
Qed.

Lemma remove_first_In {A} `{EqDecision A} (x : A) (l : list A) :
  In x l -> exists l', remove_first x l = Some l'.
Proof.
  induction l as [|y l IH]; intros Hin; [destruct Hin|]. simpl.
  destruct (decide (x = y)); [eauto|].
  destruct Hin as [->|Hin]; [congruence|].
  destruct (IH Hin) as [l' ->]. eauto.
Qed.

Lemma set_remove_some {A} `{EqDecision A} (x : A) (l l' : list A) :
  remove_first x l = Some l' -> set_remove x l = ret l'.
Proof. unfold set_remove. intros ->. reflexivity. Qed.

(** ** Score comparisons *)

Lemma Qgt_b_iff (a b : Q) : Qgt_b a b = true <-> (b < a)%Q.
Proof.
  unfold Qgt_b. rewrite negb_true_iff. split.
  - intros H. apply Qnot_le_lt. intros Hle. apply Qle_bool_iff in Hle. congruence.
  - intros H. destruct (Qle_bool a b) eqn:E; [|reflexivity].
    apply Qle_bool_iff in E. exfalso. apply (Qlt_not_le _ _ H E).
Qed.

Lemma Qlt_b_iff (a b : Q) : Qlt_b a b = true <-> (a < b)%Q.
Proof. apply (Qgt_b_iff b a). Qed.

Lemma Qlt_b_false_iff (a b : Q) : Qlt_b a b = false <-> (b <= a)%Q.
Proof.
  unfold Qlt_b. rewrite negb_false_iff. apply Qle_bool_iff.
Qed.

Lemma Qge_b_iff (a b : Q) : Qge_b a b = true <-> (b <= a)%Q.
Proof. apply Qle_bool_iff. Qed.

Lemma score1_score (a b : string) : Validation.score1 a b = score a b.
Proof. reflexivity. Qed.

(** ** Relationships *)




(** ** Identifiers *)

Lemma identifier_attribute_checks_true (s : Identifier.t)
    (attrs : list Attribute.t) (sia : list (list string))
    (l : list ErrorLog.Error) :
  Validation.identifier_attribute_checks s attrs sia = (l, Ok true) -> l = [].
Proof.
  revert l. induction attrs as [|a attrs IH]; intros l.
  - intros [= <-]. reflexivity.
  - cbn [Validation.identifier_attribute_checks].
    destruct (py_min _) as [m|]; [|discriminate].
    destruct (Qlt_b m Validation.name_match_threshold); [discriminate|].
    apply IH.
Qed.

Lemma validate_identifier_attributes_true (s : Identifier.t)
    (pool : list Identifier.t) (l : list ErrorLog.Error)
    (o : option Identifier.t) :
  Validation.validate_identifier_attributes s pool = (l, Ok (o, true)) ->
  l = [] /\ exists sol, o = Some sol /\ In sol pool
                        /\ Validation.match_found s sol = true.
Proof.
  unfold Validation.validate_identifier_attributes.
  destruct (Validation.identifier_attribute_checks _ _ _) as [l1 [[|]|e]] eqn:E;
    [| discriminate | discriminate].
  apply identifier_attribute_checks_true in E. subst l1.
  rewrite bind_ok.
  destruct (List.find _ pool) as [sol|] eqn:F; [|discriminate].
  simpl. intros [= <- <-]. split; [reflexivity|].
  apply List.find_some in F. exists sol. tauto.
Qed.


(** ** Inheritances *)

Lemma threshold_positive : ~ (Validation.name_match_threshold <= 0)%Q.
Proof. intros H. apply (Qle_bool_iff _ _) in H. discriminate. Qed.

Lemma best_child_fold (child : Entity.t) (sols : list Entity.t) :
  forall best : string * Q,
    (Validation.name_match_threshold
     <= snd (List.fold_left
               (fun best solution_child =>
                  let '(curr_match, curr_score) :=
                    WordMatch.compare_word (Entity.name child)
                                           [Entity.name solution_child] in
                  if Qgt_b curr_score (snd best) then (curr_match, curr_score)
                  else best)
               sols best))%Q
    <-> (Validation.name_match_threshold <= snd best)%Q
        \/ exists sc, In sc sols
             /\ (Validation.name_match_threshold
                 <= score (Entity.name child) (Entity.name sc))%Q.
Proof.
  induction sols as [|x sols IH]; intros best.
  - simpl. split; [auto|]. intros [H|(sc & [] & _)]. exact H.
  - cbn [List.fold_left]. rewrite compare_word_single.
    destruct (Qgt_b (score (Entity.name child) (Entity.name x)) (snd best)) eqn:E;
      rewrite IH; cbn [snd].
    + apply Qgt_b_iff in E. split.
      * intros [H|(sc & Hin & H)]; right;
          [exists x; split; [left; reflexivity|exact H]
          |exists sc; split; [right; exact Hin|exact H]].
      * intros [H|(sc & [<-|Hin] & H)].
        -- left. apply Qlt_le_weak. eapply Qle_lt_trans; eassumption.
        -- left. exact H.
        -- right. exists sc. split; assumption.
    + assert (Hle : (score (Entity.name child) (Entity.name x) <= snd best)%Q).
      { apply Qnot_lt_le. intros Hlt. apply Qgt_b_iff in Hlt. congruence. }
      split.
      * intros [H|(sc & Hin & H)]; [left; exact H|].
        right. exists sc. split; [right; exact Hin|exact H].
      * intros [H|(sc & [<-|Hin] & H)].
        -- left. exact H.
        -- left. eapply Qle_trans; eassumption.
        -- right. exists sc. split; assumption.
Qed.

Lemma best_child_ge (child : Entity.t) (sols : list Entity.t) :
  (Validation.name_match_threshold <= snd (Validation.best_child child sols))%Q
  <-> exists sc, In sc sols
        /\ (Validation.name_match_threshold
            <= score (Entity.name child) (Entity.name sc))%Q.
Proof.
  unfold Validation.best_child. rewrite best_child_fold. cbn [snd].
  split; [|auto]. intros [H|H]; [|exact H].
  destruct (threshold_positive H).
Qed.

Lemma children_scores_pass (s c : Inheritance.t) :
  existsb (fun x => Qlt_b (snd x) Validation.name_match_threshold)
          (Validation.children_scores s c) = false
  <-> children_match s c.
Proof.
  unfold Validation.children_scores, children_match.
  induction (Inheritance.children s) as [|child l IH].
  - simpl. split; [intros _ ? []|reflexivity].
  - cbn [List.map existsb]. rewrite orb_false_iff, IH, Qlt_b_false_iff,
      best_child_ge.
    split.
    + intros [Hc Hl] x [<-|Hx]; [exact Hc|apply Hl, Hx].
    + intros H. split; [apply H; left; reflexivity|].
      intros x Hx. apply H. right. exact Hx.
Qed.

Lemma validate_inheritance_children (s c : Inheritance.t) :
  ~ children_match s c ->
  Validation.validate_inheritance s c
  = ([], Ok (Some (Validation.children_mismatch_info s), false)).
Proof.
  intros Hn. unfold Validation.validate_inheritance.
  destruct (existsb _ (Validation.children_scores s c)) eqn:E; [reflexivity|].
  apply children_scores_pass in E. contradiction.
Qed.

Lemma validate_inheritance_parent (s c : Inheritance.t) :
  children_match s c ->
  (score (Entity.name (Inheritance.parent s)) (Entity.name (Inheritance.parent c))
   < Validation.name_match_threshold)%Q ->
  Validation.validate_inheritance s c
  = ([], Ok (Some (Validation.parent_mismatch_info s), false)).
Proof.
  intros Hc Hp. unfold Validation.validate_inheritance.
  apply children_scores_pass in Hc. rewrite Hc, score1_score.
  apply Qlt_b_iff in Hp. rewrite Hp. reflexivity.
Qed.

Lemma validate_inheritance_qualifies (s c : Inheritance.t) :
  inheritance_qualifies s c ->
  Validation.validate_inheritance s c
  = (if bool_decide (Inheritance.mutually_exclusive s
                     <> Inheritance.mutually_exclusive c)
     then emitted (Validation.mutually_exclusive_error s)
     else if bool_decide (Inheritance.complete s <> Inheritance.complete c)
          then emitted (Validation.complete_error s)
          else [],
     Ok (None, true)).
Proof.
  intros [Hc Hp]. unfold Validation.validate_inheritance.
  apply children_scores_pass in Hc. rewrite Hc, score1_score.
  apply Qlt_b_false_iff in Hp. rewrite Hp.
  repeat destruct (bool_decide _); reflexivity.
Qed.

Lemma inheritance_qualifies_dec (s c : Inheritance.t) :
  inheritance_qualifies s c \/ ~ inheritance_qualifies s c.
Proof.
  unfold inheritance_qualifies.
  destruct (existsb (fun x => Qlt_b (snd x) Validation.name_match_threshold)
                    (Validation.children_scores s c)) eqn:E.
  - right. intros [Hc _]. apply children_scores_pass in Hc. congruence.
  - apply children_scores_pass in E.
    destruct (Qlt_b (score (Entity.name (Inheritance.parent s))
                           (Entity.name (Inheritance.parent c)))
                    Validation.name_match_threshold) eqn:P.
    + right. intros [_ Hp]. apply Qlt_b_false_iff in Hp. congruence.
    + left. split; [exact E|]. apply Qlt_b_false_iff. exact P.
Qed.

Lemma validate_inheritance_fails (s c : Inheritance.t) :
  ~ inheritance_qualifies s c ->
  exists info,
    Validation.validate_inheritance s c = ([], Ok (Some info, false)).
Proof.
  intros Hn. unfold Validation.validate_inheritance.
  destruct (existsb _ (Validation.children_scores s c)) eqn:E; [eauto|].
  destruct (Qlt_b _ _) eqn:P; [eauto|]. exfalso. apply Hn.
  split; [apply children_scores_pass, E|].
  apply Qlt_b_false_iff. exact P.
Qed.

Lemma validate_inheritance_flag (s c : Inheritance.t) :
  (exists l e, Validation.validate_inheritance s c = (l, Ok (e, true)))
  <-> inheritance_qualifies s c.
Proof.
  split.
  - intros (l & e & H). destruct (inheritance_qualifies_dec s c) as [Hq|Hq];
      [exact Hq|].
    destruct (validate_inheritance_fails s c Hq) as [info Hi]. congruence.
  - intros Hq. rewrite (validate_inheritance_qualifies s c Hq). eauto.
Qed.

Lemma inheritance_search_all_fail (s last : Inheritance.t)
    (pool pre : list Inheritance.t) :
  (forall x, In x (pre ++ [last]) -> ~ inheritance_qualifies s x) ->
  forall err_info,
  exists info,
    Validation.validate_inheritance s last = ([], Ok (Some info, false))
    /\ Validation.inheritance_search s pool (pre ++ [last]) err_info
       = ([], Ok (None, Bound (Some info))).
Proof.
  induction pre as [|x pre IH]; intros Hall err_info.
  - destruct (validate_inheritance_fails s last) as [info Hi].
    { apply Hall. left. reflexivity. }
    exists info. split; [exact Hi|].
    cbn [app Validation.inheritance_search]. rewrite Hi. reflexivity.
  - destruct (validate_inheritance_fails s x) as [ix Hx].
    { apply Hall. left. reflexivity. }
    destruct (IH (fun y Hy => Hall y (or_intror Hy)) (Bound (Some ix)))
      as (info & Hi & Hs).
    exists info. split; [exact Hi|].
    cbn [app Validation.inheritance_search]. rewrite Hx, bind_ok.
    rewrite Hs. reflexivity.
Qed.

(** ** The unmatched pool keeps the iteration order *)

Lemma set_remove_ok {A} `{EqDecision A} (x : A) (l l' : list A) :
  outcome (set_remove x l) = Ok l' -> sublist l' l.
Proof.
  unfold set_remove. destruct (remove_first x l) as [r|] eqn:E; [|discriminate].
  intros [= <-]. apply (remove_first_sublist _ _ _ E).
Qed.


Tactic Notation "inv_bind" hyp(H) "as" ident(a) ident(Ha) ident(Hk) :=
  apply bind_outcome_ok in H; destruct H as (a & Ha & Hk & _).

Section PoolOrder.
Variable set_iter : forall A : Type, list A -> list A.
Variables src_model solution_model : Model.t.









End PoolOrder.

(** ** Identifier matching and the order of member attributes *)

Lemma compare_word_score_bounds (w : string) (l : list string) :
  l <> [] ->
  (exists v, In v l /\ snd (WordMatch.compare_word w l) = score w v)
  /\ (forall v, In v l -> (score w v <= snd (WordMatch.compare_word w l))%Q).
Proof.
  intros Hne.
  destruct (compare_word_first_best w l Hne) as (pre & x & post & El & Ec & Hpre & Hpost).
  rewrite Ec. cbn [snd]. split.
  - exists x. split; [|reflexivity]. rewrite El. apply in_or_app. right. left.
    reflexivity.
  - intros v Hv. rewrite El in Hv. apply in_app_or in Hv.
    destruct Hv as [Hv|[<-|Hv]].
    + apply Qlt_le_weak, Hpre, Hv.
    + apply Qle_refl.
    + apply Hpost, Hv.
Qed.

Lemma compare_word_score_perm (w : string) (l l' : list string) :
  Permutation l l' ->
  (snd (WordMatch.compare_word w l) == snd (WordMatch.compare_word w l'))%Q.
Proof.
  intros Hp. destruct l as [|x l].
  - apply Permutation_nil in Hp. subst l'. reflexivity.
  - assert (Hne' : l' <> []).
    { intros ->. apply Permutation_sym, Permutation_nil in Hp. discriminate. }
    destruct (compare_word_score_bounds w (x :: l) ltac:(discriminate))
      as [(v & Hv & Ev) Hub].
    destruct (compare_word_score_bounds w l' Hne') as [(v' & Hv' & Ev') Hub'].
    apply Qle_antisym.
    + rewrite Ev. apply Hub'. apply (Permutation_in _ Hp Hv).
    + rewrite Ev'. apply Hub. apply (Permutation_in _ (Permutation_sym Hp) Hv').
Qed.

Lemma Qge_b_Qeq (a b t : Q) : (a == b)%Q -> Qge_b a t = Qge_b b t.
Proof.
  intros E. unfold Qge_b.
  destruct (Qle_bool t a) eqn:Ha, (Qle_bool t b) eqn:Hb; try reflexivity.
  - apply Qle_bool_iff in Ha. rewrite E in Ha. apply Qle_bool_iff in Ha. congruence.
  - apply Qle_bool_iff in Hb. rewrite <- E in Hb. apply Qle_bool_iff in Hb. congruence.
Qed.

Lemma forallb_pointwise {A} (f g : A -> bool) (l : list A) :
  (forall x, f x = g x) -> forallb f l = forallb g l.
Proof.
  intros H. induction l as [|x l IH]; [reflexivity|].
  simpl. rewrite H, IH. reflexivity.
Qed.

Lemma forallb_perm {A} (f : A -> bool) (l l' : list A) :
  Permutation l l' -> forallb f l = forallb f l'.
Proof.
  intros Hp. induction Hp; simpl; try congruence.
  destruct (f x), (f y); reflexivity.
Qed.

(** The test for one candidate does not depend on the order of the member
    attributes of either identifier. *)
Lemma match_found_perm (s s' c c' : Identifier.t) :
  Permutation (Identifier.identifier_attributes s)
              (Identifier.identifier_attributes s') ->
  Permutation (Identifier.identifier_attributes c)
              (Identifier.identifier_attributes c') ->
  Validation.match_found s c = Validation.match_found s' c'.
Proof.
  intros Hs Hc. unfold Validation.match_found.
  rewrite <- (forallb_perm _ _ _ Hs).
  apply forallb_pointwise. intros a.
  apply Qge_b_Qeq, compare_word_score_perm, Permutation_map, Hc.
Qed.

(** * The claims about the engine *)






(** The pass at the witness input, diagnostic by diagnostic: the mismatch
    of the first source identifier, the primary-flag mismatch of the
    second, nothing for the third, and the one solution identifier left in
    the pool. *)
Example primary_mismatch_pass_run :
  Validation.validate_identifiers insertion_order
    (Sample.model
       [Entity.mk "o2" "Book" "BOOK" false [Sample.isbn; Sample.title]
          [Sample.id_title; Sample.id_isbn; Sample.id_empty]]
       [] [] [] [])
    (Sample.model
       [Entity.mk "o2" "Book" "BOOK" false [Sample.isbn; Sample.title]
          [Sample.id_isbn_secondary; Sample.id_isbn_title]]
       [] [] [] [])
    "o2" "o2"
  = ([ErrorLog.mkError "Identifier" (Some "o22") (ErrorLog.StrName "title")
        "Error"
        (ErrorLog.Text "Identifier attributes mismatch in solution model");
      ErrorLog.mkError "Identifier" (Some "o2") (ErrorLog.StrName "o21")
        "Error"
        (ErrorLog.Text "Table Book identifier Identifier_1 primary property mismatch");
      ErrorLog.mkError "Identifier" (Some "o2") ErrorLog.NoName "Error"
        (ErrorLog.Text "Unmatched identifier in entity Book: Identifier_3")],
     Ok tt).
Proof. vm_compute. reflexivity. Qed.

(** C7, as the code has it.  A solution inheritance qualifies exactly when
    every source child has a solution child scoring at least the threshold
    and the parent names score at least the threshold.  Children are
    checked before the parent.  When no candidate of a non-empty pool
    qualifies, the diagnostic emitted is the failure reason of the last
    candidate visited.  On a qualifying match, a difference in
    [mutually_exclusive] alone yields one diagnostic, a difference in
    [complete] alone yields one diagnostic, and no difference yields
    none. *)
Theorem inheritance_correspondence :
  (forall s c,
     (exists l e, Validation.validate_inheritance s c = (l, Ok (e, true)))
     <-> inheritance_qualifies s c)
  /\ (forall s c,
        ~ children_match s c ->
        Validation.validate_inheritance s c
        = ([], Ok (Some (Validation.children_mismatch_info s), false)))
  /\ (forall s c,
        children_match s c ->
        (score (Entity.name (Inheritance.parent s))
               (Entity.name (Inheritance.parent c))
         < Validation.name_match_threshold)%Q ->
        Validation.validate_inheritance s c
        = ([], Ok (Some (Validation.parent_mismatch_info s), false)))
  /\ (forall s pre last rest err_info,
        (forall x, In x (pre ++ [last]) -> ~ inheritance_qualifies s x) ->
        exists info,
          Validation.validate_inheritance s last = ([], Ok (Some info, false))
          /\ Validation.inheritances_loop (s :: rest) (pre ++ [last]) err_info
             = (([info], Ok tt) ;;;
                Validation.inheritances_loop rest (pre ++ [last])
                  (Bound (Some info))))
  /\ (forall s c,
        inheritance_qualifies s c ->
        (Inheritance.mutually_exclusive s <> Inheritance.mutually_exclusive c ->
         Inheritance.complete s = Inheritance.complete c ->
         Validation.validate_inheritance s c
         = (emitted (Validation.mutually_exclusive_error s), Ok (None, true)))
        /\ (Inheritance.mutually_exclusive s = Inheritance.mutually_exclusive c ->
            Inheritance.complete s <> Inheritance.complete c ->
            Validation.validate_inheritance s c
            = (emitted (Validation.complete_error s), Ok (None, true)))
        /\ (Inheritance.mutually_exclusive s = Inheritance.mutually_exclusive c ->
            Inheritance.complete s = Inheritance.complete c ->
            Validation.validate_inheritance s c = ([], Ok (None, true))))
  /\ (forall s,
        length (emitted (Validation.mutually_exclusive_error s)) = 1
        /\ length (emitted (Validation.complete_error s)) = 1).
Proof.
  split; [exact validate_inheritance_flag|].
  split; [exact validate_inheritance_children|].
  split; [exact validate_inheritance_parent|].
  split.
  { intros s pre last rest err_info Hall.
    destruct (inheritance_search_all_fail s last (pre ++ [last]) pre Hall err_info)
      as (info & Hi & Hs).
    exists info. split; [exact Hi|].
    cbn [Validation.inheritances_loop]. rewrite Hs.
    apply (bind_ret (None, Bound (Some info))). }
  split.
  { intros s c Hq. rewrite (validate_inheritance_qualifies s c Hq).
    repeat split; intros Hm Hc.
    - rewrite bool_decide_true by exact Hm. reflexivity.
    - rewrite bool_decide_false by (intros H; apply H, Hm).
      rewrite bool_decide_true by exact Hc. reflexivity.
    - rewrite bool_decide_false by (intros H; apply H, Hm).
      rewrite bool_decide_false by (intros H; apply H, Hc). reflexivity. }
  intros s. split; reflexivity.
Qed.

Lemma inheritance_correspondence_witness :
  exists info,
    Validation.validate_inheritance Sample.kinds_of_book_orphan Sample.kinds
    = ([], Ok (Some info, false))
    /\ Validation.inheritances_loop [Sample.kinds_of_book_orphan]
         ([Sample.units] ++ [Sample.kinds]) Unbound
       = (([info], Ok tt) ;;;
          Validation.inheritances_loop [] ([Sample.units] ++ [Sample.kinds])
            (Bound (Some info))).
Proof.
  apply (proj1 (proj2 (proj2 (proj2 inheritance_correspondence)))
           Sample.kinds_of_book_orphan [Sample.units] Sample.kinds [] Unbound).
  intros x [<-|[<-|[]]] [Hc _].
  - destruct (Hc Sample.member (or_introl eq_refl)) as (sc & [] & _).
  - destruct (Hc Sample.member (or_introl eq_refl)) as (sc & [<-|[]] & H).
    vm_compute in H. apply H. reflexivity.
Defined.

(** C7 as stated fails: two parent names scoring exactly [0.85] qualify,
    and a match that differs in both flags yields the mutual-exclusivity
    diagnostic only. *)
Lemma inheritance_claim_counterexample :
  (score "UniversityDepartment" "UniversityDepartmure" = 17 # 20
   /\ ~ (Validation.name_match_threshold
         < score "UniversityDepartment" "UniversityDepartmure")%Q
   /\ Validation.validate_inheritance Sample.units Sample.units'
      = ([], Ok (None, true)))
  /\ (Inheritance.mutually_exclusive Sample.kinds
      <> Inheritance.mutually_exclusive Sample.kinds_open
      /\ Inheritance.complete Sample.kinds
         <> Inheritance.complete Sample.kinds_open
      /\ Validation.validate_inheritance Sample.kinds Sample.kinds_open
         = (emitted (Validation.mutually_exclusive_error Sample.kinds),
            Ok (None, true))
      /\ ~ In (ErrorLog.mkError "Inheritance" (Some "o6")
                 (ErrorLog.StrName "Inheritance_1") "Error"
                 (ErrorLog.Text "Inheritance Inheritance_1 complete property mismatch"))
              (emitted (Validation.validate_inheritance Sample.kinds
                                                        Sample.kinds_open))).
Proof.
  split.
  - split; [reflexivity|]. split; [|reflexivity].
    intros H. vm_compute in H. discriminate.
  - split; [discriminate|]. split; [discriminate|]. split; [reflexivity|].
    vm_compute. intros [H|[]]. discriminate.
Qed.





(** C1 at a failing input.  A model holding one association with one
    attribute, validated against itself, yields two diagnostics; a model
    holding one entity with two identifiers on different attributes,
    validated against itself, yields four. *)
Theorem self_validation_reports_attributed_association :
  Validation.validate insertion_order
    (Sample.model [] [] [] [Sample.borrows] [])
    (Sample.model [] [] [] [Sample.borrows] [])
  = ([ ErrorLog.mkError "Association" (Some "o4") (ErrorLog.StrName "Borrows")
         "Error" (ErrorLog.Text "Association Borrows not found in solution model");
       ErrorLog.mkError "Association" None ErrorLog.NoName "Error"
         (ErrorLog.Text "Unmatched association in solution model: Borrows") ],
     Ok tt)
  /\ length (emitted (Validation.validate insertion_order
                        (Sample.model [Sample.book_two_keys] [] [] [] [])
                        (Sample.model [Sample.book_two_keys] [] [] [] []))) = 4.
Proof. split; reflexivity. Qed.

(** C2 at failing inputs.  A source inheritance against a solution without
    inheritances raises [UnboundLocalError]; a source identifier with an
    attribute against a matched solution entity without identifiers
    raises [ValueError]; a source identifier without attributes against
    the same solution entity is dropped without a diagnostic. *)
Theorem validate_raises_on_empty_pool :
  outcome (Validation.validate insertion_order
             (Sample.model [Sample.member; Sample.author_child] [Sample.kinds]
                           [] [] [])
             (Sample.model [Sample.member; Sample.author] [] [] [] []))
  = Raise UnboundLocalError
  /\ Validation.validate insertion_order
       (Sample.model [Sample.book_keyed] [] [] [] [])
       (Sample.model [Sample.book] [] [] [] [])
     = ([], Raise ValueError)
  /\ Validation.validate insertion_order
       (Sample.model [Sample.book_empty_key] [] [] [] [])
       (Sample.model [Sample.book] [] [] [] [])
     = ([], Ok tt).
Proof. repeat split; reflexivity. Qed.

(** [validate_association] answers [True] only for two associations
    without attributes. *)
Lemma validate_association_true_iff (s c : Association.t) :
  outcome (Validation.validate_association s c) = Ok (Some true)
  <-> Association.attributes s = [] /\ Association.attributes c = [].
Proof.
  unfold Validation.validate_association.
  destruct (Association.attributes s) as [|a la], (Association.attributes c) as [|b lb];
    cbn [length Nat.eqb andb].
  - split; [auto|reflexivity].
  - destruct (forallb _ _); split; try discriminate; intros [_ H]; discriminate.
  - destruct (forallb _ _); split; try discriminate; intros [H _]; discriminate.
  - rewrite andb_false_r.
    destruct (forallb _ _); split; try discriminate; intros [H _]; discriminate.
Qed.

(** C4 at a failing input.  An association with one attribute, compared
    with itself, is not accepted: [validate_association] falls off its end,
    the search finds nothing, and the pass reports the source association
    as not found and the solution association as unmatched. *)
Theorem attributed_association_never_matches :
  score "date" "date" = 1%Q
  /\ Validation.validate_association Sample.borrows Sample.borrows
     = ([], Ok None)
  /\ Validation.association_search Sample.borrows [Sample.borrows]
       [Sample.borrows]
     = ([], Ok None)
  /\ Validation.validate_associations insertion_order
       (Sample.model [] [] [] [Sample.borrows] [])
       (Sample.model [] [] [] [Sample.borrows] [])
     = (emitted (Validation.association_not_found_error Sample.borrows)
        ++ emitted (Validation.unmatched_association_error Sample.borrows),
        Ok tt).
Proof. repeat split; reflexivity. Qed.

(** C5 at a failing input.  A source link that matches a solution link with
    another cardinality emits the mismatch diagnostic and then the pass
    raises [RuntimeError]: the loop goes on iterating the set it has
    removed from. *)
Theorem link_cardinality_mismatch_raises :
  Validation.validate_association_link Sample.link_many Sample.link_one = true
  /\ Validation.link_search Sample.link_many [Sample.link_one] [Sample.link_one]
     = (emitted (Validation.link_cardinality_error Sample.link_many),
        Raise RuntimeError)
  /\ Validation.validate_association_links insertion_order
       (Sample.model [Sample.book] [] [] [Sample.borrows] [Sample.link_many])
       (Sample.model [Sample.book] [] [] [Sample.borrows] [Sample.link_one])
     = (emitted (Validation.link_cardinality_error Sample.link_many),
        Raise RuntimeError).
Proof. repeat split; reflexivity. Qed.

(** C6 at a failing input.  The source identifier on [isbn] matches the
    candidate on [isbn] fully, yet with a second candidate on [title] in
    the pool, in either order, it is reported as a mismatch and matched
    with nothing. *)
Theorem identifier_full_match_rejected :
  Validation.match_found Sample.id_isbn Sample.id_isbn = true
  /\ Validation.validate_identifier_attributes Sample.id_isbn
       [Sample.id_isbn; Sample.id_title]
     = ([ ErrorLog.mkError "Identifier" (Some "o21") (ErrorLog.StrName "isbn")
            "Error"
            (ErrorLog.Text "Identifier attributes mismatch in solution model") ],
        Ok (None, false))
  /\ Validation.validate_identifier_attributes Sample.id_isbn
       [Sample.id_title; Sample.id_isbn]
     = ([ ErrorLog.mkError "Identifier" (Some "o21") (ErrorLog.StrName "isbn")
            "Error"
            (ErrorLog.Text "Identifier attributes mismatch in solution model") ],
        Ok (None, false)).
Proof. repeat split; reflexivity. Qed.

(** * Further properties of the scorer *)

Lemma lev_matrix_lower (a b : list N) (i : nat) :
  forall j, (i - j) + (j - i) <= lev_matrix a b i j.
Proof.
  induction i as [|i IHi]; intros j.
  - simpl. lia.
  - induction j as [|j IHj].
    + simpl. lia.
    + rewrite lev_matrix_step.
      pose proof (IHi (S j)). pose proof (IHi j). lia.
Qed.

Lemma substitution_cost_zero (x y : N) : substitution_cost x y = 0 -> x = y.
Proof.
  unfold substitution_cost. destruct (decide (x = y)); [auto|discriminate].
Qed.

Lemma lev_matrix_zero_nth (a b : list N) (i : nat) :
  lev_matrix a b i i = 0 ->
  forall k, k < i -> nth k a 0%N = nth k b 0%N.
Proof.
  induction i as [|i IH]; intros H k Hk; [lia|].
  rewrite lev_matrix_step in H.
  assert (H0 : lev_matrix a b i i = 0) by lia.
  assert (Hc : substitution_cost (nth i a 0%N) (nth i b 0%N) = 0) by lia.
  destruct (Nat.eq_dec k i) as [->|Hne].
  - apply substitution_cost_zero, Hc.
  - apply (IH H0). lia.
Qed.

Lemma Levenshtein_zero (s1 s2 : list N) : Levenshtein s1 s2 = 0 -> s1 = s2.
Proof.
  unfold Levenshtein. intros H.
  pose proof (lev_matrix_lower s1 s2 (length s1) (length s2)) as Hl.
  assert (E : length s1 = length s2) by lia.
  apply (List.nth_ext _ _ 0%N 0%N); [exact E|].
  intros k Hk. rewrite <- E in H.
  apply (lev_matrix_zero_nth _ _ _ H k Hk).
Qed.

Lemma Levenshtein_lower (s1 s2 : list N) :
  (length s1 - length s2) + (length s2 - length s1) <= Levenshtein s1 s2.
Proof. apply lev_matrix_lower. Qed.

(** The threshold test in integers. *)
Lemma above_threshold_iff (d m : nat) :
  0 < m ->
  (Validation.name_match_threshold < Qred (1 - (Z.of_nat d # Pos.of_nat m)))%Q
  <-> 20 * d < 3 * m.
Proof.
  intros Hm. rewrite Qred_correct.
  assert (Hp : Z.pos (Pos.of_nat m) = Z.of_nat m).
  { rewrite <- positive_nat_Z, Nat2Pos.id by lia. reflexivity. }
  unfold Qlt, Qminus, Qplus, Qopp, Validation.name_match_threshold.
  cbn [Qnum Qden]. rewrite ?Pos2Z.inj_mul, ?Hp. lia.
Qed.

Lemma similarity_above_threshold (s1 s2 : list N) :
  (Validation.name_match_threshold < WordMatch.similarity_score s1 s2)%Q
  <-> Nat.max (length s1) (length s2) = 0
      \/ 20 * Levenshtein s1 s2 < 3 * Nat.max (length s1) (length s2).
Proof.
  unfold WordMatch.similarity_score. rewrite levenshtein_distance_spec.
  destruct (Nat.eqb_spec (Nat.max (length s1) (length s2)) 0) as [E|E].
  - split; [auto|]. intros _. reflexivity.
  - rewrite above_threshold_iff by lia. split; [auto|]. intros [H|H]; [lia|exact H].
Qed.

Lemma similarity_one (s1 s2 : list N) :
  WordMatch.similarity_score s1 s2 = 1%Q <-> s1 = s2.
Proof.
  split; [|intros ->; apply similarity_score_refl].
  unfold WordMatch.similarity_score. rewrite levenshtein_distance_spec.
  destruct (Nat.eqb_spec (Nat.max (length s1) (length s2)) 0) as [E|E].
  - intros _. destruct s1, s2; simpl in E; try lia. reflexivity.
  - intros H. apply Levenshtein_zero.
    assert (Hq : (1 - (Z.of_nat (Levenshtein s1 s2)
                       # Pos.of_nat (Nat.max (length s1) (length s2)))
                  == 1)%Q).
    { rewrite <- Qred_correct, H. reflexivity. }
    unfold Qeq, Qminus, Qplus, Qopp in Hq. cbn [Qnum Qden] in Hq. lia.
Qed.

(** * Further properties of the engine *)

Lemma bind_nil_ok {A B} (a : A) (f : A -> M B) : bind ([], Ok a) f = f a.
Proof. apply bind_ret. Qed.

(** ** Matching by name *)

Lemma compare_word_nil (w : string) : WordMatch.compare_word w [] = (w, 0%Q).
Proof. reflexivity. Qed.

Lemma find_by_name {A} (name : A -> string) (n : string) (pool : list A) :
  In n (List.map name pool) ->
  exists m, List.find (fun e => String.eqb (name e) n) pool = Some m
            /\ In m pool /\ name m = n.
Proof.
  induction pool as [|x pool IH]; intros Hin; [destruct Hin|].
  cbn [List.find]. destruct (String.eqb_spec (name x) n) as [E|E].
  - exists x. split; [reflexivity|]. split; [left; reflexivity|exact E].
  - destruct Hin as [Hin|Hin]; [contradiction|].
    destruct (IH Hin) as (m & Hf & Hm & Hn).
    exists m. split; [exact Hf|]. split; [right; exact Hm|exact Hn].
Qed.

(** The two ways the search by name can end: no candidate scores above the
    threshold, or the candidate found has the highest score of the pool. *)
Lemma best_name_match {A} (name : A -> string) (w : string) (pool : list A) :
  (Qgt_b (snd (WordMatch.compare_word w (List.map name pool)))
         Validation.name_match_threshold = false
   /\ forall e, In e pool ->
        (score w (name e) <= Validation.name_match_threshold)%Q)
  \/ (Qgt_b (snd (WordMatch.compare_word w (List.map name pool)))
            Validation.name_match_threshold = true
      /\ exists m,
           List.find (fun e => String.eqb (name e)
                        (fst (WordMatch.compare_word w (List.map name pool))))
                     pool = Some m
           /\ In m pool
           /\ (Validation.name_match_threshold < score w (name m))%Q
           /\ forall e, In e pool -> (score w (name e) <= score w (name m))%Q).
Proof.
  destruct pool as [|x pool].
  - left. split; [reflexivity|]. intros e [].
  - destruct (compare_word_first_best w (List.map name (x :: pool))
                ltac:(discriminate))
      as (pre & n & post & El & Ec & Hpre & Hpost).
    assert (Hall : forall e, In e (x :: pool) ->
                     (score w (name e) <= score w n)%Q).
    { intros e He. apply (List.in_map name) in He. rewrite El in He.
      apply in_app_or in He. destruct He as [He|[<-|He]].
      - apply Qlt_le_weak, Hpre, He.
      - apply Qle_refl.
      - apply Hpost, He. }
    rewrite Ec. cbn [fst snd].
    destruct (Qgt_b (score w n) Validation.name_match_threshold) eqn:E.
    + right. split; [reflexivity|].
      destruct (find_by_name name n (x :: pool)) as (m & Hf & Hm & Hn).
      { rewrite El. apply in_or_app. right. left. reflexivity. }
      exists m. rewrite Hn. split; [exact Hf|]. split; [exact Hm|].
      split; [apply Qgt_b_iff, E|exact Hall].
    + left. split; [reflexivity|]. intros e He.
      eapply Qle_trans; [apply (Hall e He)|].
      apply Qnot_lt_le. intros Hlt. apply Qgt_b_iff in Hlt. congruence.
Qed.

(** ** Entities *)

Lemma entities_loop_not_found (set_iter : forall A : Type, list A -> list A)
    (src_model solution_model : Model.t) (s : Entity.t)
    (rest pool : list Entity.t) :
  (forall e, In e pool ->
     (score (Entity.name s) (Entity.name e) <= Validation.name_match_threshold)%Q) ->
  Validation.entities_loop set_iter src_model solution_model (s :: rest) pool
  = (entity_not_found_error s ;;;
     Validation.entities_loop set_iter src_model solution_model rest pool).
Proof.
  intros Hall. cbn [Validation.entities_loop].
  destruct (best_name_match Entity.name (Entity.name s) pool)
    as [[Hb _]|[_ (m & _ & Hm & Hlt & _)]].
  - destruct (WordMatch.compare_word _ _) as [n sc]. cbn [snd] in Hb.
    rewrite Hb. reflexivity.
  - exfalso. apply (Qlt_not_le _ _ Hlt). apply Hall, Hm.
Qed.

Lemma entities_loop_match (set_iter : forall A : Type, list A -> list A)
    (src_model solution_model : Model.t) (s : Entity.t)
    (rest pool : list Entity.t) (e : Entity.t) :
  In e pool ->
  (Validation.name_match_threshold < score (Entity.name s) (Entity.name e))%Q ->
  exists m pool',
    In m pool
    /\ (forall x, In x pool ->
          (score (Entity.name s) (Entity.name x)
           <= score (Entity.name s) (Entity.name m))%Q)
    /\ remove_first m pool = Some pool'
    /\ Validation.entities_loop set_iter src_model solution_model (s :: rest) pool
       = (Validation.validate_entity set_iter src_model solution_model
            (Entity.id s) (Entity.id m) ;;;
          Validation.entities_loop set_iter src_model solution_model rest pool').
Proof.
  intros He Hlt. cbn [Validation.entities_loop].
  destruct (best_name_match Entity.name (Entity.name s) pool)
    as [[_ Hall]|[Hb (m & Hf & Hm & _ & Hbest)]].
  - exfalso. apply (Qlt_not_le _ _ Hlt). apply Hall, He.
  - destruct (remove_first_In _ _ Hm) as [pool' Hrm].
    exists m, pool'. split; [exact Hm|]. split; [exact Hbest|].
    split; [exact Hrm|].
    destruct (WordMatch.compare_word _ _) as [n sc]. cbn [fst snd] in Hb, Hf.
    rewrite Hb, Hf, (set_remove_some _ _ _ Hrm), bind_ret. reflexivity.
Qed.

(** ** Attributes *)

Lemma attributes_loop_not_found (tid : string) (a : Attribute.t)
    (rest pool : list Attribute.t) :
  (forall e, In e pool ->
     (score (Attribute.name a) (Attribute.name e)
      <= Validation.name_match_threshold)%Q) ->
  Validation.attributes_loop tid (a :: rest) pool
  = (attribute_not_found_error tid a ;;;
     Validation.attributes_loop tid rest pool).
Proof.
  intros Hall. cbn [Validation.attributes_loop].
  destruct (best_name_match Attribute.name (Attribute.name a) pool)
    as [[Hb _]|[_ (m & _ & Hm & Hlt & _)]].
  - destruct (WordMatch.compare_word _ _) as [n sc]. cbn [snd] in Hb.
    rewrite Hb. reflexivity.
  - exfalso. apply (Qlt_not_le _ _ Hlt). apply Hall, Hm.
Qed.

Lemma attributes_loop_match (tid : string) (a : Attribute.t)
    (rest pool : list Attribute.t) (e : Attribute.t) :
  In e pool ->
  (Validation.name_match_threshold
   < score (Attribute.name a) (Attribute.name e))%Q ->
  exists m pool',
    In m pool
    /\ (forall x, In x pool ->
          (score (Attribute.name a) (Attribute.name x)
           <= score (Attribute.name a) (Attribute.name m))%Q)
    /\ remove_first m pool = Some pool'
    /\ Validation.attributes_loop tid (a :: rest) pool
       = ((if bool_decide (Attribute.datatype a <> Attribute.datatype m)
           then attribute_datatype_error tid a else ret tt) ;;;
          (if bool_decide (Attribute.mandatory a <> Attribute.mandatory m)
           then attribute_mandatory_error tid a else ret tt) ;;;
          Validation.attributes_loop tid rest pool').
Proof.
  intros He Hlt. cbn [Validation.attributes_loop].
  destruct (best_name_match Attribute.name (Attribute.name a) pool)
    as [[_ Hall]|[Hb (m & Hf & Hm & _ & Hbest)]].
  - exfalso. apply (Qlt_not_le _ _ Hlt). apply Hall, He.
  - destruct (remove_first_In _ _ Hm) as [pool' Hrm].
    exists m, pool'. split; [exact Hm|]. split; [exact Hbest|].
    split; [exact Hrm|].
    destruct (WordMatch.compare_word _ _) as [n sc]. cbn [fst snd] in Hb, Hf.
    rewrite Hb, Hf, (set_remove_some _ _ _ Hrm), bind_ret. reflexivity.
Qed.

(** ** What the passes can raise *)

Lemma completes_ret {A} (a : A) : completes (ret a).
Proof. exists a. reflexivity. Qed.

Lemma completes_bind {A B} (m : M A) (f : A -> M B) :
  completes m -> (forall a, outcome m = Ok a -> completes (f a)) ->
  completes (bind m f).
Proof.
  intros [a Ha] Hf. destruct m as [l o]. simpl in Ha. subst o.
  rewrite bind_ok. destruct (Hf a eq_refl) as [b Hb]. exists b. exact Hb.
Qed.

Lemma completes_add_error_bind {B} t i n e msg (k : M B) :
  completes k -> completes (add_error t i n e msg ;;; k).
Proof.
  intros Hk. apply completes_bind; [exists tt; reflexivity|]. intros _ _. exact Hk.
Qed.

Lemma completes_for_each {A} (f : A -> M unit) (l : list A) :
  (forall x, outcome (f x) = Ok tt) -> completes (for_each l f).
Proof. intros Hf. rewrite (for_each_emitted f l Hf). exists tt. reflexivity. Qed.

Lemma raises_only_ret {A} (P : Exc -> Prop) (a : A) : raises_only P (ret a).
Proof. exact I. Qed.

Lemma raises_only_completes {A} (P : Exc -> Prop) (m : M A) :
  completes m -> raises_only P m.
Proof. intros [a Ha]. unfold raises_only. rewrite Ha. exact I. Qed.

Lemma raises_only_bind {A B} (P : Exc -> Prop) (m : M A) (f : A -> M B) :
  raises_only P m -> (forall a, outcome m = Ok a -> raises_only P (f a)) ->
  raises_only P (bind m f).
Proof.
  destruct m as [l [a|e]]; intros Hm Hf.
  - specialize (Hf a eq_refl). unfold raises_only in *. rewrite bind_ok.
    exact Hf.
  - exact Hm.
Qed.

Lemma raises_only_add_error_bind {B} (P : Exc -> Prop) t i n e msg (k : M B) :
  raises_only P k -> raises_only P (add_error t i n e msg ;;; k).
Proof.
  intros Hk. apply raises_only_bind; [exact I|]. intros _ _. exact Hk.
Qed.

Lemma completes_set_remove {A} `{EqDecision A} (x : A) (l : list A) :
  In x l -> completes (set_remove x l).
Proof.
  intros Hin. destruct (remove_first_In _ _ Hin) as [l' Hl].
  rewrite (set_remove_some _ _ _ Hl). apply completes_ret.
Qed.

Lemma set_remove_outcome_in {A} `{EqDecision A} (x y : A) (l l' : list A) :
  outcome (set_remove x l) = Ok l' -> In y l' -> In y l.
Proof.
  intros H Hy. apply set_remove_ok in H.
  apply list_elem_of_In. apply list_elem_of_In in Hy.
  eapply elem_of_sublist; eassumption.
Qed.

(** *** Relationships and associations always complete *)

Lemma relationship_search_completes (s : Relationship.t)
    (pool todo : list Relationship.t) :
  (forall x, In x todo -> In x pool) ->
  completes (Validation.relationship_search s pool todo).
Proof.
  induction todo as [|c todo IH]; intros Hsub; [apply completes_ret|].
  cbn [Validation.relationship_search].
  destruct (Validation.validate_relationship_entities s c).
  - apply completes_bind; [apply completes_set_remove, Hsub; left; reflexivity|].
    intros u _.
    apply completes_bind.
    { destruct (Validation.cardinality_differs s c);
        [exists tt; reflexivity|apply completes_ret]. }
    intros _ _. apply completes_bind.
    { destruct (Validation.dependency_differs s c);
        [exists tt; reflexivity|apply completes_ret]. }
    intros _ _. apply completes_ret.
  - apply IH. intros x Hx. apply Hsub. right. exact Hx.
Qed.

Lemma relationships_loop_completes (srcs : list Relationship.t) :
  forall pool, completes (Validation.relationships_loop srcs pool).
Proof.
  induction srcs as [|s srcs IH]; intros pool; [apply completes_ret|].
  cbn [Validation.relationships_loop].
  apply completes_bind; [apply relationship_search_completes; auto|].
  intros [pool'|] _; [apply IH|].
  apply completes_add_error_bind, IH.
Qed.

Lemma validate_association_completes (s c : Association.t) :
  completes (Validation.validate_association s c).
Proof.
  unfold Validation.validate_association.
  destruct (_ && _); [apply completes_ret|].
  destruct (forallb _ _); [|apply completes_ret].
  apply completes_add_error_bind, completes_ret.
Qed.

Lemma association_search_completes (s : Association.t)
    (pool todo : list Association.t) :
  (forall x, In x todo -> In x pool) ->
  completes (Validation.association_search s pool todo).
Proof.
  induction todo as [|c todo IH]; intros Hsub; [apply completes_ret|].
  assert (IH' : completes (Validation.association_search s pool todo)).
  { apply IH. intros x Hx. apply Hsub. right. exact Hx. }
  cbn [Validation.association_search].
  destruct (Qgt_b _ _); [|exact IH'].
  apply completes_bind; [apply validate_association_completes|].
  intros r _. destruct (Validation.truthy r); [|exact IH'].
  apply completes_bind; [apply completes_set_remove, Hsub; left; reflexivity|].
  intros u _. apply completes_ret.
Qed.

Lemma associations_loop_completes (srcs : list Association.t) :
  forall pool, completes (Validation.associations_loop srcs pool).
Proof.
  induction srcs as [|s srcs IH]; intros pool; [apply completes_ret|].
  cbn [Validation.associations_loop].
  apply completes_bind; [apply association_search_completes; auto|].
  intros [pool'|] _; [apply IH|].
  apply completes_add_error_bind, IH.
Qed.

Lemma completes_pass {A} (loop : M (list A)) (f : A -> M unit) :
  completes loop -> (forall x, outcome (f x) = Ok tt) ->
  completes (unmatched <- loop ;; for_each unmatched f).
Proof.
  intros Hl Hf. apply completes_bind; [exact Hl|].
  intros u _. apply completes_for_each, Hf.
Qed.

Lemma raises_only_pass {A} (P : Exc -> Prop) (loop : M (list A))
    (f : A -> M unit) :
  raises_only P loop -> (forall x, outcome (f x) = Ok tt) ->
  raises_only P (unmatched <- loop ;; for_each unmatched f).
Proof.
  intros Hl Hf. apply raises_only_bind; [exact Hl|].
  intros u _. apply raises_only_completes, completes_for_each, Hf.
Qed.

(** *** Association links raise [RuntimeError] only *)

Lemma link_search_raises (s : AssociationLink.t)
    (pool todo : list AssociationLink.t) :
  (forall x, In x todo -> In x pool) ->
  raises_only (fun e => e = RuntimeError) (Validation.link_search s pool todo).
Proof.
  induction todo as [|c todo IH]; intros Hsub; [exact I|].
  cbn [Validation.link_search].
  destruct (Validation.validate_association_link s c).
  - apply raises_only_bind.
    { apply raises_only_completes, completes_set_remove, Hsub. left. reflexivity. }
    intros u _. destruct (String.eqb _ _); [exact I|].
    apply raises_only_add_error_bind. reflexivity.
  - apply IH. intros x Hx. apply Hsub. right. exact Hx.
Qed.

Lemma links_loop_raises (srcs : list AssociationLink.t) :
  forall pool,
    raises_only (fun e => e = RuntimeError) (Validation.links_loop srcs pool).
Proof.
  induction srcs as [|s srcs IH]; intros pool; [exact I|].
  cbn [Validation.links_loop].
  apply raises_only_bind; [apply link_search_raises; auto|].
  intros [pool'|] _; [apply IH|].
  apply raises_only_add_error_bind, IH.
Qed.

(** *** Inheritances raise [UnboundLocalError] only, on an empty pool *)

Lemma validate_inheritance_completes (s c : Inheritance.t) :
  completes (Validation.validate_inheritance s c).
Proof.
  unfold Validation.validate_inheritance.
  destruct (existsb _ _); [apply completes_ret|].
  destruct (Qlt_b _ _); [apply completes_ret|].
  destruct (bool_decide _); [apply completes_add_error_bind, completes_ret|].
  destruct (bool_decide _); [apply completes_add_error_bind, completes_ret|].
  apply completes_ret.
Qed.

Lemma inheritance_search_bound (s : Inheritance.t)
    (pool todo : list Inheritance.t) :
  (forall x, In x todo -> In x pool) ->
  forall err_info,
    is_bound err_info \/ todo <> [] ->
    exists r err_info',
      outcome (Validation.inheritance_search s pool todo err_info)
      = Ok (r, err_info')
      /\ is_bound err_info'.
Proof.
  induction todo as [|c todo IH]; intros Hsub err_info Hb.
  - destruct Hb as [Hb|Hb]; [|congruence].
    exists None, err_info. split; [reflexivity|exact Hb].
  - cbn [Validation.inheritance_search].
    destruct (validate_inheritance_completes s c) as [[ei flag] Hv].
    destruct (Validation.validate_inheritance s c) as [l o]. simpl in Hv. subst o.
    rewrite bind_ok. cbn [outcome snd]. destruct flag.
    + destruct (remove_first_In c pool (Hsub c (or_introl eq_refl))) as [u Hu].
      rewrite (set_remove_some _ _ _ Hu), bind_ret.
      exists (Some u), (Bound ei). split; [reflexivity|exact I].
    + apply IH; [intros x Hx; apply Hsub; right; exact Hx|left; exact I].
Qed.

Lemma inheritances_loop_bound (srcs : list Inheritance.t) :
  forall pool err_info,
    is_bound err_info \/ pool <> [] \/ srcs = [] ->
    completes (Validation.inheritances_loop srcs pool err_info).
Proof.
  induction srcs as [|s srcs IH]; intros pool err_info Hb; [apply completes_ret|].
  cbn [Validation.inheritances_loop].
  destruct (inheritance_search_bound s pool pool ltac:(auto) err_info)
    as (r & ei' & Hs & Hbound).
  { destruct Hb as [Hb|[Hb|Hb]]; [left; exact Hb|right; exact Hb|discriminate]. }
  destruct (Validation.inheritance_search s pool pool err_info) as [l o].
  simpl in Hs. subst o.
  apply completes_bind; [eexists; reflexivity|].
  intros a [= <-].
  destruct r as [pool'|].
  - apply IH. left. exact Hbound.
  - destruct ei' as [|[info|]]; [destruct Hbound| |].
    + apply completes_bind; [exists tt; reflexivity|].
      intros _ _. apply IH. left. exact I.
    + apply completes_add_error_bind, IH. left. exact I.
Qed.

Lemma inheritances_loop_unbound (s : Inheritance.t) (rest : list Inheritance.t) :
  Validation.inheritances_loop (s :: rest) [] Unbound
  = ([], Raise UnboundLocalError).
Proof. reflexivity. Qed.

(** ** Identifiers *)

Lemma py_min_some (l : list Q) :
  l <> [] -> exists m, py_min l = Some m /\ In m l
                       /\ forall x, In x l -> (m <= x)%Q.
Proof.
  induction l as [|x l IH]; [congruence|]. intros _.
  destruct l as [|y l].
  - exists x. split; [reflexivity|]. split; [left; reflexivity|].
    intros z [<-|[]]. apply Qle_refl.
  - destruct (IH ltac:(discriminate)) as (m & Hm & Hin & Hle).
    cbn [py_min] in *. rewrite Hm.
    destruct (Qlt_b m x) eqn:E.
    + exists m. split; [reflexivity|]. split; [right; exact Hin|].
      intros z [<-|Hz]; [apply Qlt_le_weak, Qlt_b_iff, E|apply Hle, Hz].
    + apply Qlt_b_false_iff in E.
      exists x. split; [reflexivity|]. split; [left; reflexivity|].
      intros z [<-|Hz]; [apply Qle_refl|].
      eapply Qle_trans; [exact E|apply Hle, Hz].
Qed.

Lemma min_test_covered (a : Attribute.t) (sia : list (list string)) :
  sia <> [] ->
  exists m,
    py_min (List.map (fun sol_attributes =>
                        snd (WordMatch.compare_word (Attribute.name a)
                                                    sol_attributes)) sia)
    = Some m
    /\ Qlt_b m Validation.name_match_threshold = negb (attribute_covered a sia).
Proof.
  intros Hne.
  destruct (py_min_some
              (List.map (fun sol_attributes =>
                           snd (WordMatch.compare_word (Attribute.name a)
                                                       sol_attributes)) sia))
    as (m & Hm & Hin & Hle).
  { destruct sia; [congruence|discriminate]. }
  exists m. split; [exact Hm|].
  unfold attribute_covered.
  destruct (forallb _ sia) eqn:F; cbn [negb].
  - apply Qlt_b_false_iff.
    apply List.in_map_iff in Hin. destruct Hin as (names & <- & Hn).
    rewrite List.forallb_forall in F. apply Qge_b_iff, F, Hn.
  - apply Qlt_b_iff. apply Qnot_le_lt. intros Hge.
    assert (F' : forallb (fun sol_attributes =>
                   Qge_b (snd (WordMatch.compare_word (Attribute.name a)
                                                      sol_attributes))
                         Validation.name_match_threshold) sia = true).
    { apply List.forallb_forall. intros names Hn. apply Qge_b_iff.
      eapply Qle_trans; [exact Hge|]. apply Hle.
      apply List.in_map_iff. exists names. split; [reflexivity|exact Hn]. }
    congruence.
Qed.

Lemma identifier_attribute_checks_eq (s : Identifier.t)
    (sia : list (list string)) (attrs : list Attribute.t) :
  sia <> [] ->
  Validation.identifier_attribute_checks s attrs sia
  = match List.find (fun a => negb (attribute_covered a sia)) attrs with
    | None => ([], Ok true)
    | Some a => (emitted (identifier_mismatch_error s a), Ok false)
    end.
Proof.
  intros Hne. induction attrs as [|a attrs IH]; [reflexivity|].
  cbn [Validation.identifier_attribute_checks List.find].
  destruct (min_test_covered a sia Hne) as (m & -> & ->).
  destruct (attribute_covered a sia); cbn [negb]; [exact IH|reflexivity].
Qed.

Lemma covered_all_iff (s : Identifier.t) (pool : list Identifier.t) :
  (forall a, In a (Identifier.identifier_attributes s) ->
     attribute_covered a
       (List.map (fun identifier =>
                    List.map Attribute.name
                             (Identifier.identifier_attributes identifier))
                 pool) = true)
  <-> (forall c, In c pool -> Validation.match_found s c = true).
Proof.
  unfold attribute_covered, Validation.match_found. split.
  - intros H c Hc. apply List.forallb_forall. intros a Ha.
    specialize (H a Ha). rewrite List.forallb_forall in H.
    apply (H (List.map Attribute.name (Identifier.identifier_attributes c))).
    apply List.in_map_iff. exists c. split; [reflexivity|exact Hc].
  - intros H a Ha. apply List.forallb_forall. intros names Hn.
    apply List.in_map_iff in Hn. destruct Hn as (c & <- & Hc).
    specialize (H c Hc). rewrite List.forallb_forall in H. apply (H a Ha).
Qed.

Lemma validate_identifier_attributes_all (s c0 : Identifier.t)
    (pool : list Identifier.t) :
  (forall c, In c (c0 :: pool) -> Validation.match_found s c = true) ->
  Validation.validate_identifier_attributes s (c0 :: pool)
  = ([], Ok (Some c0, true)).
Proof.
  intros Hall. unfold Validation.validate_identifier_attributes.
  rewrite identifier_attribute_checks_eq by discriminate.
  destruct (List.find _ (Identifier.identifier_attributes s)) as [a|] eqn:F.
  - apply List.find_some in F. destruct F as [Ha Hn].
    apply covered_all_iff with (a := a) in Hall; [|exact Ha].
    change (List.map _ (c0 :: pool)) with
      (List.map (fun identifier =>
                   List.map Attribute.name
                            (Identifier.identifier_attributes identifier))
                (c0 :: pool)) in Hn.
    rewrite Hall in Hn. discriminate.
  - rewrite bind_nil_ok. cbn [List.find].
    rewrite (Hall c0 (or_introl eq_refl)). reflexivity.
Qed.

Lemma validate_identifier_attributes_some_fail (s c0 : Identifier.t)
    (pool : list Identifier.t) (c : Identifier.t) :
  In c (c0 :: pool) -> Validation.match_found s c = false ->
  exists a,
    In a (Identifier.identifier_attributes s)
    /\ Validation.validate_identifier_attributes s (c0 :: pool)
       = (emitted (identifier_mismatch_error s a), Ok (None, false)).
Proof.
  intros Hc Hf. unfold Validation.validate_identifier_attributes.
  rewrite identifier_attribute_checks_eq by discriminate.
  destruct (List.find _ (Identifier.identifier_attributes s)) as [a|] eqn:F.
  - apply List.find_some in F. destruct F as [Ha _].
    exists a. split; [exact Ha|]. reflexivity.
  - exfalso.
    assert (Hall : forall c, In c (c0 :: pool) ->
                     Validation.match_found s c = true).
    { apply covered_all_iff. intros a Ha.
      pose proof (List.find_none _ _ F a Ha) as Hn.
      apply negb_false_iff in Hn. exact Hn. }
    rewrite (Hall c Hc) in Hf. discriminate.
Qed.

Lemma validate_identifier_attributes_empty (s : Identifier.t) :
  Validation.validate_identifier_attributes s []
  = match Identifier.identifier_attributes s with
    | [] => ([], Ok (None, false))
    | _ :: _ => ([], Raise ValueError)
    end.
Proof.
  unfold Validation.validate_identifier_attributes.
  destruct (Identifier.identifier_attributes s); reflexivity.
Qed.

Lemma validate_identifier_attributes_raises (s : Identifier.t)
    (pool : list Identifier.t) :
  raises_only (fun e => e = ValueError)
    (Validation.validate_identifier_attributes s pool).
Proof.
  destruct pool as [|c0 pool].
  - rewrite validate_identifier_attributes_empty.
    destruct (Identifier.identifier_attributes s); [exact I|reflexivity].
  - destruct (forallb (Validation.match_found s) (c0 :: pool)) eqn:F.
    + rewrite List.forallb_forall in F.
      rewrite (validate_identifier_attributes_all s c0 pool F). exact I.
    + assert (Hex : exists c, In c (c0 :: pool)
                              /\ Validation.match_found s c = false).
      { clear -F. induction (c0 :: pool) as [|x l IH]; [discriminate|].
        cbn [forallb] in F. apply andb_false_iff in F. destruct F as [F|F].
        - exists x. split; [left; reflexivity|exact F].
        - destruct (IH F) as (c & Hc & Hf). exists c. split; [right; exact Hc|exact Hf]. }
      destruct Hex as (c & Hc & Hf).
      destruct (validate_identifier_attributes_some_fail s c0 pool c Hc Hf)
        as (a & _ & ->).
      exact I.
Qed.

Lemma identifiers_loop_raises (src_model : Model.t) (tid : string)
    (srcs : list Identifier.t) :
  forall pool,
    raises_only (fun e => e = ValueError)
      (Validation.identifiers_loop src_model tid srcs pool).
Proof.
  induction srcs as [|s srcs IH]; intros pool; [exact I|].
  cbn [Validation.identifiers_loop].
  apply raises_only_bind; [apply validate_identifier_attributes_raises|].
  intros [o flag] Ho. destruct flag; [|apply IH].
  destruct (Validation.validate_identifier_attributes s pool) as [l r] eqn:E.
  simpl in Ho. subst r.
  destruct (validate_identifier_attributes_true _ _ _ _ E)
    as (_ & sol & -> & Hin & _).
  apply raises_only_bind; [apply raises_only_completes, completes_set_remove, Hin|].
  intros u _. destruct (bool_decide _); [|apply IH].
  apply raises_only_bind; [exact I|]. intros _ _. exact I.
Qed.

Lemma identifiers_loop_continue (src_model : Model.t) (tid : string)
    (s sol : Identifier.t) (rest pool : list Identifier.t) :
  Validation.validate_identifier_attributes s pool = ([], Ok (Some sol, true)) ->
  Identifier.is_primary sol = Identifier.is_primary s ->
  exists pool',
    remove_first sol pool = Some pool'
    /\ Validation.identifiers_loop src_model tid (s :: rest) pool
       = Validation.identifiers_loop src_model tid rest pool'.
Proof.
  intros Hv Hp.
  destruct (validate_identifier_attributes_true _ _ _ _ Hv)
    as (_ & sol' & [= <-] & Hin & _).
  destruct (remove_first_In _ _ Hin) as [pool' Hrm].
  exists pool'. split; [exact Hrm|].
  cbn [Validation.identifiers_loop]. rewrite Hv, bind_nil_ok.
  rewrite (set_remove_some _ _ _ Hrm), bind_ret.
  rewrite bool_decide_false by (intros H; apply H, Hp). reflexivity.
Qed.

Lemma identifiers_loop_skip (src_model : Model.t) (tid : string)
    (s : Identifier.t) (rest pool : list Identifier.t)
    (l : list ErrorLog.Error) (o : option Identifier.t) :
  Validation.validate_identifier_attributes s pool = (l, Ok (o, false)) ->
  Validation.identifiers_loop src_model tid (s :: rest) pool
  = ((l, Ok tt) ;;; Validation.identifiers_loop src_model tid rest pool).
Proof.
  intros Hv. cbn [Validation.identifiers_loop]. rewrite Hv, !bind_ok. reflexivity.
Qed.

(** ** Attributes always complete *)

Lemma attributes_loop_completes (tid : string) (srcs : list Attribute.t) :
  forall pool, completes (Validation.attributes_loop tid srcs pool).
Proof.
  induction srcs as [|a srcs IH]; intros pool; [apply completes_ret|].
  cbn [Validation.attributes_loop].
  destruct (best_name_match Attribute.name (Attribute.name a) pool)
    as [[Hb _]|[Hb (m & Hf & Hm & _)]];
    destruct (WordMatch.compare_word _ _) as [n sc]; cbn [fst snd] in *;
    rewrite Hb.
  - apply completes_add_error_bind, IH.
  - rewrite Hf.
    apply completes_bind; [apply completes_set_remove, Hm|]. intros u _.
    apply completes_bind.
    { destruct (bool_decide _); [exists tt; reflexivity|apply completes_ret]. }
    intros _ _. apply completes_bind.
    { destruct (bool_decide _); [exists tt; reflexivity|apply completes_ret]. }
    intros _ _. apply IH.
Qed.

(** ** Lookups by id *)

Lemma find_id_some (entities : list Entity.t) (e : Entity.t) :
  In e entities ->
  exists e', List.find (fun x => String.eqb (Entity.id x) (Entity.id e)) entities
             = Some e'
             /\ In e' entities /\ Entity.id e' = Entity.id e.
Proof.
  intros Hin.
  destruct (List.find _ entities) as [e'|] eqn:F.
  - exists e'. split; [reflexivity|]. apply List.find_some in F.
    destruct F as [H1 H2]. apply String.eqb_eq in H2. auto.
  - pose proof (List.find_none _ _ F e Hin) as H. cbv beta in H.
    rewrite String.eqb_refl in H. discriminate.
Qed.

Lemma entity_by_id_completes (entities : list Entity.t) (e : Entity.t) :
  In e entities -> completes (Validation.entity_by_id entities (Entity.id e)).
Proof.
  intros Hin. unfold Validation.entity_by_id.
  destruct (List.filter _ entities) as [|x l] eqn:F; [|apply completes_ret].
  exfalso.
  assert (H : In e (List.filter (fun entity =>
                 String.eqb (Entity.id entity) (Entity.id e)) entities)).
  { apply List.filter_In. split; [exact Hin|apply String.eqb_refl]. }
  rewrite F in H. destruct H.
Qed.

Section EntityPass.
Variable set_iter : forall A : Type, list A -> list A.
Variables src_model solution_model : Model.t.

Lemma validate_attributes_completes (s m : Entity.t) :
  In s (Model.entities src_model) -> In m (Model.entities solution_model) ->
  completes (Validation.validate_attributes set_iter src_model solution_model
               (Entity.id s) (Entity.id m)).
Proof.
  intros Hs Hm. unfold Validation.validate_attributes, Model.get_attributes.
  destruct (find_id_some _ _ Hm) as (m' & -> & _).
  destruct (find_id_some _ _ Hs) as (s' & -> & _).
  cbn [Validation.iterable]. rewrite !bind_ret.
  apply completes_pass; [apply attributes_loop_completes|reflexivity].
Qed.

Lemma validate_identifiers_raises (s m : Entity.t) :
  In s (Model.entities src_model) -> In m (Model.entities solution_model) ->
  raises_only (fun e => e = ValueError)
    (Validation.validate_identifiers set_iter src_model solution_model
       (Entity.id s) (Entity.id m)).
Proof.
  intros Hs Hm. unfold Validation.validate_identifiers, Model.get_identifiers.
  destruct (find_id_some _ _ Hm) as (m' & -> & _).
  destruct (find_id_some _ _ Hs) as (s' & -> & _).
  cbn [Validation.iterable]. rewrite !bind_ret.
  apply raises_only_pass; [apply identifiers_loop_raises|reflexivity].
Qed.

Lemma validate_entity_raises (s m : Entity.t) :
  In s (Model.entities src_model) -> In m (Model.entities solution_model) ->
  raises_only (fun e => e = ValueError)
    (Validation.validate_entity set_iter src_model solution_model
       (Entity.id s) (Entity.id m)).
Proof.
  intros Hs Hm. unfold Validation.validate_entity.
  apply raises_only_bind;
    [apply raises_only_completes, entity_by_id_completes, Hs|].
  intros s' _. apply raises_only_bind;
    [apply raises_only_completes, entity_by_id_completes, Hm|].
  intros m' _. apply raises_only_bind.
  { destruct (bool_decide _); exact I. }
  intros _ _. apply raises_only_bind;
    [apply raises_only_completes, validate_attributes_completes; assumption|].
  intros _ _. apply validate_identifiers_raises; assumption.
Qed.

Lemma entities_loop_raises (srcs : list Entity.t) :
  forall pool,
    (forall s, In s srcs -> In s (Model.entities src_model)) ->
    (forall m, In m pool -> In m (Model.entities solution_model)) ->
    raises_only (fun e => e = ValueError)
      (Validation.entities_loop set_iter src_model solution_model srcs pool).
Proof.
  induction srcs as [|s srcs IH]; intros pool Hs Hp; [exact I|].
  assert (IH' : forall pool',
             (forall m, In m pool' -> In m (Model.entities solution_model)) ->
             raises_only (fun e => e = ValueError)
               (Validation.entities_loop set_iter src_model solution_model
                  srcs pool')).
  { intros pool' Hp'. apply IH; [|exact Hp'].
    intros x Hx. apply Hs. right. exact Hx. }
  cbn [Validation.entities_loop].
  destruct (best_name_match Entity.name (Entity.name s) pool)
    as [[Hb _]|[Hb (m & Hf & Hm & _)]];
    destruct (WordMatch.compare_word _ _) as [n sc]; cbn [fst snd] in *;
    rewrite Hb.
  - apply raises_only_add_error_bind, IH', Hp.
  - rewrite Hf.
    apply raises_only_bind;
      [apply raises_only_completes, completes_set_remove, Hm|].
    intros u Hu. apply raises_only_bind.
    { apply validate_entity_raises; [apply Hs; left; reflexivity|apply Hp, Hm]. }
    intros _ _. apply IH'. intros x Hx. apply Hp.
    apply (set_remove_outcome_in _ _ _ _ Hu Hx).
Qed.
End EntityPass.

(** ** Association links *)




(** ** Associations *)






(** ** Lookups of the model *)

Lemma find_first {A} (p : A -> bool) (pre post : list A) (x : A) :
  (forall y, In y pre -> p y = false) -> p x = true ->
  List.find p (pre ++ x :: post) = Some x.
Proof.
  intros Hpre Hx. induction pre as [|y pre IH]; cbn [app List.find].
  - rewrite Hx. reflexivity.
  - rewrite (Hpre y (or_introl eq_refl)). apply IH.
    intros z Hz. apply Hpre. right. exact Hz.
Qed.

Lemma find_absent {A} (p : A -> bool) (l : list A) :
  (forall y, In y l -> p y = false) -> List.find p l = None.
Proof.
  induction l as [|y l IH]; intros H; [reflexivity|]. cbn [List.find].
  rewrite (H y (or_introl eq_refl)). apply IH.
  intros z Hz. apply H. right. exact Hz.
Qed.

Lemma id_test_false (i : string) (l : list Entity.t) :
  (forall y, In y l -> Entity.id y <> i) ->
  forall y, In y l -> String.eqb (Entity.id y) i = false.
Proof. intros H y Hy. apply String.eqb_neq, H, Hy. Qed.

Lemma filter_first (i : string) (pre post : list Entity.t) (e : Entity.t) :
  (forall y, In y pre -> Entity.id y <> i) -> Entity.id e = i ->
  exists l, List.filter (fun x => String.eqb (Entity.id x) i) (pre ++ e :: post)
            = e :: l.
Proof.
  intros Hpre He. induction pre as [|y pre IH]; cbn [app List.filter].
  - rewrite He, String.eqb_refl. eauto.
  - rewrite (id_test_false i (y :: pre) Hpre y (or_introl eq_refl)).
    apply IH. intros z Hz. apply Hpre. right. exact Hz.
Qed.

Lemma filter_absent (i : string) (l : list Entity.t) :
  (forall y, In y l -> Entity.id y <> i) ->
  List.filter (fun x => String.eqb (Entity.id x) i) l = [].
Proof.
  induction l as [|y l IH]; intros H; [reflexivity|]. cbn [List.filter].
  rewrite (id_test_false i (y :: l) H y (or_introl eq_refl)). apply IH.
  intros z Hz. apply H. right. exact Hz.
Qed.

(** ** The log *)

Lemma find_error_flag (errors : list ErrorLog.Error) (i : option string) :
  snd (ErrorLog.find_error errors i) = true
  <-> exists e, In e errors /\ ErrorLog.id e = i.
Proof.
  unfold ErrorLog.find_error.
  destruct (List.find _ errors) as [e|] eqn:F; cbn [snd].
  - split; [|reflexivity]. intros _. apply List.find_some in F.
    destruct F as [He Hi]. apply bool_decide_eq_true in Hi. eauto.
  - split; [discriminate|]. intros (e & He & Hi).
    pose proof (List.find_none _ _ F e He) as H. cbv beta in H.
    apply bool_decide_eq_false in H. contradiction.
Qed.

Lemma find_error_first (pre post : list ErrorLog.Error) (e : ErrorLog.Error)
    (i : option string) :
  (forall x, In x pre -> ErrorLog.id x <> i) -> ErrorLog.id e = i ->
  ErrorLog.find_error (pre ++ e :: post) i = (Some e, true).
Proof.
  intros Hpre He. unfold ErrorLog.find_error.
  rewrite (find_first _ pre post e); [reflexivity| |].
  - intros y Hy. apply bool_decide_eq_false, Hpre, Hy.
  - apply bool_decide_eq_true, He.
Qed.

Lemma find_app_some {A} (p : A -> bool) (l l' : list A) (e : A) :
  List.find p l = Some e -> List.find p (l ++ l') = Some e.
Proof.
  induction l as [|x l IH]; [discriminate|]. cbn [app List.find].
  destruct (p x); [auto|exact IH].
Qed.

Lemma find_app_none {A} (p : A -> bool) (l l' : list A) :
  List.find p l = None -> List.find p (l ++ l') = List.find p l'.
Proof.
  induction l as [|x l IH]; [reflexivity|]. cbn [app List.find].
  destruct (p x); [discriminate|exact IH].
Qed.

Lemma find_error_append (errors new : list ErrorLog.Error)
    (i : option string) :
  snd (ErrorLog.find_error errors i) = true ->
  ErrorLog.find_error (errors ++ new) i = ErrorLog.find_error errors i.
Proof.
  unfold ErrorLog.find_error.
  destruct (List.find _ errors) as [e|] eqn:F; [|discriminate]. intros _.
  rewrite (find_app_some _ _ new _ F). reflexivity.
Qed.

Lemma find_error_fresh (errors new : list ErrorLog.Error)
    (i : option string) :
  snd (ErrorLog.find_error errors i) = false ->
  ErrorLog.find_error (errors ++ new) i = ErrorLog.find_error new i.
Proof.
  unfold ErrorLog.find_error.
  destruct (List.find _ errors) as [e|] eqn:F; [discriminate|]. intros _.
  rewrite (find_app_none _ _ new F). reflexivity.
Qed.

(** ** The ids the diagnostics carry *)

Lemma emitted_bind {A B} (m : M A) (f : A -> M B) :
  emitted (bind m f)
  = emitted m ++ match outcome m with
                 | Ok a => emitted (f a)
                 | Raise _ => []
                 end.
Proof.
  destruct m as [l [a|e]].
  - rewrite bind_ok. reflexivity.
  - simpl. rewrite app_nil_r. reflexivity.
Qed.

Section Ids.
Variable ids : list string.

Lemma ids_within_nil : ids_within ids [].
Proof. intros e []. Qed.

Lemma ids_within_app (l1 l2 : list ErrorLog.Error) :
  ids_within ids l1 -> ids_within ids l2 -> ids_within ids (l1 ++ l2).
Proof.
  intros H1 H2 e He. apply in_app_or in He. destruct He; auto.
Qed.

Lemma ids_within_bind {A B} (m : M A) (f : A -> M B) :
  ids_within ids (emitted m) ->
  (forall a, outcome m = Ok a -> ids_within ids (emitted (f a))) ->
  ids_within ids (emitted (bind m f)).
Proof.
  intros Hm Hf. rewrite emitted_bind. apply ids_within_app; [exact Hm|].
  destruct (outcome m) as [a|e] eqn:E; [apply Hf; reflexivity|apply ids_within_nil].
Qed.

Lemma ids_within_none t n e msg :
  ids_within ids (emitted (add_error t None n e msg)).
Proof. intros x [<-|[]]. left. reflexivity. Qed.

Lemma ids_within_some t i n e msg :
  In i ids -> ids_within ids (emitted (add_error t (Some i) n e msg)).
Proof. intros Hi x [<-|[]]. right. exists i. split; [exact Hi|reflexivity]. Qed.

Lemma ids_within_set_remove {A} `{EqDecision A} (x : A) (l : list A) :
  ids_within ids (emitted (set_remove x l)).
Proof. unfold set_remove. destruct (remove_first x l); apply ids_within_nil. Qed.

Lemma ids_within_for_each {A} (f : A -> M unit) (l : list A) :
  (forall x, ids_within ids (emitted (f x))) ->
  ids_within ids (emitted (for_each l f)).
Proof.
  intros Hf. induction l as [|x l IH]; [apply ids_within_nil|].
  cbn [for_each]. apply ids_within_bind; [apply Hf|]. intros _ _. exact IH.
Qed.

Lemma ids_within_if (b : bool) (m : M unit) :
  ids_within ids (emitted m) ->
  ids_within ids (emitted (if b then m else ret tt)).
Proof. destruct b; [auto|intros _; apply ids_within_nil]. Qed.

(** *** Relationships *)

Lemma relationship_search_ids (s : Relationship.t)
    (pool todo : list Relationship.t) :
  In (Relationship.id s) ids ->
  ids_within ids (emitted (Validation.relationship_search s pool todo)).
Proof.
  intros Hs. induction todo as [|c todo IH]; [apply ids_within_nil|].
  cbn [Validation.relationship_search].
  destruct (Validation.validate_relationship_entities s c); [|exact IH].
  apply ids_within_bind; [apply ids_within_set_remove|]. intros u _.
  apply ids_within_bind; [apply ids_within_if, ids_within_some, Hs|]. intros _ _.
  apply ids_within_bind; [apply ids_within_if, ids_within_some, Hs|]. intros _ _.
  apply ids_within_nil.
Qed.

Lemma relationships_loop_ids (srcs : list Relationship.t) :
  (forall s, In s srcs -> In (Relationship.id s) ids) ->
  forall pool, ids_within ids (emitted (Validation.relationships_loop srcs pool)).
Proof.
  induction srcs as [|s srcs IH]; intros Hs pool; [apply ids_within_nil|].
  assert (IH' := IH (fun x Hx => Hs x (or_intror Hx))).
  cbn [Validation.relationships_loop].
  apply ids_within_bind;
    [apply relationship_search_ids, Hs; left; reflexivity|].
  intros [pool'|] _; [apply IH'|].
  apply ids_within_bind; [apply ids_within_some, Hs; left; reflexivity|].
  intros _ _. apply IH'.
Qed.

(** *** Associations *)

Lemma validate_association_ids (s c : Association.t) :
  In (Association.id s) ids ->
  ids_within ids (emitted (Validation.validate_association s c)).
Proof.
  intros Hs. unfold Validation.validate_association.
  destruct (_ && _); [apply ids_within_nil|].
  destruct (forallb _ _); [|apply ids_within_nil].
  apply ids_within_bind; [apply ids_within_some, Hs|]. intros _ _.
  apply ids_within_nil.
Qed.

Lemma association_search_ids (s : Association.t)
    (pool todo : list Association.t) :
  In (Association.id s) ids ->
  ids_within ids (emitted (Validation.association_search s pool todo)).
Proof.
  intros Hs. induction todo as [|c todo IH]; [apply ids_within_nil|].
  cbn [Validation.association_search].
  destruct (Qgt_b _ _); [|exact IH].
  apply ids_within_bind; [apply validate_association_ids, Hs|]. intros r _.
  destruct (Validation.truthy r); [|exact IH].
  apply ids_within_bind; [apply ids_within_set_remove|]. intros u _.
  apply ids_within_nil.
Qed.

Lemma associations_loop_ids (srcs : list Association.t) :
  (forall s, In s srcs -> In (Association.id s) ids) ->
  forall pool, ids_within ids (emitted (Validation.associations_loop srcs pool)).
Proof.
  induction srcs as [|s srcs IH]; intros Hs pool; [apply ids_within_nil|].
  assert (IH' := IH (fun x Hx => Hs x (or_intror Hx))).
  cbn [Validation.associations_loop].
  apply ids_within_bind;
    [apply association_search_ids, Hs; left; reflexivity|].
  intros [pool'|] _; [apply IH'|].
  apply ids_within_bind; [apply ids_within_some, Hs; left; reflexivity|].
  intros _ _. apply IH'.
Qed.

(** *** Association links *)

Lemma link_search_ids (s : AssociationLink.t)
    (pool todo : list AssociationLink.t) :
  In (AssociationLink.id s) ids ->
  ids_within ids (emitted (Validation.link_search s pool todo)).
Proof.
  intros Hs. induction todo as [|c todo IH]; [apply ids_within_nil|].
  cbn [Validation.link_search].
  destruct (Validation.validate_association_link s c); [|exact IH].
  apply ids_within_bind; [apply ids_within_set_remove|]. intros u _.
  destruct (String.eqb _ _); [apply ids_within_nil|].
  apply ids_within_bind; [apply ids_within_some, Hs|]. intros _ _.
  apply ids_within_nil.
Qed.

Lemma links_loop_ids (srcs : list AssociationLink.t) :
  (forall s, In s srcs -> In (AssociationLink.id s) ids) ->
  forall pool, ids_within ids (emitted (Validation.links_loop srcs pool)).
Proof.
  induction srcs as [|s srcs IH]; intros Hs pool; [apply ids_within_nil|].
  assert (IH' := IH (fun x Hx => Hs x (or_intror Hx))).
  cbn [Validation.links_loop].
  apply ids_within_bind; [apply link_search_ids, Hs; left; reflexivity|].
  intros [pool'|] _; [apply IH'|].
  apply ids_within_bind; [apply ids_within_some, Hs; left; reflexivity|].
  intros _ _. apply IH'.
Qed.

(** *** Inheritances *)

Lemma emits_within_bind {A B} (P : A -> Prop) (Q : B -> Prop)
    (m : M A) (f : A -> M B) :
  emits_within ids P m -> (forall a, P a -> emits_within ids Q (f a)) ->
  emits_within ids Q (bind m f).
Proof.
  intros [Hm Hp] Hf. split.
  - apply ids_within_bind; [exact Hm|]. intros a Ha.
    apply (Hf a (Hp a Ha)).
  - intros b Hb. apply bind_outcome_ok in Hb.
    destruct Hb as (a & Ha & Hb & _). apply (Hf a (Hp a Ha)). exact Hb.
Qed.

Lemma emits_within_ret {A} (P : A -> Prop) (a : A) :
  P a -> emits_within ids P (ret a).
Proof.
  intros Ha. split; [apply ids_within_nil|]. intros b [= <-]. exact Ha.
Qed.

Lemma emits_within_true {A} (m : M A) :
  ids_within ids (emitted m) -> emits_within ids (fun _ => True) m.
Proof. intros H. split; [exact H|]. intros _ _. exact I. Qed.

Lemma validate_inheritance_ids (s c : Inheritance.t) :
  In (Inheritance.id s) ids ->
  emits_within ids (fun r => info_within ids (Bound (fst r)))
    (Validation.validate_inheritance s c).
Proof.
  intros Hs.
  assert (Hinfo : forall t n e m,
            ids_within ids [ErrorLog.mkError t (Some (Inheritance.id s)) n e m]).
  { intros t n e m x [<-|[]]. right. exists (Inheritance.id s). auto. }
  unfold Validation.validate_inheritance.
  destruct (existsb _ _); [apply emits_within_ret, Hinfo|].
  destruct (Qlt_b _ _); [apply emits_within_ret, Hinfo|].
  destruct (bool_decide _).
  { apply (emits_within_bind (fun _ => True));
      [apply emits_within_true, ids_within_some, Hs|].
    intros _ _. apply emits_within_ret. exact I. }
  destruct (bool_decide _).
  { apply (emits_within_bind (fun _ => True));
      [apply emits_within_true, ids_within_some, Hs|].
    intros _ _. apply emits_within_ret. exact I. }
  apply emits_within_ret. exact I.
Qed.

Lemma inheritance_search_ids (s : Inheritance.t)
    (pool todo : list Inheritance.t) :
  In (Inheritance.id s) ids ->
  forall err_info,
    info_within ids err_info ->
    emits_within ids (fun r => info_within ids (snd r))
      (Validation.inheritance_search s pool todo err_info).
Proof.
  intros Hs. induction todo as [|c todo IH]; intros err_info Hei.
  - apply emits_within_ret. exact Hei.
  - cbn [Validation.inheritance_search].
    apply (emits_within_bind _ _ _ _ (validate_inheritance_ids s c Hs)).
    intros [ei flag] Hinfo. cbn [fst] in Hinfo. destruct flag.
    + apply (emits_within_bind (fun _ => True));
        [apply emits_within_true, ids_within_set_remove|].
      intros u _. apply emits_within_ret. exact Hinfo.
    + apply IH. exact Hinfo.
Qed.

Lemma inheritances_loop_ids (srcs : list Inheritance.t) :
  (forall s, In s srcs -> In (Inheritance.id s) ids) ->
  forall pool err_info,
    info_within ids err_info ->
    ids_within ids
      (emitted (Validation.inheritances_loop srcs pool err_info)).
Proof.
  induction srcs as [|s srcs IH]; intros Hs pool err_info Hei;
    [apply ids_within_nil|].
  assert (IH' := IH (fun x Hx => Hs x (or_intror Hx))).
  assert (Hsid : In (Inheritance.id s) ids) by (apply Hs; left; reflexivity).
  cbn [Validation.inheritances_loop].
  destruct (inheritance_search_ids s pool pool Hsid err_info Hei) as [He Hr].
  apply ids_within_bind; [exact He|].
  intros [r ei'] Ha. specialize (Hr _ Ha). cbn [snd] in Hr.
  destruct r as [pool'|]; [apply IH', Hr|].
  destruct ei' as [|[info|]].
  - apply ids_within_nil.
  - apply ids_within_bind; [exact Hr|]. intros _ _. apply IH', Hr.
  - apply ids_within_bind; [apply ids_within_some, Hsid|]. intros _ _.
    apply IH'. exact I.
Qed.

(** *** Entities, attributes and identifiers *)

Lemma attributes_loop_ids (tid : string) (srcs : list Attribute.t) :
  In tid ids ->
  forall pool, ids_within ids (emitted (Validation.attributes_loop tid srcs pool)).
Proof.
  intros Ht. induction srcs as [|a srcs IH]; intros pool; [apply ids_within_nil|].
  cbn [Validation.attributes_loop].
  destruct (WordMatch.compare_word _ _) as [n sc].
  destruct (Qgt_b _ _).
  - destruct (List.find _ pool) as [m|].
    + apply ids_within_bind; [apply ids_within_set_remove|]. intros u _.
      apply ids_within_bind; [apply ids_within_if, ids_within_some, Ht|].
      intros _ _.
      apply ids_within_bind; [apply ids_within_if, ids_within_some, Ht|].
      intros _ _. apply IH.
    + apply ids_within_bind; [apply ids_within_some, Ht|]. intros _ _. apply IH.
  - apply ids_within_bind; [apply ids_within_some, Ht|]. intros _ _. apply IH.
Qed.

Lemma ids_within_iterable {A} (o : option (list A)) :
  ids_within ids (emitted (Validation.iterable o)).
Proof. destruct o; apply ids_within_nil. Qed.

Lemma identifier_attribute_checks_ids (s : Identifier.t)
    (sia : list (list string)) (attrs : list Attribute.t) :
  In (Identifier.id s) ids ->
  ids_within ids (emitted (Validation.identifier_attribute_checks s attrs sia)).
Proof.
  intros Hs. induction attrs as [|a attrs IH]; [apply ids_within_nil|].
  cbn [Validation.identifier_attribute_checks].
  destruct (py_min _) as [m|]; [|apply ids_within_nil].
  destruct (Qlt_b _ _); [|exact IH].
  apply ids_within_bind; [apply ids_within_some, Hs|]. intros _ _.
  apply ids_within_nil.
Qed.

Lemma validate_identifier_attributes_ids (s : Identifier.t)
    (pool : list Identifier.t) :
  In (Identifier.id s) ids ->
  ids_within ids (emitted (Validation.validate_identifier_attributes s pool)).
Proof.
  intros Hs. unfold Validation.validate_identifier_attributes.
  apply ids_within_bind; [apply identifier_attribute_checks_ids, Hs|].
  intros [|] _; [|apply ids_within_nil].
  destruct (List.find _ pool); apply ids_within_nil.
Qed.

Lemma identifiers_loop_ids (src_model : Model.t) (tid : string)
    (srcs : list Identifier.t) :
  In tid ids ->
  (forall s, In s srcs -> In (Identifier.id s) ids) ->
  forall pool,
    ids_within ids
      (emitted (Validation.identifiers_loop src_model tid srcs pool)).
Proof.
  intros Ht. induction srcs as [|s srcs IH]; intros Hs pool;
    [apply ids_within_nil|].
  assert (IH' := IH (fun x Hx => Hs x (or_intror Hx))).
  cbn [Validation.identifiers_loop].
  apply ids_within_bind;
    [apply validate_identifier_attributes_ids, Hs; left; reflexivity|].
  intros [o flag] _. destruct flag; [|apply IH'].
  destruct o as [sol|]; [|apply ids_within_nil].
  apply ids_within_bind; [apply ids_within_set_remove|]. intros u _.
  destruct (bool_decide _); [|apply IH'].
  apply ids_within_bind; [apply ids_within_some, Ht|]. intros _ _.
  apply ids_within_nil.
Qed.

Section EntityIds.
Variable set_iter : forall A : Type, list A -> list A.
Variables src_model solution_model : Model.t.
Hypothesis entity_ids :
  forall e, In e (Model.entities src_model) -> In (Entity.id e) ids.
Hypothesis identifier_ids :
  forall e i, In e (Model.entities src_model) ->
              In i (Entity.identifiers e) -> In (Identifier.id i) ids.

Lemma validate_attributes_ids (s : Entity.t) (mid : string) :
  In s (Model.entities src_model) ->
  ids_within ids
    (emitted (Validation.validate_attributes set_iter src_model solution_model
                (Entity.id s) mid)).
Proof.
  intros Hs. unfold Validation.validate_attributes.
  apply ids_within_bind; [apply ids_within_iterable|]. intros sol _.
  apply ids_within_bind; [apply ids_within_iterable|]. intros srcs _.
  apply ids_within_bind; [apply attributes_loop_ids, entity_ids, Hs|].
  intros u _. apply ids_within_for_each. intros x.
  apply ids_within_some, entity_ids, Hs.
Qed.

Lemma get_identifiers_some (tid : string) (l : list Identifier.t) :
  Model.get_identifiers src_model tid = Some l ->
  exists e, In e (Model.entities src_model) /\ l = Entity.identifiers e.
Proof.
  unfold Model.get_identifiers.
  destruct (List.find _ (Model.entities src_model)) as [e|] eqn:F;
    [|discriminate].
  intros [= <-]. apply List.find_some in F. destruct F as [He _]. eauto.
Qed.

Lemma validate_identifiers_ids (s : Entity.t) (mid : string) :
  In s (Model.entities src_model) ->
  ids_within ids
    (emitted (Validation.validate_identifiers set_iter src_model solution_model
                (Entity.id s) mid)).
Proof.
  intros Hs. unfold Validation.validate_identifiers.
  apply ids_within_bind; [apply ids_within_iterable|]. intros sol _.
  destruct (Model.get_identifiers src_model (Entity.id s)) as [l|] eqn:G.
  - destruct (get_identifiers_some _ _ G) as (e & He & ->).
    cbn [Validation.iterable]. rewrite bind_ret.
    apply ids_within_bind.
    { apply identifiers_loop_ids; [apply entity_ids, Hs|].
      intros i Hi. apply (identifier_ids e i He Hi). }
    intros u _. apply ids_within_for_each. intros x.
    apply ids_within_some, entity_ids, Hs.
  - apply ids_within_bind; [apply ids_within_nil|]. intros srcs [=].
Qed.

Lemma entity_by_id_id (entities : list Entity.t) (i : string) (e : Entity.t) :
  outcome (Validation.entity_by_id entities i) = Ok e -> Entity.id e = i.
Proof.
  unfold Validation.entity_by_id.
  destruct (List.filter _ entities) as [|x l] eqn:F; [discriminate|].
  intros [= <-].
  assert (H : In x (List.filter (fun entity => String.eqb (Entity.id entity) i)
                                entities)) by (rewrite F; left; reflexivity).
  apply List.filter_In in H. destruct H as [_ H]. apply String.eqb_eq, H.
Qed.

Lemma ids_within_entity_by_id (entities : list Entity.t) (i : string) :
  ids_within ids (emitted (Validation.entity_by_id entities i)).
Proof.
  unfold Validation.entity_by_id.
  destruct (List.filter _ entities); apply ids_within_nil.
Qed.

Lemma validate_entity_ids (s : Entity.t) (mid : string) :
  In s (Model.entities src_model) ->
  ids_within ids
    (emitted (Validation.validate_entity set_iter src_model solution_model
                (Entity.id s) mid)).
Proof.
  intros Hs. unfold Validation.validate_entity.
  apply ids_within_bind; [apply ids_within_entity_by_id|]. intros s' Hs'.
  apply entity_by_id_id in Hs'.
  apply ids_within_bind; [apply ids_within_entity_by_id|]. intros m' _.
  apply ids_within_bind.
  { destruct (bool_decide _); [|apply ids_within_nil].
    rewrite Hs'. apply ids_within_some, entity_ids, Hs. }
  intros _ _.
  apply ids_within_bind; [apply validate_attributes_ids, Hs|]. intros _ _.
  apply validate_identifiers_ids, Hs.
Qed.

Lemma entities_loop_ids (srcs : list Entity.t) :
  (forall s, In s srcs -> In s (Model.entities src_model)) ->
  forall pool,
    ids_within ids
      (emitted (Validation.entities_loop set_iter src_model solution_model
                  srcs pool)).
Proof.
  induction srcs as [|s srcs IH]; intros Hs pool; [apply ids_within_nil|].
  assert (IH' := IH (fun x Hx => Hs x (or_intror Hx))).
  assert (Hsin : In s (Model.entities src_model)) by (apply Hs; left; reflexivity).
  cbn [Validation.entities_loop].
  destruct (WordMatch.compare_word _ _) as [n sc].
  destruct (Qgt_b _ _).
  - destruct (List.find _ pool) as [m|].
    + apply ids_within_bind; [apply ids_within_set_remove|]. intros u _.
      apply ids_within_bind; [apply validate_entity_ids, Hsin|].
      intros _ _. apply IH'.
    + apply ids_within_bind; [apply ids_within_some, entity_ids, Hsin|].
      intros _ _. apply IH'.
  - apply ids_within_bind; [apply ids_within_some, entity_ids, Hsin|].
    intros _ _. apply IH'.
Qed.
End EntityIds.
End Ids.

Lemma in_source_ids (m : Model.t) :
  (forall e, In e (Model.entities m) -> In (Entity.id e) (source_ids m))
  /\ (forall e i, In e (Model.entities m) -> In i (Entity.identifiers e) ->
                  In (Identifier.id i) (source_ids m))
  /\ (forall r, In r (Model.relationships m) ->
                In (Relationship.id r) (source_ids m))
  /\ (forall a, In a (Model.associations m) ->
                In (Association.id a) (source_ids m))
  /\ (forall l, In l (Model.association_links m) ->
                In (AssociationLink.id l) (source_ids m))
  /\ (forall h, In h (Model.inheritances m) ->
                In (Inheritance.id h) (source_ids m)).
Proof.
  unfold source_ids. repeat split; intros.
  - apply in_or_app. left. apply List.in_map. assumption.
  - apply in_or_app. right. apply in_or_app. left.
    apply List.in_flat_map. exists e. split; [assumption|].
    apply List.in_map. assumption.
  - do 2 (apply in_or_app; right). apply in_or_app. left.
    apply List.in_map. assumption.
  - do 3 (apply in_or_app; right). apply in_or_app. left.
    apply List.in_map. assumption.
  - do 4 (apply in_or_app; right). apply in_or_app. left.
    apply List.in_map. assumption.
  - do 5 (apply in_or_app; right). apply List.in_map. assumption.
Qed.

Lemma validate_ids (set_iter : forall A : Type, list A -> list A)
    (src_model solution_model : Model.t) :
  ids_within (source_ids src_model)
    (emitted (Validation.validate set_iter src_model solution_model)).
Proof.
  destruct (in_source_ids src_model) as (He & Hi & Hr & Ha & Hl & Hh).
  unfold Validation.validate.
  apply ids_within_bind.
  { unfold Validation.validate_entities.
    apply ids_within_bind; [apply entities_loop_ids; auto|].
    intros u _. apply ids_within_for_each. intros x. apply ids_within_none. }
  intros _ _. apply ids_within_bind.
  { unfold Validation.validate_relationships.
    apply ids_within_bind; [apply relationships_loop_ids; auto|].
    intros u _. apply ids_within_for_each. intros x. apply ids_within_none. }
  intros _ _. apply ids_within_bind.
  { unfold Validation.validate_inheritances.
    apply ids_within_bind; [apply inheritances_loop_ids; [auto|exact I]|].
    intros u _. apply ids_within_for_each. intros x. apply ids_within_none. }
  intros _ _. apply ids_within_bind.
  { unfold Validation.validate_associations.
    apply ids_within_bind; [apply associations_loop_ids; auto|].
    intros u _. apply ids_within_for_each. intros x. apply ids_within_none. }
  intros _ _.
  unfold Validation.validate_association_links.
  apply ids_within_bind; [apply links_loop_ids; auto|].
  intros u _. apply ids_within_for_each. intros x. apply ids_within_none.
Qed.

(** ** Linking identifiers to attributes *)

Lemma referenced_iff (a : Attribute.t) (refs : list string) :
  CDMParser.referenced a refs = true <-> In (Attribute.id a) refs.
Proof.
  unfold CDMParser.referenced. rewrite List.existsb_exists. split.
  - intros (x & Hx & E). apply String.eqb_eq in E. subst x. exact Hx.
  - intros H. exists (Attribute.id a). split; [exact H|apply String.eqb_refl].
Qed.

Lemma filter_sublist {A} (p : A -> bool) (l : list A) :
  sublist (List.filter p l) l.
Proof.
  induction l as [|x l IH]; [reflexivity|]. cbn [List.filter].
  destruct (p x); [apply sublist_skip, IH|apply sublist_cons, IH].
Qed.

Lemma referenced_same_members (a : Attribute.t) (refs refs' : list string) :
  (forall x, In x refs <-> In x refs') ->
  CDMParser.referenced a refs = CDMParser.referenced a refs'.
Proof.
  intros H. destruct (CDMParser.referenced a refs) eqn:E.
  - symmetry. apply referenced_iff, H, referenced_iff, E.
  - symmetry. apply not_true_is_false. intros E'.
    apply referenced_iff, H, referenced_iff in E'. congruence.
Qed.

(** ** The whole validation *)

Lemma raises_only_weaken {A} (P Q : Exc -> Prop) (m : M A) :
  (forall e, P e -> Q e) -> raises_only P m -> raises_only Q m.
Proof. unfold raises_only. intros H. destruct (outcome m); auto. Qed.

Lemma validate_raises (set_iter : forall A : Type, list A -> list A)
    (src_model solution_model : Model.t) :
  iterates_members set_iter ->
  raises_only (fun e => e = ValueError)
    (Validation.validate_entities set_iter src_model solution_model)
  /\ raises_only engine_exception
       (Validation.validate set_iter src_model solution_model).
Proof.
  intros Hit.
  assert (He : raises_only (fun e => e = ValueError)
                 (Validation.validate_entities set_iter src_model
                                               solution_model)).
  { unfold Validation.validate_entities.
    apply raises_only_pass; [|reflexivity].
    apply entities_loop_raises; [auto|]. intros m Hm. apply (Hit _ _ _ Hm). }
  split; [exact He|].
  unfold Validation.validate.
  apply raises_only_bind.
  { revert He. apply raises_only_weaken. intros e ->. left. reflexivity. }
  intros _ _. apply raises_only_bind.
  { apply raises_only_completes, completes_pass;
      [apply relationships_loop_completes|reflexivity]. }
  intros _ _. apply raises_only_bind.
  { unfold Validation.validate_inheritances.
    apply raises_only_pass; [|reflexivity].
    destruct (Model.inheritances src_model) as [|s srcs];
      [exact I|].
    destruct (set_iter _ (Model.inheritances solution_model)) as [|c pool].
    - right. left. reflexivity.
    - apply raises_only_completes, inheritances_loop_bound.
      right. left. discriminate. }
  intros _ _. apply raises_only_bind.
  { apply raises_only_completes, completes_pass;
      [apply associations_loop_completes|reflexivity]. }
  intros _ _.
  unfold Validation.validate_association_links.
  apply raises_only_pass; [|reflexivity].
  generalize (links_loop_raises (Model.association_links src_model)
                (set_iter _ (Model.association_links solution_model))).
  apply raises_only_weaken. intros e ->. right. right. reflexivity.
Qed.

(** * The scorer: distance bounds, the threshold, exact matches *)

Lemma score_one_iff (a b : string) :
  score a b = 1%Q
  <-> WordMatch.upper (WordMatch.chars a) = WordMatch.upper (WordMatch.chars b).
Proof. apply similarity_one. Qed.

Lemma score_le_one (a b : string) : (score a b <= 1)%Q.
Proof. apply similarity_score_range. Qed.

Lemma similarity_score_Qeq_one (s1 s2 : list N) :
  (WordMatch.similarity_score s1 s2 == 1)%Q ->
  WordMatch.similarity_score s1 s2 = 1%Q.
Proof.
  unfold WordMatch.similarity_score.
  destruct (Nat.max (length s1) (length s2) =? 0);
    [reflexivity|].
  intros H. refine (Qred_complete _ 1 _). rewrite Qred_correct in H. exact H.
Qed.

(** X1.  [levenshtein_distance] is [0] exactly on equal strings, is at
    least the difference of the two lengths and at most the longer length,
    and does not depend on the order of its arguments. *)
Theorem levenshtein_distance_bounds :
  forall s1 s2 : list N,
    (WordMatch.levenshtein_distance s1 s2 = 0 <-> s1 = s2)
    /\ (length s1 - length s2) + (length s2 - length s1)
       <= WordMatch.levenshtein_distance s1 s2
    /\ WordMatch.levenshtein_distance s1 s2
       <= Nat.max (length s1) (length s2)
    /\ WordMatch.levenshtein_distance s1 s2
       = WordMatch.levenshtein_distance s2 s1.
Proof.
  intros s1 s2. rewrite !levenshtein_distance_spec. repeat split.
  - apply Levenshtein_zero.
  - intros ->. apply Levenshtein_refl.
  - apply Levenshtein_lower.
  - apply Levenshtein_le_max.
  - apply Levenshtein_sym.
Qed.

(** X2.  The test [score > 0.85] in integers, on the two names after
    [str.upper] ([A] and [B] below, which may be longer than the names):
    two names pass it exactly when both are empty or twenty times the
    distance of [A] and [B] is below three times the longer of their
    lengths.  Names for which the lengths of [A] and [B] differ by [3/20]
    of the longer one or more never pass, and when [A] and [B] have fewer
    than seven characters the names pass only when [A] and [B] are
    equal. *)
Theorem name_match_in_integers :
  forall a b : string,
    let A := WordMatch.upper (WordMatch.chars a) in
    let B := WordMatch.upper (WordMatch.chars b) in
    let m := Nat.max (length A) (length B) in
    let d := WordMatch.levenshtein_distance A B in
    ((Validation.name_match_threshold < score a b)%Q
     <-> m = 0 \/ 20 * d < 3 * m)
    /\ ((Validation.name_match_threshold < score a b)%Q ->
        20 * ((length A - length B) + (length B - length A)) < 3 * m
        \/ m = 0)
    /\ ((Validation.name_match_threshold < score a b)%Q ->
        m < 7 -> A = B).
Proof.
  intros a b A B m d.
  assert (Hiff : (Validation.name_match_threshold < score a b)%Q
                 <-> m = 0 \/ 20 * d < 3 * m).
  { unfold score, m, d. fold A B. rewrite similarity_above_threshold.
    rewrite levenshtein_distance_spec. reflexivity. }
  split; [exact Hiff|]. split.
  - intros H. apply Hiff in H. destruct H as [H|H]; [right; exact H|left].
    pose proof (Levenshtein_lower A B) as L. unfold d in H.
    rewrite levenshtein_distance_spec in H. lia.
  - intros H Hm. apply Hiff in H.
    apply Levenshtein_zero. unfold d in H.
    rewrite levenshtein_distance_spec in H.
    destruct H as [H|H]; [|lia].
    pose proof (Levenshtein_le_max A B) as L. fold m in L. lia.
Qed.

Lemma name_match_in_integers_witness :
  WordMatch.upper (WordMatch.chars "Šola")
  = WordMatch.upper (WordMatch.chars "šola").
Proof.
  apply (proj2 (proj2 (name_match_in_integers "Šola" "šola"))).
  - vm_compute. reflexivity.
  - vm_compute. lia.
Defined.

(** X3.  A candidate scores [1] exactly when it and the source word have
    the same [str.upper], and [compare_word] reports the score [1] exactly
    when such a candidate is in the list. *)
Theorem exact_name_scores_one :
  forall (w : string) (l : list string),
    (forall v, score w v = 1%Q
               <-> WordMatch.upper (WordMatch.chars w)
                   = WordMatch.upper (WordMatch.chars v))
    /\ (snd (WordMatch.compare_word w l) = 1%Q
        <-> exists v, In v l
                      /\ WordMatch.upper (WordMatch.chars w)
                         = WordMatch.upper (WordMatch.chars v)).
Proof.
  intros w l. split; [intros v; apply score_one_iff|].
  destruct l as [|v0 l].
  { rewrite compare_word_nil. simpl. split; [discriminate|].
    intros (v & [] & _). }
  destruct (compare_word_score_bounds w (v0 :: l)) as [(v & Hv & E) Hmax];
    [discriminate|].
  split.
  - intros H. exists v. split; [exact Hv|]. apply score_one_iff. congruence.
  - intros (u & Hu & Eu). apply score_one_iff in Eu.
    rewrite E. apply similarity_score_Qeq_one. apply Qle_antisym.
    + apply score_le_one.
    + specialize (Hmax u Hu). rewrite Eu, E in Hmax. exact Hmax.
Qed.

(** * The passes: steps, outcomes, diagnostics *)

(** X4.  One turn of the entity loop.  When no entity of the pool scores
    above the threshold against the source entity [s], the turn emits the
    not-found diagnostic and leaves the pool as it was.  When some entity
    does, the turn takes an entity [m] of the pool whose score is the
    highest of the pool, removes it from the pool, and validates the pair
    [s], [m] before it goes on with the reduced pool. *)
Theorem entity_matching_step :
  forall (set_iter : forall A : Type, list A -> list A)
         (src_model solution_model : Model.t)
         (s : Entity.t) (rest pool : list Entity.t),
    ((forall e, In e pool ->
        (score (Entity.name s) (Entity.name e)
         <= Validation.name_match_threshold)%Q) ->
     Validation.entities_loop set_iter src_model solution_model (s :: rest) pool
     = (entity_not_found_error s ;;;
        Validation.entities_loop set_iter src_model solution_model rest pool))
    /\ (forall e, In e pool ->
          (Validation.name_match_threshold
           < score (Entity.name s) (Entity.name e))%Q ->
          exists m pool',
            In m pool
            /\ (Validation.name_match_threshold
                < score (Entity.name s) (Entity.name m))%Q
            /\ (forall x, In x pool ->
                  (score (Entity.name s) (Entity.name x)
                   <= score (Entity.name s) (Entity.name m))%Q)
            /\ remove_first m pool = Some pool'
            /\ Validation.entities_loop set_iter src_model solution_model
                 (s :: rest) pool
               = (Validation.validate_entity set_iter src_model solution_model
                    (Entity.id s) (Entity.id m) ;;;
                  Validation.entities_loop set_iter src_model solution_model
                    rest pool')).
Proof.
  intros set_iter src_model solution_model s rest pool. split.
  - apply entities_loop_not_found.
  - intros e He Hs.
    destruct (entities_loop_match set_iter src_model solution_model s rest pool
                e He Hs) as (m & pool' & Hm & Hmax & Hr & E).
    exists m, pool'. repeat split; try assumption.
    eapply Qlt_le_trans; [exact Hs|apply Hmax, He].
Qed.

Lemma entity_matching_step_witness :
  exists m pool',
    In m [Sample.member; Sample.book]
    /\ (Validation.name_match_threshold
        < score (Entity.name Sample.book_keyed) (Entity.name m))%Q
    /\ (forall x, In x [Sample.member; Sample.book] ->
          (score (Entity.name Sample.book_keyed) (Entity.name x)
           <= score (Entity.name Sample.book_keyed) (Entity.name m))%Q)
    /\ remove_first m [Sample.member; Sample.book] = Some pool'
    /\ Validation.entities_loop insertion_order
         (Sample.model [Sample.book_keyed] [] [] [] [])
         (Sample.model [Sample.member; Sample.book] [] [] [] [])
         [Sample.book_keyed] [Sample.member; Sample.book]
       = (Validation.validate_entity insertion_order
            (Sample.model [Sample.book_keyed] [] [] [] [])
            (Sample.model [Sample.member; Sample.book] [] [] [] [])
            (Entity.id Sample.book_keyed) (Entity.id m) ;;;
          Validation.entities_loop insertion_order
            (Sample.model [Sample.book_keyed] [] [] [] [])
            (Sample.model [Sample.member; Sample.book] [] [] [] [])
            [] pool').
Proof.
  apply (proj2 (entity_matching_step insertion_order
                  (Sample.model [Sample.book_keyed] [] [] [] [])
                  (Sample.model [Sample.member; Sample.book] [] [] [] [])
                  Sample.book_keyed [] [Sample.member; Sample.book])
           Sample.book).
  - simpl. right. left. reflexivity.
  - vm_compute. reflexivity.
Defined.

(** X5.  One turn of the attribute loop of a matched entity pair, and the
    loop as a whole.  With no attribute of the pool above the threshold the
    turn emits the not-found diagnostic and keeps the pool.  Otherwise it
    removes a best-scoring attribute [m] of the pool and compares it with
    the source attribute: a datatype diagnostic when the datatypes differ
    and, independently, a mandatory diagnostic when the mandatory flags
    differ.  The loop returns for every list of source attributes and every
    pool. *)
Theorem attribute_matching_step :
  forall (tid : string) (a : Attribute.t) (rest pool : list Attribute.t),
    ((forall e, In e pool ->
        (score (Attribute.name a) (Attribute.name e)
         <= Validation.name_match_threshold)%Q) ->
     Validation.attributes_loop tid (a :: rest) pool
     = (attribute_not_found_error tid a ;;;
        Validation.attributes_loop tid rest pool))
    /\ (forall e, In e pool ->
          (Validation.name_match_threshold
           < score (Attribute.name a) (Attribute.name e))%Q ->
          exists m pool',
            In m pool
            /\ (Validation.name_match_threshold
                < score (Attribute.name a) (Attribute.name m))%Q
            /\ (forall x, In x pool ->
                  (score (Attribute.name a) (Attribute.name x)
                   <= score (Attribute.name a) (Attribute.name m))%Q)
            /\ remove_first m pool = Some pool'
            /\ Validation.attributes_loop tid (a :: rest) pool
               = ((if bool_decide (Attribute.datatype a <> Attribute.datatype m)
                   then attribute_datatype_error tid a else ret tt) ;;;
                  (if bool_decide (Attribute.mandatory a
                                   <> Attribute.mandatory m)
                   then attribute_mandatory_error tid a else ret tt) ;;;
                  Validation.attributes_loop tid rest pool'))
    /\ (exists unmatched,
          outcome (Validation.attributes_loop tid (a :: rest) pool)
          = Ok unmatched).
Proof.
  intros tid a rest pool. split; [apply attributes_loop_not_found|]. split.
  - intros e He Hs.
    destruct (attributes_loop_match tid a rest pool e He Hs)
      as (m & pool' & Hm & Hmax & Hr & E).
    exists m, pool'. repeat split; try assumption.
    eapply Qlt_le_trans; [exact Hs|apply Hmax, He].
  - apply attributes_loop_completes.
Qed.

Lemma attribute_matching_step_witness :
  exists m pool',
    In m [Sample.title; Sample.isbn]
    /\ (Validation.name_match_threshold
        < score (Attribute.name Sample.isbn) (Attribute.name m))%Q
    /\ (forall x, In x [Sample.title; Sample.isbn] ->
          (score (Attribute.name Sample.isbn) (Attribute.name x)
           <= score (Attribute.name Sample.isbn) (Attribute.name m))%Q)
    /\ remove_first m [Sample.title; Sample.isbn] = Some pool'
    /\ Validation.attributes_loop "o2" [Sample.isbn] [Sample.title; Sample.isbn]
       = ((if bool_decide (Attribute.datatype Sample.isbn
                           <> Attribute.datatype m)
           then attribute_datatype_error "o2" Sample.isbn else ret tt) ;;;
          (if bool_decide (Attribute.mandatory Sample.isbn
                           <> Attribute.mandatory m)
           then attribute_mandatory_error "o2" Sample.isbn else ret tt) ;;;
          Validation.attributes_loop "o2" [] pool').
Proof.
  apply (proj1 (proj2 (attribute_matching_step "o2" Sample.isbn []
                         [Sample.title; Sample.isbn]))
           Sample.isbn).
  - simpl. right. left. reflexivity.
  - vm_compute. reflexivity.
Defined.

Lemma forallb_false_ex {A} (f : A -> bool) (l : list A) :
  forallb f l = false -> exists x, In x l /\ f x = false.
Proof.
  induction l as [|x l IH]; [discriminate|]. cbn [forallb].
  destruct (f x) eqn:E.
  - intros H. destruct (IH H) as (y & Hy & Fy). exists y. split; [right|]; auto.
  - intros _. exists x. split; [left; reflexivity|exact E].
Qed.

(** X6.  The answer of [validate_identifier_attributes].  Against an empty
    pool it raises [ValueError] as soon as the source identifier has an
    attribute, and answers "no match" without a diagnostic when it has
    none.  Against a non-empty pool it answers with the first identifier
    of the pool, and no diagnostic, when every identifier of the pool
    covers every source attribute; when some identifier of the pool fails
    to, it answers "no match" with one mismatch diagnostic.  It raises no
    exception other than [ValueError]. *)
Theorem identifier_attributes_outcome :
  forall (s : Identifier.t) (c0 : Identifier.t) (pool : list Identifier.t),
    Validation.validate_identifier_attributes s []
    = match Identifier.identifier_attributes s with
      | [] => ([], Ok (None, false))
      | _ :: _ => ([], Raise ValueError)
      end
    /\ ((forall c, In c (c0 :: pool) -> Validation.match_found s c = true) ->
        Validation.validate_identifier_attributes s (c0 :: pool)
        = ([], Ok (Some c0, true)))
    /\ (forall c, In c (c0 :: pool) -> Validation.match_found s c = false ->
        exists a,
          In a (Identifier.identifier_attributes s)
          /\ Validation.validate_identifier_attributes s (c0 :: pool)
             = (emitted (identifier_mismatch_error s a), Ok (None, false)))
    /\ (forall e,
          outcome (Validation.validate_identifier_attributes s (c0 :: pool))
          <> Raise e).
Proof.
  intros s c0 pool. split; [apply validate_identifier_attributes_empty|].
  split; [apply validate_identifier_attributes_all|].
  split; [apply validate_identifier_attributes_some_fail|].
  intros e H.
  destruct (forallb (Validation.match_found s) (c0 :: pool)) eqn:F.
  - rewrite validate_identifier_attributes_all in H; [discriminate|].
    intros c Hc. rewrite forallb_forall in F. apply F, Hc.
  - apply forallb_false_ex in F. destruct F as (c & Hc & Hf).
    destruct (validate_identifier_attributes_some_fail s c0 pool c Hc Hf)
      as (a & _ & E).
    rewrite E in H. discriminate.
Qed.

Lemma identifier_attributes_outcome_witness :
  Validation.validate_identifier_attributes Sample.id_isbn
    [Sample.id_isbn_secondary; Sample.id_isbn_title]
  = ([], Ok (Some Sample.id_isbn_secondary, true)).
Proof.
  apply (proj1 (proj2 (identifier_attributes_outcome Sample.id_isbn
                         Sample.id_isbn_secondary [Sample.id_isbn_title]))).
  intros c [<-|[<-|[]]]; vm_compute; reflexivity.
Defined.

Lemma raises_only_inv {A} (P : Exc -> Prop) (m : M A) (e : Exc) :
  raises_only P m -> outcome m = Raise e -> P e.
Proof. unfold raises_only. intros H E. rewrite E in H. exact H. Qed.

(** X7.  One turn of the identifier loop, apart from the primary-flag
    mismatch.  A source identifier matched with an identifier [sol] of the
    same primary flag removes [sol] from the pool and emits nothing.  A
    source identifier that is not matched keeps the pool and adds only the
    diagnostics of [validate_identifier_attributes]: the loop itself
    reports nothing for it.  The loop raises no exception other than
    [ValueError]. *)
Theorem identifier_loop_step :
  forall (src_model : Model.t) (tid : string) (s : Identifier.t)
         (rest pool : list Identifier.t),
    (forall sol,
       Validation.validate_identifier_attributes s pool
       = ([], Ok (Some sol, true)) ->
       Identifier.is_primary sol = Identifier.is_primary s ->
       exists pool',
         remove_first sol pool = Some pool'
         /\ Validation.identifiers_loop src_model tid (s :: rest) pool
            = Validation.identifiers_loop src_model tid rest pool')
    /\ (forall l o,
          Validation.validate_identifier_attributes s pool
          = (l, Ok (o, false)) ->
          Validation.identifiers_loop src_model tid (s :: rest) pool
          = ((l, Ok tt) ;;;
             Validation.identifiers_loop src_model tid rest pool))
    /\ (forall e,
          outcome (Validation.identifiers_loop src_model tid (s :: rest) pool)
          = Raise e ->
          e = ValueError).
Proof.
  intros src_model tid s rest pool. split.
  { intros sol. apply identifiers_loop_continue. }
  split.
  { intros l o. apply identifiers_loop_skip. }
  intros e. apply (raises_only_inv (fun e => e = ValueError)).
  apply identifiers_loop_raises.
Qed.

Lemma identifier_loop_step_witness :
  exists pool',
    remove_first Sample.id_title [Sample.id_title] = Some pool'
    /\ Validation.identifiers_loop (Sample.model [Sample.book_two_keys] [] [] [] [])
         "o2" [Sample.id_title; Sample.id_isbn] [Sample.id_title]
       = Validation.identifiers_loop
           (Sample.model [Sample.book_two_keys] [] [] [] [])
           "o2" [Sample.id_isbn] pool'.
Proof.
  apply (proj1 (identifier_loop_step
                  (Sample.model [Sample.book_two_keys] [] [] [] []) "o2"
                  Sample.id_title [Sample.id_isbn] [Sample.id_title])
           Sample.id_title).
  - vm_compute. reflexivity.
  - reflexivity.
Defined.

Lemma completes_inv {A} (m : M A) (e : Exc) :
  completes m -> outcome m <> Raise e.
Proof. intros [a Ha] H. rewrite Ha in H. discriminate. Qed.



Lemma pass_returns {A} (loop : M (list A)) (f : A -> M unit) :
  completes loop -> (forall x, outcome (f x) = Ok tt) ->
  exists l, (unmatched <- loop ;; for_each unmatched f) = (l, Ok tt).
Proof.
  intros C Hf.
  destruct (completes_pass loop f C Hf) as [[] Ha].
  destruct (unmatched <- loop ;; for_each unmatched f) as [l o].
  simpl in Ha. subst o. exists l. reflexivity.
Qed.





(** X11.  The inheritance pass raises exactly when the source model has an
    inheritance and the solution model has none: then it raises
    [UnboundLocalError] before it has emitted anything.  In every other
    case it returns. *)
Theorem inheritance_pass_outcome :
  forall (set_iter : forall A : Type, list A -> list A)
         (src_model solution_model : Model.t),
    (Model.inheritances src_model <> []
     /\ set_iter _ (Model.inheritances solution_model) = [] ->
     Validation.validate_inheritances set_iter src_model solution_model
     = ([], Raise UnboundLocalError))
    /\ (Model.inheritances src_model = []
        \/ set_iter _ (Model.inheritances solution_model) <> [] ->
        exists l,
          Validation.validate_inheritances set_iter src_model solution_model
          = (l, Ok tt)).
Proof.
  intros set_iter src_model solution_model. split.
  - intros [Hs Hp]. unfold Validation.validate_inheritances. rewrite Hp.
    destruct (Model.inheritances src_model) as [|s rest]; [congruence|].
    reflexivity.
  - intros H. apply pass_returns; [|reflexivity].
    apply inheritances_loop_bound. right. destruct H as [H|H]; auto.
Qed.

Lemma inheritance_pass_outcome_witness :
  exists l,
    Validation.validate_inheritances insertion_order
      (Sample.model [] [Sample.kinds] [] [] [])
      (Sample.model [] [Sample.units] [] [] [])
    = (l, Ok tt).
Proof.
  apply (proj2 (inheritance_pass_outcome insertion_order
                  (Sample.model [] [Sample.kinds] [] [] [])
                  (Sample.model [] [Sample.units] [] [] []))).
  right. simpl. discriminate.
Defined.

(** X12.  Whatever the two models hold, provided a set iterates over its
    members only, [validate] either returns or raises one of [ValueError]
    (the identifier check of the entity pass), [UnboundLocalError] (the
    inheritance pass) and [RuntimeError] (the association-link pass).  It
    never raises [KeyError], [IndexError] or [TypeError]: every object the
    engine removes from a pool is in the pool, and every id it looks up is
    the id of an entity of the model. *)
Theorem validate_exceptions :
  forall (set_iter : forall A : Type, list A -> list A)
         (src_model solution_model : Model.t) (e : Exc),
    iterates_members set_iter ->
    outcome (Validation.validate set_iter src_model solution_model)
    = Raise e ->
    (e = ValueError \/ e = UnboundLocalError \/ e = RuntimeError)
    /\ e <> KeyError /\ e <> IndexError /\ e <> TypeError.
Proof.
  intros set_iter src_model solution_model e Hit H.
  assert (He : engine_exception e).
  { apply (raises_only_inv engine_exception _ e
             (proj2 (validate_raises set_iter src_model solution_model Hit)) H). }
  split; [exact He|].
  destruct He as [->|[->| ->]]; repeat split; discriminate.
Qed.

Lemma validate_exceptions_witness :
  (ValueError = ValueError \/ ValueError = UnboundLocalError
   \/ ValueError = RuntimeError)
  /\ ValueError <> KeyError /\ ValueError <> IndexError
  /\ ValueError <> TypeError.
Proof.
  apply (validate_exceptions insertion_order
           (Sample.model [Sample.book_keyed] [] [] [] [])
           (Sample.model [Sample.book] [] [] [] []) ValueError).
  - intros A l x H. exact H.
  - vm_compute. reflexivity.
Defined.

(** X13.  Every diagnostic [validate] emits carries either no id (the
    unmatched-solution diagnostics) or the id of an object of the source
    model: an entity, an identifier of an entity, a relationship, an
    inheritance, an association or an association link.  No diagnostic
    carries an id taken from the solution model. *)
Theorem validate_diagnostic_ids :
  forall (set_iter : forall A : Type, list A -> list A)
         (src_model solution_model : Model.t) (e : ErrorLog.Error),
    In e (emitted (Validation.validate set_iter src_model solution_model)) ->
    ErrorLog.id e = None
    \/ exists i, In i (source_ids src_model) /\ ErrorLog.id e = Some i.
Proof.
  intros set_iter src_model solution_model e.
  apply (validate_ids set_iter src_model solution_model).
Qed.

Lemma validate_diagnostic_ids_witness :
  ErrorLog.id (ErrorLog.mkError "Association" (Some "o4")
                 (ErrorLog.StrName "Borrows") "Error"
                 (ErrorLog.Text "Association Borrows not found in solution model"))
  = None
  \/ exists i,
       In i (source_ids (Sample.model [] [] [] [Sample.borrows] []))
       /\ ErrorLog.id (ErrorLog.mkError "Association" (Some "o4")
                         (ErrorLog.StrName "Borrows") "Error"
                         (ErrorLog.Text
                            "Association Borrows not found in solution model"))
          = Some i.
Proof.
  apply (validate_diagnostic_ids insertion_order
           (Sample.model [] [] [] [Sample.borrows] [])
           (Sample.model [] [] [] [Sample.borrows] [])).
  vm_compute. left. reflexivity.
Defined.

(** * Lookups by id: the model and the log *)

(** X14.  An id is resolved to the first entity of the model that carries
    it, by the three getters of [Model] and by the lookup of
    [validate_entity] alike; a later entity with the same id is never
    seen.  For an id no entity carries, the getters answer [None] while the
    lookup of [validate_entity] raises [IndexError], and
    [validate_attributes], called on such a solution id, raises
    [TypeError]. *)
Theorem entity_lookup_by_id :
  forall (set_iter : forall A : Type, list A -> list A)
         (m other : Model.t) (i j : string),
    (forall pre e post,
       Model.entities m = pre ++ e :: post ->
       (forall y, In y pre -> Entity.id y <> i) -> Entity.id e = i ->
       Model.get_table_name_by_id m i = Some (Entity.name e)
       /\ Model.get_attributes m i = Some (Entity.attributes e)
       /\ Model.get_identifiers m i = Some (Entity.identifiers e)
       /\ Validation.entity_by_id (Model.entities m) i = ret e)
    /\ ((forall y, In y (Model.entities m) -> Entity.id y <> i) ->
        Model.get_table_name_by_id m i = None
        /\ Model.get_attributes m i = None
        /\ Model.get_identifiers m i = None
        /\ Validation.entity_by_id (Model.entities m) i = raise IndexError
        /\ Validation.validate_entity set_iter m other i j
           = ([], Raise IndexError)
        /\ Validation.validate_attributes set_iter other m j i
           = ([], Raise TypeError)).
Proof.
  intros set_iter m other i j. split.
  - intros pre e post E Hpre He.
    assert (F : List.find (fun x => String.eqb (Entity.id x) i)
                          (Model.entities m) = Some e).
    { rewrite E. apply find_first.
      - apply id_test_false, Hpre.
      - apply String.eqb_eq, He. }
    unfold Model.get_table_name_by_id, Model.get_attributes,
      Model.get_identifiers. rewrite F. repeat split.
    unfold Validation.entity_by_id. rewrite E.
    rewrite List.filter_app.
    rewrite (filter_absent i pre Hpre). cbn [List.filter app].
    rewrite (proj2 (String.eqb_eq _ _) He). reflexivity.
  - intros Hno.
    assert (F : List.find (fun x => String.eqb (Entity.id x) i)
                          (Model.entities m) = None).
    { apply find_absent, id_test_false, Hno. }
    assert (G : Validation.entity_by_id (Model.entities m) i
                = raise IndexError).
    { unfold Validation.entity_by_id. rewrite (filter_absent i _ Hno).
      reflexivity. }
    assert (A : Model.get_attributes m i = None).
    { unfold Model.get_attributes. rewrite F. reflexivity. }
    unfold Validation.validate_entity, Validation.validate_attributes.
    rewrite A, G.
    unfold Model.get_table_name_by_id, Model.get_identifiers. rewrite F.
    repeat split; reflexivity.
Qed.

Lemma entity_lookup_by_id_witness :
  Model.get_table_name_by_id
    (Sample.model [Sample.member; Sample.book_keyed; Sample.book] [] [] [] [])
    "o2" = Some (Entity.name Sample.book_keyed)
  /\ Model.get_attributes
       (Sample.model [Sample.member; Sample.book_keyed; Sample.book] [] [] [] [])
       "o2" = Some (Entity.attributes Sample.book_keyed)
  /\ Model.get_identifiers
       (Sample.model [Sample.member; Sample.book_keyed; Sample.book] [] [] [] [])
       "o2" = Some (Entity.identifiers Sample.book_keyed)
  /\ Validation.entity_by_id
       (Model.entities
          (Sample.model [Sample.member; Sample.book_keyed; Sample.book]
                        [] [] [] []))
       "o2" = ret Sample.book_keyed.
Proof.
  apply (proj1 (entity_lookup_by_id insertion_order
                  (Sample.model [Sample.member; Sample.book_keyed; Sample.book]
                                [] [] [] [])
                  (Sample.model [] [] [] [] []) "o2" "o2")
           [Sample.member] Sample.book_keyed [Sample.book]).
  - reflexivity.
  - intros y [<-|[]]. vm_compute. discriminate.
  - reflexivity.
Defined.

(** X15.  The error log.  After [add_error] for the id [i], [find_error i]
    finds an error: the one just added when the log held none for [i], and
    otherwise the one it found before, since the first error recorded for
    an id is the one returned.  For every other id the answer of
    [find_error] is the same before and after the call. *)
Theorem find_error_after_add_error :
  forall (errors : list ErrorLog.Error) (t : string) (i : option string)
         (n : ErrorLog.ErrName) (e : string) (msg : ErrorLog.Message)
         (j : option string),
    snd (ErrorLog.find_error (log_add_error errors t i n e msg) i) = true
    /\ (snd (ErrorLog.find_error errors i) = false ->
        ErrorLog.find_error (log_add_error errors t i n e msg) i
        = (Some (ErrorLog.mkError t i n e msg), true))
    /\ (snd (ErrorLog.find_error errors j) = true ->
        ErrorLog.find_error (log_add_error errors t i n e msg) j
        = ErrorLog.find_error errors j)
    /\ (j <> i ->
        ErrorLog.find_error (log_add_error errors t i n e msg) j
        = ErrorLog.find_error errors j).
Proof.
  intros errors t i n e msg j. unfold log_add_error.
  assert (Hnew : ErrorLog.find_error [ErrorLog.mkError t i n e msg] i
                 = (Some (ErrorLog.mkError t i n e msg), true)).
  { unfold ErrorLog.find_error. cbn [List.find ErrorLog.id].
    rewrite bool_decide_true by reflexivity. reflexivity. }
  split.
  { destruct (snd (ErrorLog.find_error errors i)) eqn:F.
    - rewrite find_error_append by exact F. exact F.
    - rewrite find_error_fresh by exact F. rewrite Hnew. reflexivity. }
  split.
  { intros F. rewrite find_error_fresh by exact F. exact Hnew. }
  split.
  { intros F. apply find_error_append, F. }
  intros Hj.
  destruct (snd (ErrorLog.find_error errors j)) eqn:F.
  - apply find_error_append, F.
  - rewrite find_error_fresh by exact F.
    unfold ErrorLog.find_error in *. cbn [List.find ErrorLog.id].
    rewrite bool_decide_false by congruence.
    destruct (List.find _ errors); [discriminate|reflexivity].
Qed.

Lemma find_error_after_add_error_witness :
  ErrorLog.find_error
    (log_add_error [ErrorLog.mkError "Entity" (Some "o2")
                      (ErrorLog.StrName "Book") "Error"
                      (ErrorLog.Text "Entity child property mismatch")]
       "Entity" (Some "o3") (ErrorLog.StrName "Member") "Error"
       (ErrorLog.Text "Entity Member not found in solution model"))
    (Some "o3")
  = (Some (ErrorLog.mkError "Entity" (Some "o3") (ErrorLog.StrName "Member")
             "Error"
             (ErrorLog.Text "Entity Member not found in solution model")),
     true).
Proof.
  apply (proj1 (proj2 (find_error_after_add_error
                         [ErrorLog.mkError "Entity" (Some "o2")
                            (ErrorLog.StrName "Book") "Error"
                            (ErrorLog.Text "Entity child property mismatch")]
                         "Entity" (Some "o3") (ErrorLog.StrName "Member")
                         "Error"
                         (ErrorLog.Text
                            "Entity Member not found in solution model")
                         None))).
  vm_compute. reflexivity.
Defined.

(** * The parser: identifiers linked to attributes *)

(** X16.  [link_attributes] keeps the identifiers, their order, ids, names
    and primary flags, and gives each one the attributes of the entity
    whose id it refers to: an attribute is linked exactly when it is an
    attribute of the entity and its id is among the references; the linked
    attributes come in the order of the entity's attributes, whatever the
    order and repetition of the references; a reference to no attribute of
    the entity is dropped without an error. *)
Theorem link_attributes_resolves :
  forall (identifiers : list IdentifierRefs.t)
         (attributes : list Attribute.t),
    List.map Identifier.id (CDMParser.link_attributes identifiers attributes)
    = List.map IdentifierRefs.id identifiers
    /\ List.map Identifier.name
         (CDMParser.link_attributes identifiers attributes)
       = List.map IdentifierRefs.name identifiers
    /\ List.map Identifier.is_primary
         (CDMParser.link_attributes identifiers attributes)
       = List.map IdentifierRefs.is_primary identifiers
    /\ (forall k raw,
          nth_error identifiers k = Some raw ->
          exists linked,
            nth_error (CDMParser.link_attributes identifiers attributes) k
            = Some linked
            /\ sublist (Identifier.identifier_attributes linked) attributes
            /\ (forall a,
                  In a (Identifier.identifier_attributes linked)
                  <-> In a attributes
                      /\ In (Attribute.id a)
                            (IdentifierRefs.identifier_attributes raw))
            /\ (forall refs',
                  (forall x, In x (IdentifierRefs.identifier_attributes raw)
                             <-> In x refs') ->
                  List.filter (fun a => CDMParser.referenced a refs') attributes
                  = Identifier.identifier_attributes linked)).
Proof.
  intros identifiers attributes. unfold CDMParser.link_attributes.
  rewrite !List.map_map. cbn [Identifier.id Identifier.name Identifier.is_primary].
  repeat split.
  intros k raw Hk. eexists. split.
  { rewrite List.nth_error_map, Hk. reflexivity. }
  cbn [Identifier.identifier_attributes]. split; [apply filter_sublist|].
  split.
  - intros a. rewrite List.filter_In, referenced_iff. reflexivity.
  - intros refs' Hrefs. apply List.filter_ext. intros a.
    symmetry. apply referenced_same_members, Hrefs.
Qed.

Lemma link_attributes_resolves_witness :
  exists linked,
    nth_error (CDMParser.link_attributes
                 [IdentifierRefs.mk "o24" "Identifier_3" ["o12"; "o99"; "o11"]
                    false]
                 [Sample.isbn; Sample.title]) 0
    = Some linked
    /\ sublist (Identifier.identifier_attributes linked)
               [Sample.isbn; Sample.title]
    /\ (forall a,
          In a (Identifier.identifier_attributes linked)
          <-> In a [Sample.isbn; Sample.title]
              /\ In (Attribute.id a)
                    (IdentifierRefs.identifier_attributes
                       (IdentifierRefs.mk "o24" "Identifier_3"
                          ["o12"; "o99"; "o11"] false)))
    /\ (forall refs',
          (forall x, In x (IdentifierRefs.identifier_attributes
                             (IdentifierRefs.mk "o24" "Identifier_3"
                                ["o12"; "o99"; "o11"] false))
                     <-> In x refs') ->
          List.filter (fun a => CDMParser.referenced a refs')
                      [Sample.isbn; Sample.title]
          = Identifier.identifier_attributes linked).
Proof.
  apply (proj2 (proj2 (proj2 (link_attributes_resolves
                                [IdentifierRefs.mk "o24" "Identifier_3"
                                   ["o12"; "o99"; "o11"] false]
                                [Sample.isbn; Sample.title])))
           0 (IdentifierRefs.mk "o24" "Identifier_3" ["o12"; "o99"; "o11"]
                false)).
  reflexivity.
Defined.

(** * The parser: inheritances linked to entities *)

(** Two stores hold the same ids at the same positions. *)
Lemma set_is_child_id (e : Entity.t) :
  Entity.id (CDMParser.set_is_child e) = Entity.id e.
Proof. reflexivity. Qed.

Lemma set_is_child_idempotent (e : Entity.t) :
  CDMParser.set_is_child (CDMParser.set_is_child e) = CDMParser.set_is_child e.
Proof. reflexivity. Qed.

Lemma flag_children_entities (child : string) (entities : list Entity.t) :
  forall pos,
    fst (CDMParser.flag_children child entities pos)
    = List.map (fun e => if String.eqb (Entity.id e) child
                         then CDMParser.set_is_child e else e)
               entities.
Proof.
  induction entities as [|e es IH]; intros pos; [reflexivity|].
  cbn [CDMParser.flag_children List.map].
  specialize (IH (S pos)).
  destruct (CDMParser.flag_children child es (S pos)) as [rest' found].
  simpl in IH. destruct (String.eqb (Entity.id e) child); simpl; congruence.
Qed.

Lemma flag_children_refs (child : string) (entities : list Entity.t) :
  forall (store pre : list Entity.t),
    List.map Entity.id store = List.map Entity.id entities ->
    CDMParser.deref_all (pre ++ store)
      (snd (CDMParser.flag_children child entities (length pre)))
    = Some (List.filter (fun e => String.eqb (Entity.id e) child) store).
Proof.
  induction entities as [|e es IH]; intros store pre Hids.
  { destruct store; [reflexivity|discriminate]. }
  destruct store as [|s store]; [discriminate|].
  simpl in Hids. injection Hids as Hid Hids.
  cbn [CDMParser.flag_children].
  specialize (IH store (pre ++ [s]) Hids).
  rewrite <- app_assoc in IH. cbn [app] in IH.
  rewrite length_app in IH. cbn [length] in IH.
  rewrite Nat.add_1_r in IH.
  destruct (CDMParser.flag_children child es (S (length pre))) as [rest' found].
  cbn [snd] in IH. cbn [List.filter]. rewrite Hid.
  destruct (String.eqb (Entity.id e) child); cbn [snd]; [|exact IH].
  cbn [CDMParser.deref_all]. rewrite IH.
  rewrite nth_error_app2 by lia. rewrite Nat.sub_diag. reflexivity.
Qed.

Lemma deref_all_app (store : list Entity.t) (r1 r2 : list nat)
    (l1 l2 : list Entity.t) :
  CDMParser.deref_all store r1 = Some l1 ->
  CDMParser.deref_all store r2 = Some l2 ->
  CDMParser.deref_all store (r1 ++ r2) = Some (l1 ++ l2).
Proof.
  revert l1. induction r1 as [|r r1 IH]; intros l1 H1 H2.
  { injection H1 as <-. exact H2. }
  cbn [CDMParser.deref_all app] in *.
  destruct (nth_error store r) as [e|]; [|discriminate].
  destruct (CDMParser.deref_all store r1) as [es|]; [|discriminate].
  injection H1 as <-. rewrite (IH es eq_refl H2). reflexivity.
Qed.

Lemma link_children_entities (children : list string) :
  forall entities,
    fst (CDMParser.link_children children entities)
    = List.map (fun e => if existsb (String.eqb (Entity.id e)) children
                         then CDMParser.set_is_child e else e)
               entities.
Proof.
  induction children as [|c cs IH]; intros entities.
  { cbn. rewrite List.map_id. reflexivity. }
  cbn [CDMParser.link_children].
  pose proof (flag_children_entities c entities 0) as Hf.
  destruct (CDMParser.flag_children c entities 0) as [entities1 found].
  cbn [fst] in Hf. specialize (IH entities1).
  destruct (CDMParser.link_children cs entities1) as [entities2 more].
  cbn [fst] in *. rewrite IH, Hf, List.map_map. apply List.map_ext.
  intros e. cbn [existsb].
  destruct (String.eqb (Entity.id e) c) eqn:E; cbn [orb].
  - rewrite set_is_child_id. destruct (existsb _ cs); reflexivity.
  - reflexivity.
Qed.

Lemma map_flag_ids (p : Entity.t -> bool) (entities : list Entity.t) :
  List.map Entity.id
    (List.map (fun e => if p e then CDMParser.set_is_child e else e) entities)
  = List.map Entity.id entities.
Proof.
  rewrite List.map_map. apply List.map_ext. intros e.
  destruct (p e); reflexivity.
Qed.

Lemma link_children_refs (children : list string) :
  forall (entities store : list Entity.t),
    List.map Entity.id store = List.map Entity.id entities ->
    CDMParser.deref_all store (snd (CDMParser.link_children children entities))
    = Some (List.flat_map
              (fun child =>
                 List.filter (fun e => String.eqb (Entity.id e) child) store)
              children).
Proof.
  induction children as [|c cs IH]; intros entities store Hids;
    [reflexivity|].
  cbn [CDMParser.link_children List.flat_map].
  pose proof (flag_children_entities c entities 0) as Hf.
  pose proof (flag_children_refs c entities store [] Hids) as Hr.
  cbn [app length] in Hr.
  destruct (CDMParser.flag_children c entities 0) as [entities1 found].
  cbn [fst snd] in Hf, Hr.
  assert (Hids1 : List.map Entity.id store = List.map Entity.id entities1).
  { rewrite Hf, map_flag_ids. exact Hids. }
  specialize (IH entities1 store Hids1).
  destruct (CDMParser.link_children cs entities1) as [entities2 more].
  cbn [snd] in *. apply deref_all_app; assumption.
Qed.

Lemma first_with_id_none (i : string) (entities : list Entity.t) :
  forall pos,
    CDMParser.first_with_id i entities pos = None
    <-> forall e, In e entities -> Entity.id e <> i.
Proof.
  induction entities as [|e es IH]; intros pos.
  { split; [intros _ e []|reflexivity]. }
  cbn [CDMParser.first_with_id].
  destruct (String.eqb_spec (Entity.id e) i) as [E|E].
  - split; [discriminate|]. intros H. destruct (H e (or_introl eq_refl) E).
  - rewrite IH. split.
    + intros H x [<-|Hx]; [exact E|apply H, Hx].
    + intros H x Hx. apply H. right. exact Hx.
Qed.

Lemma first_with_id_some (i : string) (entities : list Entity.t) :
  forall (store pre : list Entity.t) (p : nat),
    List.map Entity.id store = List.map Entity.id entities ->
    CDMParser.first_with_id i entities (length pre) = Some p ->
    exists e,
      nth_error (pre ++ store) p = Some e
      /\ List.find (fun x => String.eqb (Entity.id x) i) store = Some e.
Proof.
  induction entities as [|e es IH]; intros store pre p Hids H; [discriminate|].
  destruct store as [|s store]; [discriminate|].
  simpl in Hids. injection Hids as Hid Hids.
  cbn [CDMParser.first_with_id] in H. cbn [List.find]. rewrite Hid.
  destruct (String.eqb (Entity.id e) i).
  - injection H as <-. exists s. split; [|reflexivity].
    rewrite nth_error_app2 by lia. rewrite Nat.sub_diag. reflexivity.
  - specialize (IH store (pre ++ [s]) p Hids).
    rewrite <- app_assoc, length_app in IH. cbn [app length] in IH.
    rewrite Nat.add_1_r in IH. apply IH, H.
Qed.

Lemma listed_child_cons (inh : InheritanceRefs.t)
    (rest : list InheritanceRefs.t) (i : string) :
  CDMParser.listed_child (inh :: rest) i
  = existsb (String.eqb i) (InheritanceRefs.children inh)
    || CDMParser.listed_child rest i.
Proof. reflexivity. Qed.

(** The store after the call: the entities listed as children by the
    inheritances linked by then are flagged, and nothing else changes. *)
Lemma link_inheritances_entities (inheritances : list InheritanceRefs.t) :
  forall entities entities' linked r,
    CDMParser.link_inheritances entities inheritances = (entities', linked, r) ->
    entities'
    = List.map
        (fun e =>
           if CDMParser.listed_child (firstn (length linked) inheritances)
                                     (Entity.id e)
           then CDMParser.set_is_child e else e)
        entities
    /\ length linked <= length inheritances
    /\ (r = None -> length linked = length inheritances)
    /\ (r = None \/ r = Some IndexError).
Proof.
  induction inheritances as [|inh rest IH]; intros entities entities' linked r H.
  { injection H as <- <- <-. cbn. rewrite List.map_id. auto. }
  cbn [CDMParser.link_inheritances] in H.
  destruct (CDMParser.first_with_id _ entities 0) as [p|].
  2:{ injection H as <- <- <-. cbn. rewrite List.map_id.
      repeat split; [lia|discriminate|right; reflexivity]. }
  pose proof (link_children_entities (InheritanceRefs.children inh) entities)
    as Hc.
  destruct (CDMParser.link_children _ entities) as [entities1 children].
  cbn [fst] in Hc.
  destruct (CDMParser.link_inheritances entities1 rest)
    as [[entities2 linked'] r'] eqn:E.
  injection H as <- <- <-.
  destruct (IH _ _ _ _ E) as (He & Hlen & Hr & Hx).
  split; [|cbn [length]; repeat split; [lia|intros Hn; rewrite (Hr Hn); reflexivity|exact Hx]].
  rewrite He, Hc, List.map_map. apply List.map_ext. intros e.
  cbn [length firstn]. rewrite listed_child_cons.
  destruct (existsb (String.eqb (Entity.id e)) (InheritanceRefs.children inh));
    cbn [orb].
  - rewrite set_is_child_id.
    destruct (CDMParser.listed_child _ (Entity.id e)); reflexivity.
  - reflexivity.
Qed.

Lemma link_inheritances_ids (inheritances : list InheritanceRefs.t)
    (entities entities' : list Entity.t)
    (linked : list LinkedInheritance.t) (r : option Exc) :
  CDMParser.link_inheritances entities inheritances = (entities', linked, r) ->
  List.map Entity.id entities' = List.map Entity.id entities.
Proof.
  intros H. destruct (link_inheritances_entities _ _ _ _ _ H) as (-> & _).
  apply map_flag_ids.
Qed.

(** The call raises exactly when a parent id is the id of no entity. *)
Lemma link_inheritances_raises (inheritances : list InheritanceRefs.t) :
  forall entities entities' linked r,
    CDMParser.link_inheritances entities inheritances = (entities', linked, r) ->
    r = None
    <-> forall inh, In inh inheritances ->
          exists e, In e entities /\ Entity.id e = InheritanceRefs.parent inh.
Proof.
  induction inheritances as [|inh rest IH]; intros entities entities' linked r H.
  { injection H as <- <- <-. split; [intros _ inh []|reflexivity]. }
  cbn [CDMParser.link_inheritances] in H.
  destruct (CDMParser.first_with_id _ entities 0) as [p|] eqn:F.
  2:{ injection H as <- <- <-. split; [discriminate|]. intros Hall.
      destruct (Hall inh (or_introl eq_refl)) as (e & He & Hid).
      destruct (proj1 (first_with_id_none _ _ _) F e He Hid). }
  pose proof (link_children_entities (InheritanceRefs.children inh) entities)
    as Hc.
  destruct (CDMParser.link_children _ entities) as [entities1 children].
  cbn [fst] in Hc.
  destruct (CDMParser.link_inheritances entities1 rest)
    as [[entities2 linked'] r'] eqn:E.
  injection H as <- <- <-.
  assert (Hids : forall i,
            (exists e, In e entities1 /\ Entity.id e = i)
            <-> (exists e, In e entities /\ Entity.id e = i)).
  { intros i. rewrite Hc. split.
    - intros (e & He & Hid). apply in_map_iff in He.
      destruct He as (x & <- & Hx). exists x. split; [exact Hx|].
      destruct (existsb _ _); exact Hid.
    - intros (e & He & Hid).
      exists (if existsb (String.eqb (Entity.id e)) (InheritanceRefs.children inh)
              then CDMParser.set_is_child e else e).
      split; [apply in_map_iff; exists e; split; [reflexivity|exact He]|].
      destruct (existsb _ _); exact Hid. }
  rewrite (IH _ _ _ _ E). split.
  - intros Hall x [<-|Hx].
    + destruct (first_with_id_some _ entities entities [] p eq_refl F)
        as (e & Hn & Hf).
      apply List.find_some in Hf. destruct Hf as [He Hid].
      exists e. split; [exact He|apply String.eqb_eq, Hid].
    + apply Hids, Hall, Hx.
  - intros Hall x Hx. apply Hids, Hall. right. exact Hx.
Qed.

(** The linked inheritances, read in any store that holds the same ids at
    the same positions. *)
Lemma link_inheritances_linked (inheritances : list InheritanceRefs.t) :
  forall entities entities' linked r store,
    CDMParser.link_inheritances entities inheritances = (entities', linked, r) ->
    List.map Entity.id store = List.map Entity.id entities ->
    forall k l,
      nth_error linked k = Some l ->
      exists inh v,
        nth_error inheritances k = Some inh
        /\ CDMParser.deref store l = Some v
        /\ Inheritance.id v = InheritanceRefs.id inh
        /\ Inheritance.name v = InheritanceRefs.name inh
        /\ Inheritance.code v = InheritanceRefs.code inh
        /\ Inheritance.mutually_exclusive v
           = InheritanceRefs.mutually_exclusive inh
        /\ Inheritance.complete v = InheritanceRefs.complete inh
        /\ List.find (fun e => String.eqb (Entity.id e)
                                          (InheritanceRefs.parent inh)) store
           = Some (Inheritance.parent v)
        /\ Inheritance.children v
           = List.flat_map
               (fun child =>
                  List.filter (fun e => String.eqb (Entity.id e) child) store)
               (InheritanceRefs.children inh).
Proof.
  induction inheritances as [|inh rest IH];
    intros entities entities' linked r store H Hids k l Hk.
  { injection H as <- <- <-. destruct k; discriminate. }
  cbn [CDMParser.link_inheritances] in H.
  destruct (CDMParser.first_with_id _ entities 0) as [p|] eqn:F.
  2:{ injection H as <- <- <-. destruct k; discriminate. }
  pose proof (link_children_entities (InheritanceRefs.children inh) entities)
    as Hc.
  pose proof (link_children_refs (InheritanceRefs.children inh) entities store
                Hids) as Hr.
  destruct (CDMParser.link_children _ entities) as [entities1 children].
  cbn [fst snd] in Hc, Hr.
  destruct (CDMParser.link_inheritances entities1 rest)
    as [[entities2 linked'] r'] eqn:E.
  injection H as <- <- <-.
  destruct k as [|k].
  - injection Hk as <-.
    destruct (first_with_id_some _ entities store [] p Hids F) as (e & Hn & Hf).
    cbn [app] in Hn.
    exists inh. eexists. split; [reflexivity|].
    unfold CDMParser.deref. cbn [LinkedInheritance.parent
      LinkedInheritance.children]. rewrite Hn, Hr.
    split; [reflexivity|]. cbn. repeat split. exact Hf.
  - cbn [nth_error] in Hk |- *.
    apply (IH entities1 entities2 linked' r' store E); [|exact Hk].
    rewrite Hc, map_flag_ids. exact Hids.
Qed.

Lemma listed_child_nth (inheritances : list InheritanceRefs.t) :
  forall (n k : nat) (inh : InheritanceRefs.t) (child : string),
    nth_error inheritances k = Some inh -> k < n ->
    In child (InheritanceRefs.children inh) ->
    CDMParser.listed_child (firstn n inheritances) child = true.
Proof.
  induction inheritances as [|x rest IH]; intros n k inh child Hk Hn Hc.
  { destruct k; discriminate. }
  destruct n as [|n]; [lia|]. cbn [firstn]. rewrite listed_child_cons.
  destruct k as [|k].
  - injection Hk as ->. apply orb_true_iff. left.
    apply List.existsb_exists. exists child.
    split; [exact Hc|apply String.eqb_refl].
  - apply orb_true_iff. right. apply (IH n k inh child Hk); [lia|exact Hc].
Qed.

(** X17.  [link_inheritances] on a list of entities and a list of parsed
    inheritances.  It raises no exception other than [IndexError], and
    raises exactly when the parent id of some inheritance is the id of no
    entity; a child id of no entity is dropped silently.  Of the entities
    it changes nothing but [is_child], which it sets on exactly those whose
    id is listed as a child by an inheritance linked so far.  Each linked
    inheritance keeps its id, name, code and flags; read in the entities as
    they are after the call, its parent is the first entity with the parent
    id, its children are, child id by child id, the entities with that id,
    in the order of the list, and every one of them has [is_child] set. *)
Theorem link_inheritances_links :
  forall (entities : list Entity.t) (inheritances : list InheritanceRefs.t)
         (entities' : list Entity.t) (linked : list LinkedInheritance.t)
         (r : option Exc),
    CDMParser.link_inheritances entities inheritances
    = (entities', linked, r) ->
    (r = None \/ r = Some IndexError)
    /\ (r = None
        <-> forall inh, In inh inheritances ->
              exists e, In e entities
                        /\ Entity.id e = InheritanceRefs.parent inh)
    /\ (r = None -> length linked = length inheritances)
    /\ entities'
       = List.map
           (fun e =>
              if CDMParser.listed_child (firstn (length linked) inheritances)
                                        (Entity.id e)
              then CDMParser.set_is_child e else e)
           entities
    /\ (forall k l,
          nth_error linked k = Some l ->
          exists inh v,
            nth_error inheritances k = Some inh
            /\ CDMParser.deref entities' l = Some v
            /\ Inheritance.id v = InheritanceRefs.id inh
            /\ Inheritance.name v = InheritanceRefs.name inh
            /\ Inheritance.code v = InheritanceRefs.code inh
            /\ Inheritance.mutually_exclusive v
               = InheritanceRefs.mutually_exclusive inh
            /\ Inheritance.complete v = InheritanceRefs.complete inh
            /\ List.find (fun e => String.eqb (Entity.id e)
                                              (InheritanceRefs.parent inh))
                         entities'
               = Some (Inheritance.parent v)
            /\ Inheritance.children v
               = List.flat_map
                   (fun child =>
                      List.filter (fun e => String.eqb (Entity.id e) child)
                                  entities')
                   (InheritanceRefs.children inh)
            /\ (forall c, In c (Inheritance.children v) ->
                          Entity.is_child c = true)).
Proof.
  intros entities inheritances entities' linked r H.
  destruct (link_inheritances_entities _ _ _ _ _ H) as (He & Hlen & Hr & Hx).
  split; [exact Hx|].
  split; [apply (link_inheritances_raises _ _ _ _ _ H)|].
  split; [exact Hr|]. split; [exact He|].
  intros k l Hk.
  destruct (link_inheritances_linked _ _ _ _ _ entities' H
              (link_inheritances_ids _ _ _ _ _ H) k l Hk)
    as (inh & v & Hi & Hd & H1 & H2 & H3 & H4 & H5 & Hp & Hc).
  exists inh, v. repeat (split; [assumption|]).
  intros c Hin. rewrite Hc in Hin. apply in_flat_map in Hin.
  destruct Hin as (child & Hchild & Hin). apply List.filter_In in Hin.
  destruct Hin as [Hin Hid]. apply String.eqb_eq in Hid.
  rewrite He in Hin. apply in_map_iff in Hin. destruct Hin as (e & <- & _).
  assert (Hk' : k < length linked).
  { apply nth_error_Some. rewrite Hk. discriminate. }
  assert (Hl : CDMParser.listed_child (firstn (length linked) inheritances)
                                      (Entity.id e) = true).
  { apply (listed_child_nth _ _ k inh); [exact Hi|exact Hk'|].
    destruct (CDMParser.listed_child _ (Entity.id e)); rewrite <- Hid in Hchild;
      exact Hchild. }
  rewrite Hl. reflexivity.
Qed.

Lemma link_inheritances_links_witness :
  exists inh v,
    nth_error ParsedSample.chain 0 = Some inh
    /\ CDMParser.deref
         [Sample.member; Sample.author_child; CDMParser.set_is_child Sample.book]
         (LinkedInheritance.mk "o40" "Inheritance_5" "INHERITANCE_5" false false
                               1 [2])
       = Some v
    /\ Inheritance.id v = InheritanceRefs.id inh
    /\ Inheritance.name v = InheritanceRefs.name inh
    /\ Inheritance.code v = InheritanceRefs.code inh
    /\ Inheritance.mutually_exclusive v = InheritanceRefs.mutually_exclusive inh
    /\ Inheritance.complete v = InheritanceRefs.complete inh
    /\ List.find (fun e => String.eqb (Entity.id e) (InheritanceRefs.parent inh))
         [Sample.member; Sample.author_child; CDMParser.set_is_child Sample.book]
       = Some (Inheritance.parent v)
    /\ Inheritance.children v
       = List.flat_map
           (fun child =>
              List.filter (fun e => String.eqb (Entity.id e) child)
                [Sample.member; Sample.author_child;
                 CDMParser.set_is_child Sample.book])
           (InheritanceRefs.children inh)
    /\ (forall c, In c (Inheritance.children v) -> Entity.is_child c = true).
Proof.
  apply (proj2 (proj2 (proj2 (proj2
           (link_inheritances_links ParsedSample.people ParsedSample.chain
              [Sample.member; Sample.author_child;
               CDMParser.set_is_child Sample.book]
              [LinkedInheritance.mk "o40" "Inheritance_5" "INHERITANCE_5"
                 false false 1 [2];
               LinkedInheritance.mk "o41" "Inheritance_6" "INHERITANCE_6"
                 true false 0 [1]]
              None eq_refl))))
           0).
  reflexivity.
Defined.

(** * The answer of [validate_association] *)

Lemma attribute_scores_all (s c : Association.t) :
  forallb (fun x => Qlt_b (fst x) Validation.name_match_threshold)
          (Validation.attribute_scores s c) = true
  <-> forall a b,
        In a (Association.attributes s) -> In b (Association.attributes c) ->
        (score (Attribute.name a) (Attribute.name b)
         < Validation.name_match_threshold)%Q.
Proof.
  rewrite forallb_forall. unfold Validation.attribute_scores. split.
  - intros H a b Ha Hb. apply Qlt_b_iff.
    apply (H (Validation.score1 (Attribute.name a) (Attribute.name b),
              Attribute.name a)).
    apply in_flat_map. exists a. split; [exact Ha|].
    apply in_map_iff. exists b. split; [reflexivity|exact Hb].
  - intros H x Hx. apply in_flat_map in Hx. destruct Hx as (a & Ha & Hx).
    apply in_map_iff in Hx. destruct Hx as (b & <- & Hb).
    apply Qlt_b_iff. cbn [fst]. rewrite score1_score. apply H; assumption.
Qed.

(** X18.  The three answers of [validate_association].  It answers [True]
    when both associations have no attribute.  Otherwise, when every pair
    of a source attribute and a solution attribute scores below the
    threshold (in particular when only one of the two associations has
    attributes), it emits the attributes-mismatch diagnostic and answers
    [False].  When some pair scores at least the threshold it answers
    [None], without a diagnostic: a pair of associations with matching
    attributes is not accepted. *)
Theorem validate_association_outcome :
  forall s c : Association.t,
    (Association.attributes s = [] /\ Association.attributes c = [] ->
     Validation.validate_association s c = ([], Ok (Some true)))
    /\ (~ (Association.attributes s = [] /\ Association.attributes c = []) ->
        (forall a b,
           In a (Association.attributes s) ->
           In b (Association.attributes c) ->
           (score (Attribute.name a) (Attribute.name b)
            < Validation.name_match_threshold)%Q) ->
        Validation.validate_association s c
        = (emitted (association_attributes_error s), Ok (Some false)))
    /\ (forall a b,
          In a (Association.attributes s) ->
          In b (Association.attributes c) ->
          (Validation.name_match_threshold
           <= score (Attribute.name a) (Attribute.name b))%Q ->
          Validation.validate_association s c = ([], Ok None)).
Proof.
  intros s c. unfold Validation.validate_association. split.
  { intros [-> ->]. reflexivity. }
  assert (Hne : ~ (Association.attributes s = []
                   /\ Association.attributes c = []) ->
                (length (Association.attributes s)
                 =? length (Association.attributes c))
                && (length (Association.attributes s) =? 0) = false).
  { intros Hn. apply not_true_is_false. intros Ht.
    apply andb_true_iff in Ht. destruct Ht as [H1 H2].
    apply Nat.eqb_eq in H1, H2. apply Hn.
    destruct (Association.attributes s); [|discriminate].
    destruct (Association.attributes c); [|discriminate]. auto. }
  split.
  - intros Hn Hall. rewrite (Hne Hn).
    rewrite (proj2 (attribute_scores_all s c) Hall). reflexivity.
  - intros a b Ha Hb Hs.
    rewrite Hne by (intros [E _]; rewrite E in Ha; destruct Ha).
    destruct (forallb _ (Validation.attribute_scores s c)) eqn:F;
      [|reflexivity].
    pose proof (proj1 (attribute_scores_all s c) F a b Ha Hb) as Hlt.
    destruct (Qlt_not_le _ _ Hlt Hs).
Qed.

Lemma validate_association_outcome_witness :
  Validation.validate_association Sample.borrows
    (Association.mk "o4" "Borrows" "BORROWS" [])
  = (emitted (association_attributes_error Sample.borrows), Ok (Some false)).
Proof.
  apply (proj1 (proj2 (validate_association_outcome Sample.borrows
                         (Association.mk "o4" "Borrows" "BORROWS" [])))).
  - intros [H _]. discriminate.
  - intros a b _ [].
Defined.
